(* ===== verification/_CoqProject ===== *)
-Q . S2P
Prelude.v
Trans.v
CInt.v
Printf.v
Spec.v
World.v
Osd.v
Stream.v
Dzen.v
Field.v
Battery.v
Thermal.v
Cpu.v
Volume.v
Date.v
Main.v
Loop.v
Refine.v
Tree.v
