(* ===== verification/Prelude.v ===== *)
(** * jstatus: a verified model of the status-line reporter

    jstatus (src/jstatus.c) is a single C file.  [main] opens a pipe to
    dzen2 and then, once a second and for ever, samples the battery, the
    thermal zone, the CPU tick counters, the mixer volume and the wall
    clock, writes one line of dzen2 markup to the pipe and flushes it.
    Three of the five field printers remember a value of the previous
    cycle in a function-local [static]; two of them pop up an on-screen
    message through [show_message] (xosd) when the machine goes on
    battery, when the battery is low, or when the temperature crosses
    80 C.  The program ends only by failing: [err(1, ...)] when the pipe
    or the mixer cannot be used, or a signal when the usage division
    traps.

    ** How the program is modelled

    Every C function is a Rocq function of the same name in the monad
    [Prog World] of this file: a function from the state to an [outcome],
    which is a return ([Ok]), an exit through [err(3)] with its status and
    message ([Exit]) or a machine trap ([Fault]), each with the state
    reached.  The state [World.World] bundles the six [static] variables
    ([osd], [prev_state], [prev_temp], [prev_total], [prev_idle], [fd]),
    the stdio buffer of the pipe [fp_buf], what dzen2 has received
    [dzen_in], the messages displayed [osd_shown], the clock, and one
    ghost counter, [mixer_opens], that counts the successful calls of
    [open].  What the operating system answers during one cycle is a
    record [World.Env]: each sysctl value or its failure, the contents the
    uninitialised variables happen to hold, the result of [open] and of
    the ioctl, the broken-down local time, and whether a display is there.
    The theorems quantify over every [Env], so they hold whatever the
    kernel does.  The endless loop is modelled twice: by its finite
    prefixes ([for_each body es] runs one iteration per environment of
    [es]), on which most theorems are stated, and as an interaction tree
    that never returns ([Tree.main]), which the prefixes are proved to
    describe.

    ** Files, in dependency order

    - [Prelude] (this file): [outcome], the monad [Prog] with its notation
      (scope [prog_scope]), [when] (an [if] with no [else]), [for_each],
      the specification triples [total], [exits], [faults] and their
      rules, the edge-trigger counting lemmas ([edge], [edges]), the
      tactics ([inv], [case_scrutinee], [prog_unfold], [prog_step],
      [zdiv]) and the hint databases ([jstatus] for [auto], [str],
      [prog] and [cint] for [autorewrite]).
    - [Trans]: transition systems driven by a list of environments:
      [steps], [reachable], the invariant rule, determinism of runs, and
      the lifting of a simulation from one iteration to runs.
    - [CInt]: the C type [int]: [wrap] to 32 bits, [add], [sub], [mul],
      the trapping [div] and [rem], the narrowing [of_long].
    - [Printf]: the conversions [%d] ([fmt_d]), [%02d] ([fmt_0d 2]) and
      the space-padded field of strftime's [%k] ([fmt_sd 2]), with the
      numeral reader [parse_d] they are checked against and the
      comparison with the decimal printer of the Standard Library.
    - [Spec]: the reporter as the specification describes it, on
      abstract data: [update] (DeltaTracker), [evaluate] (AlertEngine),
      [render] (LineFormatter) over the class [Markup] of icons, and
      [cycle], [run] (SamplingLoop).  Written from the specification,
      not from the code.
    - [World]: the state, the environment, the C library calls the
      program makes on them ([fputs], [fflush], [die] for [err],
      [sleep], [sysctlbyname_int], [sysctlbyname_cp_time]), frames as
      equivalences ([unchanged_by]), the well-formedness [wf].
    - [Osd]: [show_message] (lines 60-79) and the xosd calls it makes.
    - [Stream]: the interface between the printers and the loop: the
      judgement [Writes n m] (the statement [m] adds text with [n]
      newlines to the pipe, keeps the statics in range, exits only with
      status 1 and a flushed stream) and its rules, as instances.
    - [Dzen]: the [#define]s and [print_icon], [print_dot] (lines 31-57).
    - [Field]: the class [Static] of a function-local static and what
      [print_bat] and [print_temp] share, proved once for both.
    - [Battery]: [print_bat] (lines 84-121).
    - [Thermal]: [TZ_KELVTOC] and [print_temp] (lines 123-142).
    - [Cpu]: [print_cpu_usage] (lines 144-171).
    - [Volume]: [print_volume] (lines 173-194).
    - [Date]: [print_date] (lines 196-208), with the year of [%Y] as the
      C library's [_yconv] prints it.
    - [Main]: the body of the loop, [cycle], and [main] (lines 210-236).
    - [Loop]: the loop as a transition system, [step], with its
      invariant.
    - [Refine]: the abstraction from the process to the data of [Spec]
      ([sample], [state_of], the instance [dzen_markup]), the refinement
      relation [related], the nominal conditions [reads] and [in_range],
      and the simulation of [Spec] by the program.
    - [Tree]: [main] as an interaction tree (library ITree, coinductive
      predicates with Paco): the events [Sense], [Halt] and [Trap], the
      loop [forever] built with [ITree.iter], the handler [feed] that
      answers from a list, the path property [safe].

    ** What the theorems show

    - Each field printer in closed form (the [*_run] lemmas): its outcome
      and final state for every environment and state.  From these: what
      each function appends to the stream, which statics it stores and
      that it changes nothing else ([print_bat_total], [print_temp_total],
      [print_cpu_usage_statics], [print_volume_total],
      [print_date_total]).
    - Alerts: "ON BATTERY" exactly on the transition into discharging and
      once per transition over any run ([print_bat_alerts],
      [print_bat_edges]); "PLUG AC!" on every cycle below 10; "High
      temperature" once per upward crossing of 80 ([print_temp_alert],
      [print_temp_crossings]); the notifier never stops the program
      ([show_message_never_stops]).
    - Arithmetic at machine width: the usage is the rounded busy share,
      between 0 and 100, as long as [1000 * busy] fits an [int]
      ([print_cpu_usage_percent]); beyond, it wraps ([usage_wraps]); the
      narrowed tick counters give exact differences
      ([diff_total_exact]); the temperature is the distance to 2732
      tenths of a kelvin divided by ten and truncated toward zero
      ([print_temp_celsius]); the volume is the low seven bits.
    - Failures: the division traps on an unchanged total
      ([print_cpu_usage_zero_total]); the mixer failures exit with
      status 1 ([print_volume_open_fails], [print_volume_ioctl_fails]);
      failed sysctl reads go unnoticed ([print_bat_failed_read]).
    - The cycle: a healthy cycle writes exactly one line, the five
      fields in order ([cycle_writes_line]); it returns exactly when it
      is healthy ([cycle_returns_iff]); what dzen2 sees on each way out
      ([cycle_exits], [cycle_traps]).
    - The loop: the rules of [Loop.step] are the body of the loop
      ([step_iff]), runs of the loop are runs of the rules
      ([main_steps]), [n] cycles write [n] lines ([main_lines]) with
      [n] newlines and no more whatever the kernel answers
      ([main_line_count], from the [Writes] instances of the printers),
      and the invariant of every reachable configuration
      ([reachable_inv]).
    - The process as a whole: answered with [n] environments that keep
      it healthy, the tree of [main] is back at the top of its loop with
      exactly the [n] lines of these iterations handed to dzen2
      ([main_delivers]); the invariant holds along every path of the
      tree, infinite ones included, and the tree has no leaf: [main]
      never returns ([main_safe]).  Two lemmas that hold of any loop
      body connect the tree to the prefixes: a tree answered from a list
      is the tree resumed from the outcome of [for_each]
      ([forever_feed]), and what holds along every path holds of every
      finite run ([safe_sound]).
    - Refinement: on nominal cycles (every read succeeds with a value
      in its physical range, the tick total has advanced, the hour has
      two digits) a cycle of the program is a cycle of the
      specification ([cycle_simulates]), a run is a run
      ([run_simulates]) and the line is the specified rendering
      ([line_renders]).  Outside these conditions the program and the
      specification differ: the division traps where the specification
      reuses the last value, the life is not clamped, failed reads go
      unnoticed, the hour is padded with a space.
    - Formatting: printing then reading a number gives it back
      ([fmt_roundtrip]); [%d] prints what the Standard Library's decimal
      printer prints ([fmt_d_reference]); field widths ([fmt_widths]);
      [%Y] is the year on at least four digits ([yconv_04d]); the date
      always fits its buffer ([strftime_fits]); a line is at most 298
      characters long ([line_length]).

    ** Conventions, bounds and fuel

    - A C [int] is a [Z] kept in the 32-bit range by [CInt.wrap] after
      every operation.  Signed overflow, undefined in C, is modelled as
      the wrap-around the compiled code performs; the theorems that
      depend on it say so.  Division is [CInt.div], which has no value
      when the divisor is zero or the quotient overflows: the machine
      traps there.
    - [Printf.udigits] produces digits with fuel [S (log2 n)], which is
      never less than the number of decimal digits of [n]
      ([Printf.fuel_enough]); no theorem is conditional on the fuel.
    - [for_each] runs the first [length es] iterations.  The statements
      about runs hold for every length, so they describe every finite
      prefix of the endless loop.  The infinite run is [Tree.forever],
      an [ITree.iter] that needs no fuel; [Tree.safe] is the greatest
      fixed point of its rules (Paco), so it speaks of infinite paths.
      [Tree] is the only file that loads a library beside the Standard
      Library.
    - Text is a Standard Library [string]; what is written to the pipe
      is appended to [fp_buf] and moved to [dzen_in] by [fflush] and by
      [exit].  [fp_buf] has no capacity: stdio would flush a full buffer
      by itself, but the buffer holds one line at most, a line is at
      most 298 characters ([Main.line_length]) and [BUFSIZ] is 1024.
    - [localtime] is taken to return a broken-down time with its fields
      in the ranges of <time.h> ([Date.valid_tm]); the theorems that
      need it say so.  It returns NULL only when the year does not fit
      an [int], and [print_date] would then crash in [strftime]; that
      case is left out.

    ** What is not modelled

    - dzen2 itself and the bytes-to-pixels meaning of the markup; write
      errors on the pipe (the source never checks [fprintf] or
      [fflush]).
    - The xosd library beyond the settings of the handle and the text of
      its line: drawing, timers and the dismissal after 4 seconds.
    - The kernel: sysctl, the mixer and the clock are inputs.  The time
      [sleep] really takes and signals other than the division trap are
      left out.
    - [strftime] beyond the five conversions of the format string, and
      locales: the conversions used print numbers only.
    - The statements after the loop (unreachable).
*)

From Stdlib Require Import ZArith Lia String Ascii List Bool PeanoNat.
Import ListNotations.

Local Open Scope string_scope.

(** ** Outcomes and the program monad

    A C function of the program either returns, leaves the process through
    [err(3)] with an exit code and a message, or stops on a machine trap.
    In each case the state reached so far is kept, so that what was written
    before the failure can still be stated. *)

Inductive outcome (S A : Type) : Type :=
| Ok (a : A) (s : S)
| Exit (code : Z) (msg : string) (s : S)
| Fault (s : S).

Arguments Ok {S A} a s.
Arguments Exit {S A} code msg s.
Arguments Fault {S A} s.

Definition Prog (S A : Type) : Type := S -> outcome S A.

Definition ret {S A : Type} (a : A) : Prog S A := fun s => Ok a s.

Definition bind {S A B : Type} (m : Prog S A) (k : A -> Prog S B) : Prog S B :=
  fun s =>
    match m s with
    | Ok a s' => k a s'
    | Exit c msg s' => Exit c msg s'
    | Fault s' => Fault s'
    end.

Definition get {S : Type} : Prog S S := fun s => Ok s s.

Definition put {S : Type} (s : S) : Prog S unit := fun _ => Ok tt s.

Definition modify {S : Type} (f : S -> S) : Prog S unit := fun s => Ok tt (f s).

Definition err {S A : Type} (code : Z) (msg : string) : Prog S A :=
  fun s => Exit code msg s.

Definition trap {S A : Type} : Prog S A := fun s => Fault s.

(** C's [if (c) stmt;] with no else branch. *)
Definition when {S : Type} (c : bool) (m : Prog S unit) : Prog S unit :=
  if c then m else ret tt.

(** The body of a loop run once per element, in order: the first
    [length es] iterations of a [for (;;)] whose [i]-th iteration meets
    the [i]-th environment. *)
Fixpoint for_each {S E : Type} (body : E -> Prog S unit) (es : list E) : Prog S unit :=
  match es with
  | [] => ret tt
  | e :: es' => bind (body e) (fun _ => for_each body es')
  end.

(** The state an outcome stops in, whatever the outcome. *)
Definition final_state {S A : Type} (o : outcome S A) : S :=
  match o with
  | Ok _ s => s
  | Exit _ _ s => s
  | Fault s => s
  end.

Definition is_ok {S A : Type} (o : outcome S A) : bool :=
  match o with
  | Ok _ _ => true
  | _ => false
  end.

Declare Scope prog_scope.
Delimit Scope prog_scope with prog.

Notation "x <- m ;; k" := (bind m (fun x => k))
  (at level 61, m at next level, right associativity) : prog_scope.
Notation "m ;; k" := (bind m (fun _ => k))
  (at level 61, right associativity) : prog_scope.

(** ** Tactics *)

(** [inv H]: inversion that cleans up after itself. *)
Ltac inv H := inversion H; subst; clear H.

(** [case_scrutinee]: case analysis on the innermost term the goal
    matches on, keeping the equation. *)
Ltac case_scrutinee :=
  match goal with
  | |- context [match ?x with _ => _ end] =>
      lazymatch x with
      | context [match _ with _ => _ end] => fail
      | _ => let E := fresh "E" in destruct x eqn:E
      end
  end.

(** [prog_unfold]: expose a monadic computation as a match on outcomes. *)
Ltac prog_unfold := unfold bind, ret, get, put, modify, err, trap, when in *.

(** [zdiv]: linear arithmetic with division and modulo, floor or
    truncating, turned into their defining equations first. *)
Ltac zdiv := Z.to_euclidean_division_equations; nia.

(** ** Hint databases *)

Create HintDb jstatus discriminated.
Create Rewrite HintDb str.
Create Rewrite HintDb prog.
Create Rewrite HintDb cint.
Create Rewrite HintDb count.

(** ** Strings *)

Lemma append_nil_r (s : string) : s ++ "" = s.
Proof. induction s as [|c s IH]; simpl; [reflexivity | now rewrite IH]. Qed.

Lemma append_assoc (a b c : string) : (a ++ b) ++ c = a ++ (b ++ c).
Proof. induction a as [|x a IH]; simpl; [reflexivity | now rewrite IH]. Qed.

Lemma length_append (a b : string) :
  String.length (a ++ b) = (String.length a + String.length b)%nat.
Proof. induction a as [|x a IH]; simpl; [reflexivity | now rewrite IH]. Qed.

Lemma append_inv_head (a b c : string) : a ++ b = a ++ c -> b = c.
Proof.
  induction a as [|x a IH]; simpl; intros H; [assumption |].
  injection H as H. auto.
Qed.

Lemma append_cons (x : ascii) (a b : string) : String x a ++ b = String x (a ++ b).
Proof. reflexivity. Qed.

#[export] Hint Rewrite append_nil_r append_assoc length_append : str.

(** ** Lists *)

(** The occurrences of a character in a text. *)
Fixpoint count_char (c : ascii) (s : string) : nat :=
  match s with
  | EmptyString => 0
  | String a s' => (if Ascii.eqb a c then 1 else 0) + count_char c s'
  end.

Lemma count_char_append (c : ascii) (s t : string) :
  count_char c (s ++ t) = (count_char c s + count_char c t)%nat.
Proof.
  induction s as [|a s IH]; [reflexivity |].
  cbn [append count_char]. rewrite IH. lia.
Qed.

#[export] Hint Rewrite count_char_append : count.

Lemma concat_cons (x : string) (xs : list string) :
  String.concat "" (x :: xs) = x ++ String.concat "" xs.
Proof. destruct xs; [now rewrite append_nil_r | reflexivity]. Qed.

(** The last element of a non-empty list does not depend on the default. *)
Lemma last_cons_default {A : Type} (x : A) (l : list A) (d d' : A) :
  last (x :: l) d = last (x :: l) d'.
Proof.
  revert x. induction l as [|y l IH]; intros x; [reflexivity |].
  change (last (y :: l) d = last (y :: l) d'). apply IH.
Qed.

(** ** Edge triggers

    An alert is edge-triggered on a condition [high] when it is raised on
    the samples where the condition holds and did not hold on the sample
    before.  [edges prev xs] counts these samples in a run [xs] that
    follows the sample [prev]. *)

Section Edges.
Context {A : Type} (high : A -> bool).

Definition edge (prev cur : A) : bool := high cur && negb (high prev).

Fixpoint edges (prev : A) (xs : list A) : nat :=
  match xs with
  | [] => 0
  | x :: rest => (if edge prev x then 1 else 0) + edges x rest
  end.

Lemma edge_true (prev cur : A) :
  edge prev cur = true <-> high cur = true /\ high prev = false.
Proof. unfold edge. destruct (high cur), (high prev); cbn; intuition congruence. Qed.

(** Two consecutive samples never both raise the alert. *)
Lemma edge_not_twice (prev cur next : A) :
  edge prev cur = true -> edge cur next = false.
Proof.
  unfold edge. destruct (high cur), (high prev), (high next); cbn; congruence.
Qed.

(** No sample raises it while the condition never holds, or keeps
    holding from the start. *)
Lemma edges_never (prev : A) (xs : list A) :
  Forall (fun x => high x = false) xs -> edges prev xs = 0.
Proof.
  intros H. revert prev. induction H as [|x xs Hx _ IH]; intros prev; [reflexivity |].
  cbn [edges]. unfold edge. now rewrite Hx, IH.
Qed.

Lemma edges_steady (prev : A) (xs : list A) :
  high prev = true -> Forall (fun x => high x = true) xs -> edges prev xs = 0.
Proof.
  intros Hp H. revert prev Hp. induction H as [|x xs Hx _ IH]; intros prev Hp; [reflexivity |].
  cbn [edges]. unfold edge. rewrite Hp, Hx, IH by assumption. reflexivity.
Qed.

Lemma edges_app (prev : A) (xs ys : list A) :
  edges prev (xs ++ ys) = edges prev xs + edges (last xs prev) ys.
Proof.
  revert prev. induction xs as [|x xs IH]; intros prev; [reflexivity |].
  cbn [app edges]. rewrite IH, Nat.add_assoc. do 2 f_equal.
  destruct xs as [|y xs]; [reflexivity | exact (last_cons_default y xs x prev)].
Qed.

(** Every alert but possibly the first needs a sample in between on which
    the condition did not hold: a run of [n] samples raises at most
    [(n + 1) / 2] alerts. *)
Lemma edges_bound (prev : A) (xs : list A) :
  2 * edges prev xs <= length xs + (if high prev then 0 else 1).
Proof.
  revert prev. induction xs as [|x xs IH]; intros prev; cbn [edges length].
  - destruct (high prev); lia.
  - specialize (IH x). unfold edge.
    destruct (high x), (high prev); cbn [andb negb] in *; lia.
Qed.

End Edges.

(** ** The monad laws *)

Section ProgLaws.
Context {S A B C : Type}.

Lemma bind_ret_l (a : A) (k : A -> Prog S B) (s : S) : bind (ret a) k s = k a s.
Proof. reflexivity. Qed.

Lemma bind_ret_r (m : Prog S A) (s : S) : bind m ret s = m s.
Proof. prog_unfold. destruct (m s); reflexivity. Qed.

Lemma bind_assoc (m : Prog S A) (k : A -> Prog S B) (h : B -> Prog S C) (s : S) :
  bind (bind m k) h s = bind m (fun a => bind (k a) h) s.
Proof. prog_unfold. destruct (m s); reflexivity. Qed.

Lemma bind_ok (m : Prog S A) (k : A -> Prog S B) (s s' : S) (a : A) :
  m s = Ok a s' -> bind m k s = k a s'.
Proof. intros H. prog_unfold. now rewrite H. Qed.

Lemma bind_exit (m : Prog S A) (k : A -> Prog S B) (s s' : S) c msg :
  m s = Exit c msg s' -> bind m k s = Exit c msg s'.
Proof. intros H. prog_unfold. now rewrite H. Qed.

Lemma bind_fault (m : Prog S A) (k : A -> Prog S B) (s s' : S) :
  m s = Fault s' -> bind m k s = Fault s'.
Proof. intros H. prog_unfold. now rewrite H. Qed.

(** A sequence returns only when both halves do. *)
Lemma bind_ok_inv (m : Prog S A) (k : A -> Prog S B) (s s2 : S) (b : B) :
  bind m k s = Ok b s2 -> exists a s1, m s = Ok a s1 /\ k a s1 = Ok b s2.
Proof.
  unfold bind. destruct (m s) as [a s1| |]; intros H; try discriminate.
  now exists a, s1.
Qed.

Lemma bind_get (k : S -> Prog S B) (s : S) : bind get k s = k s s.
Proof. reflexivity. Qed.

Lemma bind_modify (f : S -> S) (k : unit -> Prog S B) (s : S) :
  bind (modify f) k s = k tt (f s).
Proof. reflexivity. Qed.

Lemma bind_err (k : A -> Prog S B) (code : Z) (msg : string) (s : S) :
  bind (err code msg) k s = Exit code msg s.
Proof. reflexivity. Qed.

Lemma bind_trap (k : A -> Prog S B) (s : S) : bind trap k s = Fault s.
Proof. reflexivity. Qed.

End ProgLaws.

(** [prog_step L]: run the first statement of a sequence, given its
    closed form [L : m s = Ok a s']. *)
Tactic Notation "prog_step" uconstr(L) := rewrite (bind_ok _ _ _ _ _ L).

#[export] Hint Rewrite @bind_ret_l @bind_ret_r @bind_assoc @bind_get @bind_modify
  @bind_err @bind_trap : prog.

(** ** Specifications of programs

    [total P m Q]: from every state that satisfies [P] the program [m]
    returns, and the initial state, the result and the final state are
    related by [Q].  [exits P m c msg Q] and [faults P m Q] say the same of
    the two ways a program stops early.  The rules below build the
    specification of a sequence from those of its parts. *)

Section Triples.
Context {S : Type}.

Definition total {A : Type} (P : S -> Prop) (m : Prog S A)
  (Q : S -> A -> S -> Prop) : Prop :=
  forall s, P s -> exists a s', m s = Ok a s' /\ Q s a s'.

Definition exits {A : Type} (P : S -> Prop) (m : Prog S A) (code : Z)
  (msg : string) (Q : S -> S -> Prop) : Prop :=
  forall s, P s -> exists s', m s = Exit code msg s' /\ Q s s'.

Definition faults {A : Type} (P : S -> Prop) (m : Prog S A)
  (Q : S -> S -> Prop) : Prop :=
  forall s, P s -> exists s', m s = Fault s' /\ Q s s'.

Context {A B : Type}.
Implicit Types (P : S -> Prop) (m : Prog S A) (k : A -> Prog S B).

Lemma total_ret (a : A) P (Q : S -> A -> S -> Prop) :
  (forall s, P s -> Q s a s) -> total P (ret a) Q.
Proof. intros H s Hs. exists a, s. auto. Qed.

Lemma total_get P (Q : S -> S -> S -> Prop) :
  (forall s, P s -> Q s s s) -> total P get Q.
Proof. intros H s Hs. exists s, s. auto. Qed.

Lemma total_modify (f : S -> S) P (Q : S -> unit -> S -> Prop) :
  (forall s, P s -> Q s tt (f s)) -> total P (modify f) Q.
Proof. intros H s Hs. exists tt, (f s). auto. Qed.

Lemma total_bind P m k (R : S -> A -> S -> Prop) (Q : S -> B -> S -> Prop) :
  total P m R ->
  (forall s0 a, P s0 -> total (R s0 a) (k a) (fun _ b s2 => Q s0 b s2)) ->
  total P (bind m k) Q.
Proof.
  intros Hm Hk s0 Hs. destruct (Hm s0 Hs) as (a & s1 & E1 & H1).
  destruct (Hk s0 a Hs s1 H1) as (b & s2 & E2 & H2).
  exists b, s2. split; [| exact H2]. now prog_step E1.
Qed.

Lemma total_conseq P P' m (Q Q' : S -> A -> S -> Prop) :
  total P m Q ->
  (forall s, P' s -> P s) ->
  (forall s a s', P' s -> Q s a s' -> Q' s a s') ->
  total P' m Q'.
Proof.
  intros Hm HP HQ s Hs. destruct (Hm s (HP s Hs)) as (a & s' & E & H).
  exists a, s'. auto.
Qed.

(** A sequence exits in its first part, or in its second after the first
    has returned. *)
Lemma exits_bind_l P m k code msg (Q : S -> S -> Prop) :
  exits P m code msg Q -> exits P (bind m k) code msg Q.
Proof.
  intros Hm s Hs. destruct (Hm s Hs) as (s' & E & H).
  exists s'. split; [| exact H]. now rewrite (bind_exit _ _ _ _ _ _ E).
Qed.

Lemma exits_bind_r P m k code msg (R : S -> A -> S -> Prop) (Q : S -> S -> Prop) :
  total P m R ->
  (forall s0 a, P s0 -> exits (R s0 a) (k a) code msg (fun _ s2 => Q s0 s2)) ->
  exits P (bind m k) code msg Q.
Proof.
  intros Hm Hk s0 Hs. destruct (Hm s0 Hs) as (a & s1 & E1 & H1).
  destruct (Hk s0 a Hs s1 H1) as (s2 & E2 & H2).
  exists s2. split; [| exact H2]. now prog_step E1.
Qed.

Lemma faults_bind_l P m k (Q : S -> S -> Prop) :
  faults P m Q -> faults P (bind m k) Q.
Proof.
  intros Hm s Hs. destruct (Hm s Hs) as (s' & E & H).
  exists s'. split; [| exact H]. now rewrite (bind_fault _ _ _ _ E).
Qed.

Lemma faults_bind_r P m k (R : S -> A -> S -> Prop) (Q : S -> S -> Prop) :
  total P m R ->
  (forall s0 a, P s0 -> faults (R s0 a) (k a) (fun _ s2 => Q s0 s2)) ->
  faults P (bind m k) Q.
Proof.
  intros Hm Hk s0 Hs. destruct (Hm s0 Hs) as (a & s1 & E1 & H1).
  destruct (Hk s0 a Hs s1 H1) as (s2 & E2 & H2).
  exists s2. split; [| exact H2]. now prog_step E1.
Qed.

End Triples.

(** A loop whose body always returns is the fold of its effect. *)
Lemma for_each_run {S E : Type} (body : E -> Prog S unit) (f : E -> S -> S)
  (es : list E) (s : S) :
  (forall e s, body e s = Ok tt (f e s)) ->
  for_each body es s = Ok tt (fold_left (fun s e => f e s) es s).
Proof.
  intros H. revert s. induction es as [|e es IH]; intros s; [reflexivity |].
  cbn [for_each fold_left]. now prog_step (H e s).
Qed.

(** An invariant of the body, under a condition on the environments, is
    an invariant of the loop. *)
Lemma for_each_inv {S E : Type} (body : E -> Prog S unit) (I : S -> Prop)
  (P : E -> Prop) (es : list E) (s s' : S) :
  (forall e s s', P e -> I s -> body e s = Ok tt s' -> I s') ->
  Forall P es -> I s -> for_each body es s = Ok tt s' -> I s'.
Proof.
  intros Hb Hes. revert s. induction Hes as [|e es He _ IH]; intros s Hs.
  - now intros [= <-].
  - cbn [for_each]. intros H. apply bind_ok_inv in H as ([] & s1 & H1 & H2).
    eauto.
Qed.

Lemma for_each_app {S E : Type} (body : E -> Prog S unit) (es1 es2 : list E) (s : S) :
  for_each body (es1 ++ es2) s =
  bind (for_each body es1) (fun _ => for_each body es2) s.
Proof.
  revert s. induction es1 as [|e es1 IH]; intros s; [reflexivity |].
  cbn [for_each app]. unfold bind at 1 2 3.
  destruct (body e s) as [a s1| |]; [| reflexivity ..]. apply IH.
Qed.

(** A loop that does not return stopped in some iteration, which the
    iterations before it reached by returning. *)
Lemma for_each_stops {S E : Type} (body : E -> Prog S unit) (es : list E) (s : S)
  (o : outcome S unit) :
  for_each body es s = o -> is_ok o = false ->
  exists es1 e es2 s1,
    es = (es1 ++ e :: es2)%list /\ for_each body es1 s = Ok tt s1 /\ body e s1 = o.
Proof.
  revert s. induction es as [|e es IH]; intros s H Ho.
  - subst o. discriminate.
  - cbn [for_each] in H. unfold bind in H. destruct (body e s) as [[] s1| |] eqn:Hb.
    + destruct (IH s1 H Ho) as (es1 & e' & es2 & s2 & -> & H1 & H2).
      exists (e :: es1), e', es2, s2. cbn [for_each app].
      now prog_step Hb.
    + exists [], e, es, s. now subst.
    + exists [], e, es, s. now subst.
Qed.

(** A loop that returns went through every iteration by returning. *)
Lemma for_each_ok_cons {S E : Type} (body : E -> Prog S unit) (e : E) (es : list E)
  (s s' : S) :
  for_each body (e :: es) s = Ok tt s' <->
  exists s1, body e s = Ok tt s1 /\ for_each body es s1 = Ok tt s'.
Proof.
  cbn [for_each]. split.
  - intros H. apply bind_ok_inv in H as ([] & s1 & H1 & H2). eauto.
  - intros (s1 & H1 & H2). now prog_step H1.
Qed.

Lemma total_when {S : Type} (c : bool) (m : Prog S unit) (P : S -> Prop)
  (Q : S -> unit -> S -> Prop) :
  (c = true -> total P m Q) ->
  (c = false -> forall s, P s -> Q s tt s) ->
  total P (when c m) Q.
Proof.
  destruct c; intros Ht Hf; [now apply Ht | apply total_ret; now apply Hf].
Qed.

(** The three outcomes exclude one another: a program that returns from a
    state does not exit or fault from it. *)
Lemma total_not_exits {S A : Type} (P : S -> Prop) (m : Prog S A) Q code msg Q' s :
  P s -> total P m Q -> exits P m code msg Q' -> False.
Proof.
  intros Hs Ht He. destruct (Ht s Hs) as (a & s1 & E1 & _).
  destruct (He s Hs) as (s2 & E2 & _). congruence.
Qed.
