(* ===== verification/Trans.v ===== *)
(** * Trans: transition systems driven by a sequence of environments

    A loop whose iterations each meet a fresh environment is a labelled
    transition system: [step e c c'] is one iteration against [e].
    [steps es c c'] chains the iterations of a list of environments;
    [reachable c] holds of the configurations that some such chain reaches
    from an initial one.  [reachable_invariant] is the induction principle
    the invariants of the program are proved with, [steps_functional] the
    determinism of a run whose iterations are deterministic, and
    [simulation_steps] lifts a simulation between two such systems from
    one iteration to every run. *)

From Stdlib Require Import List.
From S2P Require Import Prelude.
Import ListNotations.

Section Transition.
Context {E C : Type}.
Variable ok : E -> Prop.
Variable step : E -> C -> C -> Prop.
Variable init : C -> Prop.

Inductive steps : list E -> C -> C -> Prop :=
| steps_nil (c : C) : steps [] c c
| steps_cons (e : E) (es : list E) (c1 c2 c3 : C) :
    ok e -> step e c1 c2 -> steps es c2 c3 -> steps (e :: es) c1 c3.

Inductive reachable : C -> Prop :=
| reach_init (c : C) : init c -> reachable c
| reach_step (e : E) (c c' : C) :
    ok e -> reachable c -> step e c c' -> reachable c'.

Lemma steps_one (e : E) (c c' : C) : ok e -> step e c c' -> steps [e] c c'.
Proof. intros Ho Hs. exact (steps_cons e [] c c' c' Ho Hs (steps_nil c')). Qed.

Lemma steps_app (es1 es2 : list E) (c1 c2 c3 : C) :
  steps es1 c1 c2 -> steps es2 c2 c3 -> steps (es1 ++ es2) c1 c3.
Proof.
  intros H. revert c3. induction H as [c | e es c1 c2 c3 Ho Hs _ IH]; intros c4 H4.
  - exact H4.
  - cbn [app]. exact (steps_cons e _ c1 c2 c4 Ho Hs (IH c4 H4)).
Qed.

Lemma steps_app_inv (es1 es2 : list E) (c1 c3 : C) :
  steps (es1 ++ es2) c1 c3 -> exists c2, steps es1 c1 c2 /\ steps es2 c2 c3.
Proof.
  revert c1. induction es1 as [|e es1 IH]; intros c1 H.
  - exists c1. split; [apply steps_nil | exact H].
  - cbn [app] in H. inversion H as [| e' es' a b c Ho Hs Hr]; subst.
    destruct (IH b Hr) as (c2 & H1 & H2).
    exists c2. split; [exact (steps_cons e es1 c1 b c2 Ho Hs H1) | exact H2].
Qed.

Lemma steps_ok (es : list E) (c c' : C) : steps es c c' -> Forall ok es.
Proof. induction 1; constructor; assumption. Qed.

Lemma steps_reachable (es : list E) (c c' : C) :
  steps es c c' -> reachable c -> reachable c'.
Proof.
  induction 1 as [c | e es c1 c2 c3 Ho Hs _ IH]; intros Hr; [exact Hr |].
  apply IH. exact (reach_step e c1 c2 Ho Hr Hs).
Qed.

Lemma reachable_steps (c : C) :
  reachable c -> exists c0 es, init c0 /\ steps es c0 c.
Proof.
  induction 1 as [c Hi | e c c' Ho _ (c0 & es & Hi & Hs) Hst].
  - exists c, []. split; [exact Hi | apply steps_nil].
  - exists c0, (es ++ [e]). split; [exact Hi |].
    exact (steps_app es [e] c0 c c' Hs (steps_one e c c' Ho Hst)).
Qed.

(** A property of the initial configurations that every iteration
    preserves holds of every reachable configuration. *)
Lemma reachable_invariant (I : C -> Prop) :
  (forall c, init c -> I c) ->
  (forall e c c', ok e -> I c -> step e c c' -> I c') ->
  forall c, reachable c -> I c.
Proof. intros Hi Hs c H. induction H; eauto. Qed.

(** The same along a run. *)
Lemma steps_invariant (I : C -> Prop) :
  (forall e c c', ok e -> I c -> step e c c' -> I c') ->
  forall es c c', steps es c c' -> I c -> I c'.
Proof. intros Hs es c c' H. induction H; eauto. Qed.

Hypothesis step_functional : forall e c c1 c2, step e c c1 -> step e c c2 -> c1 = c2.

Lemma steps_functional (es : list E) (c c1 c2 : C) :
  steps es c c1 -> steps es c c2 -> c1 = c2.
Proof.
  intros H. revert c2. induction H as [c | e es a b c Ho Hs _ IH]; intros c2 H2.
  - now inv H2.
  - inversion H2 as [| e' es' a' b' c' Ho' Hs' Hr']; subst.
    apply IH. now rewrite (step_functional e a b b' Hs Hs').
Qed.

End Transition.

(** ** Simulation

    Two systems, one concrete and one abstract, each driven by its own
    environments; [label] relates an environment of the first to the one
    the second sees, [R] a configuration of the first to the one of the
    second that describes it.  When every iteration of the first is
    matched by an iteration of the second, so is every run. *)

Section Simulation.
Context {E1 C1 E2 C2 : Type}.
Variable ok1 : E1 -> Prop.
Variable step1 : E1 -> C1 -> C1 -> Prop.
Variable ok2 : E2 -> Prop.
Variable step2 : E2 -> C2 -> C2 -> Prop.
Variable label : E1 -> E2 -> Prop.
Variable R : C1 -> C2 -> Prop.

Hypothesis simulation :
  forall e1 c1 c1', ok1 e1 -> step1 e1 c1 c1' ->
  forall c2, R c1 c2 ->
  exists e2 c2', label e1 e2 /\ ok2 e2 /\ step2 e2 c2 c2' /\ R c1' c2'.

Lemma simulation_steps (es1 : list E1) (c1 c1' : C1) :
  steps ok1 step1 es1 c1 c1' ->
  forall c2, R c1 c2 ->
  exists es2 c2',
    Forall2 label es1 es2 /\ steps ok2 step2 es2 c2 c2' /\ R c1' c2'.
Proof.
  induction 1 as [c | e es a b c Ho Hs _ IH]; intros c2 HR.
  - exists [], c2. split; [constructor |]. split; [apply steps_nil | exact HR].
  - destruct (simulation e a b Ho Hs c2 HR) as (e2 & b2 & Hl & Ho2 & Hs2 & HR2).
    destruct (IH b2 HR2) as (es2 & c2' & HF & Hss & HR').
    exists (e2 :: es2), c2'. split; [now constructor |].
    split; [exact (steps_cons ok2 step2 e2 es2 c2 b2 c2' Ho2 Hs2 Hss) | exact HR'].
Qed.

End Simulation.

Arguments steps_nil {E C ok step} c.
Arguments steps_cons {E C ok step} e es c1 c2 c3 _ _ _.
Arguments reach_init {E C ok step init} c _.
Arguments reach_step {E C ok step init} e c c' _ _ _.
