(* ===== verification/CInt.v ===== *)
(** * CInt: the integers of the C program

    Every counter and reading of jstatus.c is an [int]; the CPU tick
    counters arrive as [long] and are narrowed on assignment.  An [int] is
    modelled as a [Z] in the range of a 32-bit two's-complement word, and
    each arithmetic operator of the source as the mathematical operation
    followed by [wrap], the reduction into that range.  The C standard
    leaves signed overflow undefined; the compilers the program is built
    with produce the wrapped value, and the lemmas below say exactly when
    no wrap happens.  Division is C's: it truncates toward zero ([Z.quot])
    and has no value when the divisor is zero or the quotient does not
    fit, which is where the processor traps. *)

From Stdlib Require Import ZArith Lia Bool.
From S2P Require Import Prelude.

Local Open Scope Z_scope.

Module CInt.

Definition INT_MAX : Z := 2147483647.
Definition INT_MIN : Z := -2147483648.

(** [in_int z]: [z] is the value of some [int]. *)
Definition in_int (z : Z) : Prop := INT_MIN <= z <= INT_MAX.

Definition in_intb (z : Z) : bool := (INT_MIN <=? z) && (z <=? INT_MAX).

(** Reduction modulo 2^32 into the signed range. *)
Definition wrap (z : Z) : Z := (z + 2147483648) mod 4294967296 - 2147483648.

Definition add (a b : Z) : Z := wrap (a + b).
Definition sub (a b : Z) : Z := wrap (a - b).
Definition mul (a b : Z) : Z := wrap (a * b).

(** [a / b] in C: no value on a zero divisor or on INT_MIN / -1. *)
Definition div (a b : Z) : option Z :=
  if b =? 0 then None
  else if (a =? INT_MIN) && (b =? -1) then None
  else Some (Z.quot a b).

(** [a % b] in C, with the sign of the dividend. *)
Definition rem (a b : Z) : option Z :=
  if b =? 0 then None
  else if (a =? INT_MIN) && (b =? -1) then None
  else Some (Z.rem a b).

(** [abs(a)] of <stdlib.h>. *)
Definition abs (a : Z) : Z := wrap (Z.abs a).

(** The conversion of a [long] to [int] on assignment. *)
Definition of_long (l : Z) : Z := wrap l.

(** ** Range *)

Lemma in_intb_spec (z : Z) : reflect (in_int z) (in_intb z).
Proof.
  apply iff_reflect. unfold in_int, in_intb. lia.
Qed.

Lemma wrap_in_int (z : Z) : in_int (wrap z).
Proof. unfold in_int, wrap, INT_MIN, INT_MAX. zdiv. Qed.

Lemma wrap_small (z : Z) : in_int z -> wrap z = z.
Proof. unfold in_int, wrap, INT_MIN, INT_MAX. intros H. zdiv. Qed.

Lemma wrap_idem (z : Z) : wrap (wrap z) = wrap z.
Proof. apply wrap_small, wrap_in_int. Qed.

(** [wrap] changes a number by a multiple of 2^32 only. *)
Lemma wrap_cong (z : Z) : exists k, wrap z = z + k * 4294967296.
Proof.
  exists (- ((z + 2147483648) / 4294967296)). unfold wrap. zdiv.
Qed.

(** Two numbers that differ by a multiple of 2^32 wrap to the same [int]. *)
Lemma wrap_shift (z k : Z) : wrap (z + k * 4294967296) = wrap z.
Proof.
  unfold wrap.
  replace (z + k * 4294967296 + 2147483648)
    with (z + 2147483648 + k * 4294967296) by lia.
  now rewrite Z.mod_add by lia.
Qed.

Lemma wrap_add_l (a b : Z) : wrap (wrap a + b) = wrap (a + b).
Proof.
  destruct (wrap_cong a) as [k ->].
  replace (a + k * 4294967296 + b) with (a + b + k * 4294967296) by lia.
  apply wrap_shift.
Qed.

Lemma wrap_add_r (a b : Z) : wrap (a + wrap b) = wrap (a + b).
Proof. rewrite Z.add_comm, wrap_add_l. f_equal. lia. Qed.

Lemma wrap_sub_l (a b : Z) : wrap (wrap a - b) = wrap (a - b).
Proof. unfold Z.sub. apply wrap_add_l. Qed.

Lemma wrap_sub_r (a b : Z) : wrap (a - wrap b) = wrap (a - b).
Proof.
  destruct (wrap_cong b) as [k ->].
  replace (a - (b + k * 4294967296)) with (a - b + (- k) * 4294967296) by lia.
  apply wrap_shift.
Qed.

#[export] Hint Rewrite wrap_idem wrap_add_l wrap_add_r wrap_sub_l wrap_sub_r : cint.

Lemma add_in_int (a b : Z) : in_int (add a b).
Proof. apply wrap_in_int. Qed.

Lemma sub_in_int (a b : Z) : in_int (sub a b).
Proof. apply wrap_in_int. Qed.

Lemma mul_in_int (a b : Z) : in_int (mul a b).
Proof. apply wrap_in_int. Qed.

Lemma of_long_in_int (l : Z) : in_int (of_long l).
Proof. apply wrap_in_int. Qed.

Lemma add_exact (a b : Z) : in_int (a + b) -> add a b = a + b.
Proof. apply wrap_small. Qed.

Lemma sub_exact (a b : Z) : in_int (a - b) -> sub a b = a - b.
Proof. apply wrap_small. Qed.

Lemma mul_exact (a b : Z) : in_int (a * b) -> mul a b = a * b.
Proof. apply wrap_small. Qed.

(** ** Division *)

Lemma div_zero (a : Z) : div a 0 = None.
Proof. reflexivity. Qed.

Lemma div_some (a b : Z) :
  b <> 0 -> (a <> INT_MIN \/ b <> -1) -> div a b = Some (Z.quot a b).
Proof.
  intros Hb Hab. unfold div.
  destruct (Z.eqb_spec b 0); [contradiction |].
  destruct (Z.eqb_spec a INT_MIN), (Z.eqb_spec b (-1)); simpl;
    try reflexivity; lia.
Qed.

Lemma div_pos (a b : Z) : 0 < b -> div a b = Some (Z.quot a b).
Proof. intros Hb. apply div_some; lia. Qed.

Lemma div_some_inv (a b q : Z) :
  div a b = Some q -> b <> 0 /\ q = Z.quot a b.
Proof.
  unfold div. destruct (Z.eqb_spec b 0); [discriminate |].
  destruct ((a =? INT_MIN) && (b =? -1)); [discriminate |].
  intros [= <-]. auto.
Qed.

Lemma div_none_inv (a b : Z) :
  div a b = None -> b = 0 \/ (a = INT_MIN /\ b = -1).
Proof.
  unfold div. destruct (Z.eqb_spec b 0); [auto |].
  destruct (Z.eqb_spec a INT_MIN), (Z.eqb_spec b (-1)); simpl;
    try discriminate. auto.
Qed.

(** A quotient that exists is an [int] again. *)
Lemma div_in_int (a b q : Z) : in_int a -> div a b = Some q -> in_int q.
Proof.
  unfold div, in_int, INT_MIN, INT_MAX. intros Ha.
  destruct (Z.eqb_spec b 0); [discriminate |].
  destruct (Z.eqb_spec a (-2147483648)), (Z.eqb_spec b (-1)); simpl;
    try discriminate; intros [= <-]; zdiv.
Qed.

Lemma quot_in_int (a b : Z) : in_int a -> 0 < b -> in_int (Z.quot a b).
Proof. unfold in_int, INT_MIN, INT_MAX. intros Ha Hb. zdiv. Qed.

(** ** Differences of wrapped counters

    A counter kept in a [long] and narrowed to [int] at every sample still
    gives the exact difference of two samples, as long as the true
    difference fits an [int]. *)
Lemma sub_of_long (a b : Z) :
  in_int (a - b) -> sub (of_long a) (of_long b) = a - b.
Proof.
  intros H. unfold sub, of_long.
  autorewrite with cint. now apply wrap_small.
Qed.

Lemma add_of_long (a b : Z) : add (of_long a) (of_long b) = of_long (a + b).
Proof. unfold add, of_long. now autorewrite with cint. Qed.

End CInt.

#[export] Hint Resolve CInt.wrap_in_int CInt.add_in_int CInt.sub_in_int
  CInt.mul_in_int CInt.of_long_in_int CInt.quot_in_int : jstatus.
