(* ===== verification/Printf.v ===== *)
(** * Printf: the conversions of the format strings

    jstatus.c formats numbers with three printf(3) conversions: [%d]
    (battery life, temperature, volume), [%02d] (CPU usage) and, through
    strftime(3), zero- and space-padded two-digit fields.  This file
    models them on [Z]: [fmt_d] is [%d], [fmt_0d w] is [%0wd] and
    [fmt_sd w] the space-padded field.  The digits are produced least
    significant first by [udigits], whose fuel [S (log2 n)] always
    suffices ([udigits_parse] is proved for every fuel that bounds the
    number, [fmt_u_parse] that the chosen one does).  [parse_d] reads a
    decimal numeral back; it is the specification the conversions are
    checked against, not code of the program.  [fmt_d_reference] checks
    [fmt_d] against a second, independent definition: the decimal printer
    of the Standard Library ([DecimalString]).  The last lemmas split a
    padded field into hundreds and rest ([fmt_04d_split]), which is how
    the C library prints a year. *)

From Stdlib Require Import ZArith Lia String Ascii List Bool PeanoNat.
From Stdlib Require Import Nnat Decimal DecimalString DecimalPos.
From S2P Require Import Prelude.

Local Open Scope string_scope.
Local Open Scope Z_scope.

Module Printf.

(** The character of a decimal digit: ['0' + d]. *)
Definition digit_char (d : Z) : ascii := ascii_of_N (48 + Z.to_N d).

(** The digits of [n >= 0] in front of [acc], at most [fuel] of them. *)
Fixpoint udigits (fuel : nat) (n : Z) (acc : string) : string :=
  match fuel with
  | O => acc
  | S f =>
      let acc' := String (digit_char (n mod 10)) acc in
      if n / 10 =? 0 then acc' else udigits f (n / 10) acc'
  end.

(** The decimal numeral of [n >= 0]. *)
Definition fmt_u (n : Z) : string := udigits (S (Z.to_nat (Z.log2 n))) n "".

(** [%d]. *)
Definition fmt_d (n : Z) : string :=
  if n <? 0 then String "-" (fmt_u (- n)) else fmt_u n.

(** [k] copies of a character. *)
Fixpoint repeat_char (c : ascii) (k : nat) : string :=
  match k with
  | O => ""
  | S k' => String c (repeat_char c k')
  end.

(** [%0wd]: the sign first, then zeros up to the field width [w]. *)
Definition fmt_0d (w : nat) (n : Z) : string :=
  let body := fmt_u (Z.abs n) in
  let sign := if n <? 0 then "-" else "" in
  sign ++ repeat_char "0" (w - String.length sign - String.length body) ++ body.

(** The space-padded field of width [w]: spaces, then the [%d] numeral. *)
Definition fmt_sd (w : nat) (n : Z) : string :=
  let body := fmt_d n in
  repeat_char " " (w - String.length body) ++ body.

(** ** Reading a numeral back (specification) *)

Definition digit_val (c : ascii) : option Z :=
  let n := Z.of_N (N_of_ascii c) in
  if (48 <=? n) && (n <=? 57) then Some (n - 48) else None.

Fixpoint parse_u_acc (s : string) (acc : Z) : option Z :=
  match s with
  | "" => Some acc
  | String c s' =>
      match digit_val c with
      | Some d => parse_u_acc s' (10 * acc + d)
      | None => None
      end
  end.

Definition parse_u (s : string) : option Z :=
  match s with
  | "" => None
  | _ => parse_u_acc s 0
  end.

Definition parse_d (s : string) : option Z :=
  match s with
  | String "-" s' => option_map Z.opp (parse_u s')
  | _ => parse_u s
  end.

(** A numeral padded with zeros to the width [w]. *)
Definition pad0 (w : nat) (s : string) : string :=
  repeat_char "0" (w - String.length s) ++ s.

(** The digit [d] in front of a numeral of the Standard Library. *)
Definition digit_cons (d : Z) (u : uint) : uint :=
  match d with
  | 0 => D0 u | 1 => D1 u | 2 => D2 u | 3 => D3 u | 4 => D4 u
  | 5 => D5 u | 6 => D6 u | 7 => D7 u | 8 => D8 u | _ => D9 u
  end.

(** Case analysis on a digit. *)
Ltac digit_cases d H :=
  assert (d = 0 \/ d = 1 \/ d = 2 \/ d = 3 \/ d = 4 \/
          d = 5 \/ d = 6 \/ d = 7 \/ d = 8 \/ d = 9) as H by lia;
  repeat (destruct H as [H|H]); subst d.

(** ** Digits *)

Lemma digit_val_char (d : Z) : 0 <= d < 10 -> digit_val (digit_char d) = Some d.
Proof.
  intros H. unfold digit_val, digit_char.
  rewrite N_ascii_embedding by lia.
  replace (Z.of_N (48 + Z.to_N d)) with (48 + d) by lia.
  rewrite !(proj2 (Z.leb_le _ _)) by lia. cbn [andb]. f_equal. lia.
Qed.

Lemma digit_char_not_minus (d : Z) : 0 <= d < 10 -> digit_char d <> "-"%char.
Proof.
  intros H E. apply (f_equal digit_val) in E.
  rewrite digit_val_char in E by assumption. discriminate.
Qed.

Lemma udigits_app (fuel : nat) (n : Z) (acc : string) :
  udigits fuel n acc = udigits fuel n "" ++ acc.
Proof.
  revert n acc. induction fuel as [|f IH]; intros n acc; simpl; [reflexivity |].
  destruct (n / 10 =? 0); [reflexivity |].
  rewrite IH, (IH _ (String _ "")), append_assoc. reflexivity.
Qed.

Lemma udigits_S (f : nat) (n : Z) (acc : string) :
  udigits (S f) n acc =
  if n / 10 =? 0 then String (digit_char (n mod 10)) acc
  else udigits f (n / 10) (String (digit_char (n mod 10)) acc).
Proof. reflexivity. Qed.

(** With fuel for every digit, the numeral read back is the number. *)
Lemma udigits_parse (fuel : nat) (n : Z) (acc : string) :
  0 <= n < 10 ^ Z.of_nat fuel ->
  parse_u_acc (udigits fuel n acc) 0 = parse_u_acc acc n.
Proof.
  revert n acc. induction fuel as [|f IH]; intros n acc Hn.
  - simpl in *. now replace n with 0 by lia.
  - rewrite Nat2Z.inj_succ, Z.pow_succ_r in Hn by lia.
    cbn [udigits]. destruct (Z.eqb_spec (n / 10) 0) as [E|E].
    + cbn [parse_u_acc]. rewrite digit_val_char by zdiv. f_equal. zdiv.
    + rewrite IH by zdiv.
      cbn [parse_u_acc]. rewrite digit_val_char by zdiv. f_equal. zdiv.
Qed.

(** The first character produced is a digit. *)
Lemma udigits_head (fuel : nat) (n : Z) (acc : string) :
  0 <= n ->
  exists d s, 0 <= d < 10 /\ udigits (S fuel) n acc = String (digit_char d) s.
Proof.
  revert n acc. induction fuel as [|f IH]; intros n acc Hn.
  - exists (n mod 10), acc. split; [zdiv |]. cbn [udigits]. now destruct (n / 10 =? 0).
  - cbn [udigits]. destruct (n / 10 =? 0) eqn:E.
    + exists (n mod 10), acc. split; [zdiv | reflexivity].
    + apply (IH (n / 10) (String (digit_char (n mod 10)) acc)). zdiv.
Qed.

Lemma fuel_enough (n : Z) : 0 <= n -> n < 10 ^ Z.of_nat (S (Z.to_nat (Z.log2 n))).
Proof.
  intros Hn. rewrite Nat2Z.inj_succ, Z2Nat.id by apply Z.log2_nonneg.
  destruct (Z.eq_dec n 0) as [->|Hz]; [reflexivity |].
  pose proof (Z.log2_spec n ltac:(lia)) as [_ H2].
  pose proof (Z.log2_nonneg n).
  pose proof (Z.pow_le_mono_l 2 10 (Z.succ (Z.log2 n)) ltac:(lia)).
  lia.
Qed.

Lemma fmt_u_head (n : Z) :
  0 <= n -> exists d s, 0 <= d < 10 /\ fmt_u n = String (digit_char d) s.
Proof. intros Hn. now apply udigits_head. Qed.

Lemma fmt_u_parse (n : Z) : 0 <= n -> parse_u (fmt_u n) = Some n.
Proof.
  intros Hn. destruct (fmt_u_head n Hn) as (d & s & _ & E).
  unfold parse_u. rewrite E, <- E. unfold fmt_u.
  now rewrite udigits_parse by (split; [assumption | now apply fuel_enough]).
Qed.

(** ** Lengths *)

Lemma length_repeat_char (c : ascii) (k : nat) : String.length (repeat_char c k) = k.
Proof. induction k as [|k IH]; simpl; [reflexivity | now rewrite IH]. Qed.

(** A number of exactly [k] digits prints as [k] characters. *)
Lemma length_udigits (fuel : nat) (k : nat) (n : Z) (acc : string) :
  (1 <= k <= fuel)%nat ->
  0 <= n < 10 ^ Z.of_nat k ->
  (k = 1%nat \/ 10 ^ Z.of_nat (k - 1) <= n) ->
  String.length (udigits fuel n acc) = (k + String.length acc)%nat.
Proof.
  revert k n acc. induction fuel as [|f IH]; intros k n acc Hk Hn Hlo; [lia |].
  destruct k as [|k]; [lia |].
  rewrite Nat2Z.inj_succ, Z.pow_succ_r in Hn by lia.
  replace (S k - 1)%nat with k in Hlo by lia.
  cbn [udigits]. destruct (Z.eqb_spec (n / 10) 0) as [E|E].
  - assert (k = 0%nat) as ->.
    { destruct k as [|k]; [reflexivity |]. exfalso.
      destruct Hlo as [|Hlo]; [lia |].
      rewrite Nat2Z.inj_succ, Z.pow_succ_r in Hlo by lia.
      pose proof (Z.pow_pos_nonneg 10 (Z.of_nat k) ltac:(lia) ltac:(lia)).
      zdiv. }
    reflexivity.
  - destruct k as [|k]; [exfalso; simpl in Hn; zdiv |].
    rewrite (IH (S k)); [simpl; lia | lia | zdiv |].
    destruct Hlo as [|Hlo]; [lia |].
    destruct k as [|k]; [now left | right].
    replace (S (S k) - 1)%nat with (S k) by lia.
    rewrite (Nat2Z.inj_succ (S k)), Z.pow_succ_r in Hlo by lia. zdiv.
Qed.

Lemma length_fmt_u_1 (n : Z) : 0 <= n < 10 -> String.length (fmt_u n) = 1%nat.
Proof.
  intros H. unfold fmt_u.
  rewrite (length_udigits _ 1); [reflexivity | lia | simpl; lia | now left].
Qed.

Lemma length_fmt_u_2 (n : Z) : 10 <= n < 100 -> String.length (fmt_u n) = 2%nat.
Proof.
  intros H. unfold fmt_u.
  rewrite (length_udigits _ 2); [reflexivity | | simpl; lia | right; simpl; lia].
  assert (3 <= Z.log2 n) by (apply Z.log2_le_pow2; simpl; lia). lia.
Qed.

Lemma length_fmt_u_4 (n : Z) : 1000 <= n < 10000 -> String.length (fmt_u n) = 4%nat.
Proof.
  intros H. unfold fmt_u.
  rewrite (length_udigits _ 4); [reflexivity | | simpl; lia | right; simpl; lia].
  assert (9 <= Z.log2 n) by (apply Z.log2_le_pow2; simpl; lia). lia.
Qed.

Lemma length_fmt_u_pos (n : Z) : 0 <= n -> (1 <= String.length (fmt_u n))%nat.
Proof.
  intros Hn. destruct (fmt_u_head n Hn) as (d & s & _ & ->). simpl. lia.
Qed.

(** ** Round trips *)

Lemma parse_d_digit (d : Z) (s : string) :
  0 <= d < 10 -> parse_d (String (digit_char d) s) = parse_u (String (digit_char d) s).
Proof.
  intros H. unfold parse_d.
  destruct (digit_char d) as [b0 b1 b2 b3 b4 b5 b6 b7] eqn:E.
  destruct b0, b1, b2, b3, b4, b5, b6, b7; try reflexivity.
  exfalso. now apply (digit_char_not_minus d H).
Qed.

Lemma parse_zeros (k : nat) (s : string) :
  parse_u_acc (repeat_char "0" k ++ s) 0 = parse_u_acc s 0.
Proof. induction k as [|k IH]; [reflexivity | exact IH]. Qed.

Lemma parse_u_nonempty (s : string) : s <> "" -> parse_u s = parse_u_acc s 0.
Proof. destruct s; [contradiction | reflexivity]. Qed.

Lemma parse_u_zeros (k : nat) (n : Z) :
  0 <= n -> parse_u (repeat_char "0" k ++ fmt_u n) = Some n.
Proof.
  intros Hn. destruct (fmt_u_head n Hn) as (d & s & _ & E).
  rewrite parse_u_nonempty, parse_zeros.
  - rewrite <- (fmt_u_parse n Hn), parse_u_nonempty; [reflexivity |].
    now rewrite E.
  - rewrite E. destruct k; discriminate.
Qed.

Lemma fmt_d_neg (n : Z) : n < 0 -> fmt_d n = String "-" (fmt_u (- n)).
Proof. intros H. unfold fmt_d. now rewrite (proj2 (Z.ltb_lt _ _)). Qed.

Lemma fmt_d_nonneg (n : Z) : 0 <= n -> fmt_d n = fmt_u n.
Proof. intros H. unfold fmt_d. now rewrite (proj2 (Z.ltb_ge _ _)). Qed.

(** [%d] loses nothing: the numeral read back is the number printed. *)
Lemma fmt_d_parse (n : Z) : parse_d (fmt_d n) = Some n.
Proof.
  destruct (Z.lt_ge_cases n 0) as [H|H].
  - rewrite fmt_d_neg by assumption. cbn [parse_d].
    rewrite fmt_u_parse by lia. cbn. f_equal. lia.
  - rewrite fmt_d_nonneg by assumption.
    destruct (fmt_u_head n H) as (d & s & Hd & E).
    rewrite E, parse_d_digit, <- E by assumption. now apply fmt_u_parse.
Qed.

Lemma fmt_d_inj (n m : Z) : fmt_d n = fmt_d m -> n = m.
Proof.
  intros E. apply (f_equal parse_d) in E.
  rewrite !fmt_d_parse in E. congruence.
Qed.

(** Zero padding changes the text, never the number. *)
Lemma fmt_0d_parse (w : nat) (n : Z) : parse_d (fmt_0d w n) = Some n.
Proof.
  unfold fmt_0d. destruct (Z.ltb_spec n 0) as [H|H].
  - cbn [append parse_d]. rewrite parse_u_zeros by lia. cbn. f_equal. lia.
  - cbn [append]. rewrite Z.abs_eq by assumption.
    destruct (fmt_u_head n H) as (d & s & Hd & E).
    destruct (w - String.length "" - String.length (fmt_u n))%nat as [|k] eqn:Ek.
    + cbn [repeat_char append]. rewrite E, parse_d_digit, <- E by assumption.
      now apply fmt_u_parse.
    + change (repeat_char "0" (S k)) with (String (digit_char 0) (repeat_char "0" k)).
      cbn [append]. rewrite parse_d_digit by lia.
      now apply (parse_u_zeros (S k)).
Qed.

(** ** The shape of a padded field *)

Lemma fmt_0d_wide (w : nat) (n : Z) :
  (w <= String.length (fmt_d n))%nat -> fmt_0d w n = fmt_d n.
Proof.
  unfold fmt_0d, fmt_d. destruct (Z.ltb_spec n 0) as [H|H]; intros Hw.
  - rewrite Z.abs_neq by lia. cbn [String.length] in *.
    replace (w - 1 - _)%nat with 0%nat by lia. reflexivity.
  - rewrite Z.abs_eq by lia. cbn [String.length append].
    replace (w - 0 - _)%nat with 0%nat by lia. reflexivity.
Qed.

Lemma length_fmt_0d (w : nat) (n : Z) : (w <= String.length (fmt_0d w n))%nat.
Proof.
  unfold fmt_0d. rewrite !length_append, length_repeat_char. lia.
Qed.

Lemma length_fmt_sd (w : nat) (n : Z) : (w <= String.length (fmt_sd w n))%nat.
Proof.
  unfold fmt_sd. rewrite length_append, length_repeat_char. lia.
Qed.

(** [%02d] on one digit puts a zero in front; on two digits and more,
    and on negative numbers, it is [%d]. *)
Lemma fmt_02d_small (n : Z) : 0 <= n < 10 -> fmt_0d 2 n = String "0" (fmt_u n).
Proof.
  intros H. unfold fmt_0d. rewrite (proj2 (Z.ltb_ge _ _)) by lia.
  rewrite Z.abs_eq, length_fmt_u_1 by lia. reflexivity.
Qed.

Lemma length_fmt_u_ge2 (n : Z) : 10 <= n -> (2 <= String.length (fmt_u n))%nat.
Proof.
  intros H. unfold fmt_u.
  assert (3 <= Z.log2 n) by (apply Z.log2_le_pow2; simpl; lia).
  destruct (Z.to_nat (Z.log2 n)) as [|f] eqn:Ef; [lia |].
  rewrite udigits_S. destruct (Z.eqb_spec (n / 10) 0); [zdiv |].
  rewrite udigits_app, length_append.
  destruct (udigits_head f (n / 10) "" ltac:(zdiv)) as (d & s & _ & ->).
  simpl. lia.
Qed.

Lemma length_udigits_ge3 (n : Z) :
  100 <= n -> (3 <= String.length (udigits (S (Z.to_nat (Z.log2 n))) n ""))%nat.
Proof.
  intros H.
  assert (6 <= Z.log2 n) by (apply Z.log2_le_pow2; simpl; lia).
  destruct (Z.to_nat (Z.log2 n)) as [|[|f]] eqn:Ef; [lia | lia |].
  rewrite udigits_S. destruct (Z.eqb_spec (n / 10) 0); [zdiv |].
  rewrite udigits_S. destruct (Z.eqb_spec (n / 10 / 10) 0); [zdiv |].
  rewrite udigits_app, length_append.
  destruct (udigits_head f (n / 10 / 10) "" ltac:(zdiv)) as (d & s & _ & ->).
  simpl. lia.
Qed.

Lemma fmt_02d_large (n : Z) : 10 <= n -> fmt_0d 2 n = fmt_d n.
Proof.
  intros H. apply fmt_0d_wide. rewrite fmt_d_nonneg by lia.
  now apply length_fmt_u_ge2.
Qed.

Lemma fmt_02d_neg (n : Z) : n < 0 -> fmt_0d 2 n = fmt_d n.
Proof.
  intros H. apply fmt_0d_wide. rewrite fmt_d_neg by assumption.
  pose proof (length_fmt_u_pos (- n) ltac:(lia)). cbn [String.length]. lia.
Qed.

Lemma length_fmt_02d (n : Z) : 0 <= n < 100 -> String.length (fmt_0d 2 n) = 2%nat.
Proof.
  intros H. destruct (Z.lt_ge_cases n 10).
  - rewrite fmt_02d_small by lia. cbn [String.length].
    now rewrite length_fmt_u_1 by lia.
  - rewrite fmt_02d_large, fmt_d_nonneg, length_fmt_u_2 by lia. reflexivity.
Qed.

Lemma fmt_s2d_small (n : Z) : 0 <= n < 10 -> fmt_sd 2 n = String " " (fmt_u n).
Proof.
  intros H. unfold fmt_sd. rewrite fmt_d_nonneg, length_fmt_u_1 by lia.
  reflexivity.
Qed.

Lemma fmt_s2d_large (n : Z) : 10 <= n -> fmt_sd 2 n = fmt_d n.
Proof.
  intros H. unfold fmt_sd. cbv zeta. rewrite fmt_d_nonneg by lia.
  pose proof (length_fmt_u_ge2 n H).
  now replace (2 - String.length (fmt_u n))%nat with 0%nat by lia.
Qed.

Lemma length_fmt_s2d (n : Z) : 0 <= n < 100 -> String.length (fmt_sd 2 n) = 2%nat.
Proof.
  intros H. unfold fmt_sd. rewrite fmt_d_nonneg, length_append, length_repeat_char by lia.
  destruct (Z.lt_ge_cases n 10).
  - now rewrite length_fmt_u_1 by lia.
  - now rewrite length_fmt_u_2 by lia.
Qed.

(** ** Upper bounds on the width *)

Lemma length_udigits_le (fuel k : nat) (n : Z) (acc : string) :
  (1 <= k)%nat -> 0 <= n < 10 ^ Z.of_nat k ->
  (String.length (udigits fuel n acc) <= k + String.length acc)%nat.
Proof.
  revert k n acc. induction fuel as [|f IH]; intros k n acc Hk Hn; [simpl; lia |].
  rewrite udigits_S. destruct (Z.eqb_spec (n / 10) 0) as [E|E]; [simpl; lia |].
  destruct k as [|[|k]]; [lia | exfalso; simpl in Hn; zdiv |].
  rewrite Nat2Z.inj_succ, Z.pow_succ_r in Hn by lia.
  specialize (IH (S k) (n / 10) (String (digit_char (n mod 10)) acc)).
  cbn [String.length] in IH. rewrite IH; [lia | lia | zdiv].
Qed.

(** An [int] prints in at most 11 characters, sign included. *)
Lemma length_fmt_u_int (n : Z) : 0 <= n <= 2147483648 -> (String.length (fmt_u n) <= 10)%nat.
Proof.
  intros H. unfold fmt_u.
  pose proof (length_udigits_le (S (Z.to_nat (Z.log2 n))) 10 n "" ltac:(lia)) as L.
  cbn [String.length] in L. rewrite Nat.add_0_r in L. apply L.
  change (10 ^ Z.of_nat 10) with 10000000000. lia.
Qed.

Lemma length_fmt_d_int (n : Z) :
  -2147483648 <= n <= 2147483647 -> (String.length (fmt_d n) <= 11)%nat.
Proof.
  intros H. destruct (Z.lt_ge_cases n 0).
  - rewrite fmt_d_neg by assumption. cbn [String.length].
    pose proof (length_fmt_u_int (- n) ltac:(lia)). lia.
  - rewrite fmt_d_nonneg by assumption.
    pose proof (length_fmt_u_int n ltac:(lia)). lia.
Qed.

Lemma length_fmt_0d_int (w : nat) (n : Z) :
  (w <= 11)%nat -> -2147483648 <= n <= 2147483647 ->
  (String.length (fmt_0d w n) <= 11)%nat.
Proof.
  intros Hw H. unfold fmt_0d. rewrite !length_append, length_repeat_char.
  pose proof (length_fmt_u_int (Z.abs n) ltac:(lia)).
  destruct (n <? 0) eqn:E; cbn [String.length]; [| lia].
  apply Z.ltb_lt in E.
  pose proof (length_fmt_u_pos (Z.abs n) ltac:(lia)). lia.
Qed.

Lemma length_fmt_sd_int (w : nat) (n : Z) :
  (w <= 11)%nat -> -2147483648 <= n <= 2147483647 ->
  (String.length (fmt_sd w n) <= 11)%nat.
Proof.
  intros Hw H. unfold fmt_sd. rewrite length_append, length_repeat_char.
  pose proof (length_fmt_d_int n H). lia.
Qed.

(** ** Characters that are never printed

    A character that is not a digit occurs in a numeral only as its sign
    or its padding. *)

Section Count.
Context (c : ascii).
Hypothesis Hc : digit_val c = None.

Lemma digit_char_neq (d : Z) : 0 <= d < 10 -> Ascii.eqb (digit_char d) c = false.
Proof.
  intros Hd. destruct (Ascii.eqb_spec (digit_char d) c) as [E|]; [| reflexivity].
  rewrite <- E, digit_val_char in Hc by assumption. discriminate.
Qed.

Lemma count_udigits (fuel : nat) (n : Z) (acc : string) :
  count_char c (udigits fuel n acc) = count_char c acc.
Proof.
  revert n acc. induction fuel as [|f IH]; intros n acc; [reflexivity |].
  rewrite udigits_S.
  assert (count_char c (String (digit_char (n mod 10)) acc) = count_char c acc) as E
    by (cbn [count_char]; now rewrite digit_char_neq by zdiv).
  destruct (n / 10 =? 0); [exact E | now rewrite IH].
Qed.

Lemma count_fmt_u (n : Z) : count_char c (fmt_u n) = 0%nat.
Proof. apply count_udigits. Qed.

Lemma count_repeat_char (a : ascii) (k : nat) :
  a <> c -> count_char c (repeat_char a k) = 0%nat.
Proof.
  intros H. induction k as [|k IH]; [reflexivity |].
  cbn [repeat_char count_char]. rewrite IH.
  now destruct (Ascii.eqb_spec a c).
Qed.

Lemma count_fmt_d (n : Z) : c <> "-"%char -> count_char c (fmt_d n) = 0%nat.
Proof.
  intros H. unfold fmt_d. destruct (n <? 0); [| apply count_fmt_u].
  cbn [count_char]. rewrite count_fmt_u.
  destruct (Ascii.eqb_spec "-"%char c); [congruence | reflexivity].
Qed.

Lemma count_fmt_0d (w : nat) (n : Z) :
  c <> "-"%char -> c <> "0"%char -> count_char c (fmt_0d w n) = 0%nat.
Proof.
  intros H H0. unfold fmt_0d. cbv zeta.
  rewrite !count_char_append, count_fmt_u, count_repeat_char by congruence.
  destruct (n <? 0); [| reflexivity].
  cbn [count_char]. destruct (Ascii.eqb_spec "-"%char c); [congruence | reflexivity].
Qed.

Lemma count_fmt_sd (w : nat) (n : Z) :
  c <> "-"%char -> c <> " "%char -> count_char c (fmt_sd w n) = 0%nat.
Proof.
  intros H H0. unfold fmt_sd. cbv zeta.
  now rewrite count_char_append, count_fmt_d, count_repeat_char by congruence.
Qed.

End Count.

(** ** Agreement with the decimal printer of the Standard Library

    [Z.to_int] converts a number to a numeral by repeated doubling and
    [NilEmpty.string_of_int] prints the numeral; [udigits] divides by
    ten.  Both give the same text. *)

Lemma string_of_digit_cons (d : Z) (u : uint) :
  0 <= d < 10 ->
  NilEmpty.string_of_uint (digit_cons d u) =
  String (digit_char d) (NilEmpty.string_of_uint u).
Proof. intros H. digit_cases d H'; reflexivity. Qed.

Lemma revapp_digit_cons (d : Z) (u acc : uint) :
  revapp (digit_cons d u) acc = revapp u (digit_cons d acc).
Proof.
  unfold digit_cons. destruct d as [|p|p]; try reflexivity.
  do 4 (destruct p as [p|p|]; try reflexivity).
Qed.

Lemma to_lu_small (d : Z) :
  0 <= d < 10 -> Unsigned.to_lu (Z.to_N d) = digit_cons d Nil.
Proof. intros H. digit_cases d H'; reflexivity. Qed.

Lemma to_lu_add (k : nat) (n : N) :
  Unsigned.to_lu (N.of_nat k + n) = Nat.iter k Little.succ (Unsigned.to_lu n).
Proof.
  induction k as [|k IH]; [reflexivity |].
  rewrite Nat2N.inj_succ, N.add_succ_l, Unsigned.to_lu_succ, IH. reflexivity.
Qed.

Lemma to_lu_step (q r : Z) :
  0 < q -> 0 <= r < 10 ->
  Unsigned.to_lu (Z.to_N (10 * q + r)) = digit_cons r (Unsigned.to_lu (Z.to_N q)).
Proof.
  intros Hq Hr. destruct q as [|p|p]; try lia.
  replace (Z.to_N (10 * Z.pos p + r)) with (N.of_nat (Z.to_nat r) + 10 * N.pos p)%N by lia.
  rewrite to_lu_add, Unsigned.to_ldec_tenfold.
  digit_cases r H'; reflexivity.
Qed.

(** The numeral [udigits] builds is the one the library's conversion
    builds, least significant digit first, reversed onto [acc]. *)
Lemma udigits_to_lu (fuel : nat) (n : Z) (acc : uint) :
  0 <= n < 10 ^ Z.of_nat fuel -> (0 < fuel)%nat ->
  udigits fuel n (NilEmpty.string_of_uint acc) =
  NilEmpty.string_of_uint (revapp (Unsigned.to_lu (Z.to_N n)) acc).
Proof.
  revert n acc. induction fuel as [|f IH]; intros n acc Hn Hf; [lia |].
  rewrite Nat2Z.inj_succ, Z.pow_succ_r in Hn by lia.
  rewrite udigits_S, <- string_of_digit_cons by zdiv.
  destruct (Z.eqb_spec (n / 10) 0) as [E|E].
  - rewrite to_lu_small by zdiv. rewrite revapp_digit_cons.
    replace (n mod 10) with n by zdiv. reflexivity.
  - assert (0 < f)%nat by (destruct f; [change (10 ^ Z.of_nat 0) with 1 in Hn; zdiv | lia]).
    rewrite IH by first [assumption | zdiv].
    rewrite <- revapp_digit_cons, <- to_lu_step by zdiv.
    do 3 f_equal. zdiv.
Qed.

Lemma to_uint_to_lu (n : N) : N.to_uint n = rev (Unsigned.to_lu n).
Proof. now destruct n. Qed.

Lemma fmt_u_reference (n : Z) :
  0 <= n -> fmt_u n = NilEmpty.string_of_uint (N.to_uint (Z.to_N n)).
Proof.
  intros Hn. rewrite to_uint_to_lu. unfold fmt_u, rev.
  apply (udigits_to_lu _ n Nil); [| lia].
  split; [assumption | now apply fuel_enough].
Qed.

(** ** One more digit

    Read through the library's printer, a numeral grows by one digit on
    the right when the number is multiplied by ten. *)

Lemma string_of_revapp (l acc : uint) :
  NilEmpty.string_of_uint (revapp l acc) =
  NilEmpty.string_of_uint (rev l) ++ NilEmpty.string_of_uint acc.
Proof.
  revert acc. unfold rev.
  induction l as [|l IH|l IH|l IH|l IH|l IH|l IH|l IH|l IH|l IH|l IH]; intros acc;
    [reflexivity | cbn [revapp]; rewrite IH, (IH (_ Nil)), append_assoc; reflexivity ..].
Qed.

Lemma fmt_u_step (q r : Z) :
  0 < q -> 0 <= r < 10 -> fmt_u (10 * q + r) = fmt_u q ++ String (digit_char r) "".
Proof.
  intros Hq Hr. rewrite !fmt_u_reference, !to_uint_to_lu by lia.
  rewrite to_lu_step by lia. unfold rev at 1.
  rewrite revapp_digit_cons, string_of_revapp, string_of_digit_cons by lia.
  reflexivity.
Qed.

Lemma fmt_u_digit (n : Z) : 0 <= n < 10 -> fmt_u n = String (digit_char n) "".
Proof.
  intros H. rewrite fmt_u_reference, to_uint_to_lu, to_lu_small by lia.
  unfold rev. rewrite revapp_digit_cons. cbn [revapp]. now rewrite string_of_digit_cons.
Qed.

(** A number below 100 through [%02d] is its two digits. *)
Lemma fmt_02d_digits (n : Z) :
  0 <= n < 100 ->
  fmt_0d 2 n = String (digit_char (n / 10)) (String (digit_char (n mod 10)) "").
Proof.
  intros H. destruct (Z.lt_ge_cases n 10).
  - rewrite fmt_02d_small, fmt_u_digit by lia.
    now rewrite Z.div_small, Z.mod_small by lia.
  - rewrite fmt_02d_large, fmt_d_nonneg by lia.
    rewrite (Z.div_mod n 10) at 1 by lia.
    rewrite fmt_u_step, fmt_u_digit by zdiv. reflexivity.
Qed.

(** A padded field: the sign, then the numeral padded with zeros. *)
Lemma fmt_0d_nonneg (w : nat) (n : Z) : 0 <= n -> fmt_0d w n = pad0 w (fmt_u n).
Proof.
  intros H. unfold fmt_0d, pad0. rewrite (proj2 (Z.ltb_ge _ _)), Z.abs_eq by lia.
  cbn [String.length append]. now rewrite Nat.sub_0_r.
Qed.

Lemma fmt_0d_neg (w : nat) (n : Z) :
  n < 0 -> fmt_0d w n = String "-" (pad0 (w - 1) (fmt_u (- n))).
Proof.
  intros H. unfold fmt_0d, pad0. rewrite (proj2 (Z.ltb_lt _ _)), Z.abs_neq by lia.
  reflexivity.
Qed.

Lemma repeat_char_add (c : ascii) (a b : nat) :
  repeat_char c (a + b) = repeat_char c a ++ repeat_char c b.
Proof. induction a as [|a IH]; cbn; [reflexivity | now rewrite IH]. Qed.

(** Two more digits. *)
Lemma fmt_u_hundreds (l t : Z) :
  0 < l -> 0 <= t < 100 -> fmt_u (100 * l + t) = fmt_u l ++ fmt_0d 2 t.
Proof.
  intros Hl Ht. rewrite fmt_02d_digits by lia.
  replace (100 * l + t) with (10 * (10 * l + t / 10) + t mod 10) by zdiv.
  rewrite !fmt_u_step by zdiv. now rewrite append_assoc.
Qed.

Lemma length_fmt_u_ge4 (n : Z) : 1000 <= n -> (4 <= String.length (fmt_u n))%nat.
Proof.
  intros H. replace n with (100 * (n / 100) + n mod 100) by zdiv.
  rewrite fmt_u_hundreds, length_append, length_fmt_02d by zdiv.
  pose proof (length_fmt_u_ge2 (n / 100) ltac:(zdiv)). lia.
Qed.

Lemma pad0_hundreds (k : nat) (l t : Z) :
  (1 <= k)%nat -> 0 <= l -> 0 <= t < 100 ->
  pad0 k (fmt_u l) ++ fmt_0d 2 t = pad0 (k + 2) (fmt_u (100 * l + t)).
Proof.
  intros Hk Hl Ht. unfold pad0. destruct (Z.eq_dec l 0) as [-> | Hz].
  - replace (100 * 0 + t) with t by lia. change (fmt_u 0) with "0".
    cbn [String.length]. destruct (Z.lt_ge_cases t 10).
    + rewrite fmt_02d_small, length_fmt_u_1 by lia.
      replace (k + 2 - 1)%nat with (k - 1 + 2)%nat by lia.
      rewrite repeat_char_add, !append_assoc. reflexivity.
    + rewrite fmt_02d_large, fmt_d_nonneg, length_fmt_u_2 by lia.
      replace (k + 2 - 2)%nat with (k - 1 + 1)%nat by lia.
      rewrite repeat_char_add, !append_assoc. reflexivity.
  - rewrite fmt_u_hundreds, length_append, length_fmt_02d by lia.
    replace (k + 2 - _)%nat with (k - String.length (fmt_u l))%nat by lia.
    now rewrite append_assoc.
Qed.

(** The hundreds and the rest, each through [%02d], are the number
    through [%04d]. *)
Lemma fmt_04d_split (l t : Z) :
  0 <= l -> 0 <= t < 100 -> fmt_0d 2 l ++ fmt_0d 2 t = fmt_0d 4 (100 * l + t).
Proof.
  intros Hl Ht. rewrite (fmt_0d_nonneg 2 l), (fmt_0d_nonneg 4) by lia.
  apply (pad0_hundreds 2); lia.
Qed.

Lemma fmt_04d_split_neg (l t : Z) :
  0 <= l -> 0 <= t < 100 -> 0 < 100 * l + t ->
  (if l =? 0 then "-0" else fmt_0d 2 (- l)) ++ fmt_0d 2 t = fmt_0d 4 (- (100 * l + t)).
Proof.
  intros Hl Ht Hp. rewrite (fmt_0d_neg 4), Z.opp_involutive by lia.
  change (4 - 1)%nat with (1 + 2)%nat. rewrite <- (pad0_hundreds 1 l t) by lia.
  destruct (Z.eqb_spec l 0) as [-> | Hz]; [reflexivity |].
  rewrite fmt_0d_neg, Z.opp_involutive by lia. reflexivity.
Qed.

(** ** Theorems *)

(** C39: the conversions print the number they are given: reading back
    the text of [%d], or of a zero-padded field of any width, gives the
    number, so two numbers never print as the same text; padding only
    ever adds characters in front, up to the width. *)
Theorem fmt_roundtrip (w : nat) (n m : Z) :
  parse_d (fmt_d n) = Some n /\
  parse_d (fmt_0d w n) = Some n /\
  (fmt_d n = fmt_d m <-> n = m) /\
  String.length (fmt_sd w n) = Nat.max w (String.length (fmt_d n)).
Proof.
  split; [apply fmt_d_parse |]. split; [apply fmt_0d_parse |].
  split; [split; [apply fmt_d_inj | now intros ->] |].
  unfold fmt_sd. cbv zeta. rewrite length_append, length_repeat_char. lia.
Qed.

(** C40: the width of what is printed.  An [int] takes at most 11
    characters as [%d]; a number from 0 to 99 takes exactly two as
    [%02d], with a leading zero below 10; a larger one is printed in
    full, so the two-digit field is wider than two. *)
Theorem fmt_widths (n : Z) :
  -2147483648 <= n <= 2147483647 ->
  (String.length (fmt_d n) <= 11)%nat /\
  (0 <= n < 10 -> fmt_0d 2 n = String "0" (fmt_u n)) /\
  (0 <= n < 100 -> String.length (fmt_0d 2 n) = 2%nat) /\
  (100 <= n -> fmt_0d 2 n = fmt_d n /\ (3 <= String.length (fmt_0d 2 n))%nat).
Proof.
  intros H. split; [now apply length_fmt_d_int |].
  split; [apply fmt_02d_small |]. split; [apply length_fmt_02d |].
  intros Hn. rewrite fmt_02d_large by lia. split; [reflexivity |].
  rewrite fmt_d_nonneg by lia. unfold fmt_u.
  pose proof (length_udigits_ge3 n Hn). lia.
Qed.

Lemma fmt_widths_witness :
  (String.length (fmt_d 100) <= 11)%nat /\
  (0 <= 100 < 10 -> fmt_0d 2 100 = String "0" (fmt_u 100)) /\
  (0 <= 100 < 100 -> String.length (fmt_0d 2 100) = 2%nat) /\
  (100 <= 100 -> fmt_0d 2 100 = fmt_d 100 /\ (3 <= String.length (fmt_0d 2 100))%nat).
Proof. apply (fmt_widths 100). lia. Defined.

(** C38: [%d] as modelled here prints exactly what the decimal printer of
    the Standard Library prints for the same number: an optional minus
    sign, then the digits, most significant first, without leading
    zeros. *)
Theorem fmt_d_reference (n : Z) :
  fmt_d n = NilEmpty.string_of_int (Z.to_int n).
Proof.
  destruct n as [|p|p].
  - reflexivity.
  - rewrite fmt_d_nonneg, fmt_u_reference by lia. reflexivity.
  - rewrite fmt_d_neg, fmt_u_reference by lia. reflexivity.
Qed.

End Printf.
