(* ===== verification/Spec.v ===== *)
(** * Spec: the reporter as its specification describes it

    The specification of the program describes a loop over four pure
    components: a sample of the metrics is turned by the [DeltaTracker]
    into derived values (the usage percentage, two edge flags) and a new
    [PreviousState]; the [AlertEngine] turns the derived values into alert
    events; the [LineFormatter] renders the sample into one line.  This
    file states that description as functions on abstract data: no
    machine integers, no stream, no static variables.  The icons of the
    line are left open in the class [Markup].  The specification fixes
    the order of the fields, the choice of the icons, the two-digit
    usage and the format [DD-MM-YYYY HH:MM] of the time; where it is
    silent (the space after an icon, the suffixes ["%"] and [" C"]) the
    rendering follows the output of the program.

    Nothing here is translated from the C code.  [Refine] relates the two:
    it shows under which conditions a cycle of the program is a cycle of
    this specification, and the findings of the development are the
    places where it is not. *)

From Stdlib Require Import ZArith Lia String Ascii List Bool.
From S2P Require Import Prelude Printf.
Import ListNotations.

Local Open Scope string_scope.
Local Open Scope Z_scope.

Module Spec.

(** ** Data model *)

Inductive BatteryState : Type := OnAC | Charging | Discharging | Unknown.

Record BatterySample : Type := mk_BatterySample {
  state : BatteryState;
  lifePercent : Z
}.

Record CpuSample : Type := mk_CpuSample {
  userTicks : Z;
  niceTicks : Z;
  systemTicks : Z;
  idleTicks : Z
}.

Record Timestamp : Type := mk_Timestamp {
  day : Z;
  month : Z;
  year : Z;
  hour : Z;
  minute : Z
}.

Record Sample : Type := mk_Sample {
  battery : BatterySample;
  temperatureCelsius : Z;
  cpu : CpuSample;
  levelPercent : Z;
  timestamp : Timestamp
}.

(** The only memory across cycles. *)
Record PreviousState : Type := mk_PreviousState {
  prevBattery : BatteryState;
  prevTemperature : Z;
  prevCpu : CpuSample;
  lastUsage : Z
}.

Inductive AlertKind : Type := EnteredBattery | LowBattery | HighTemperature.

Definition message (k : AlertKind) : string :=
  match k with
  | EnteredBattery => "ON BATTERY"
  | LowBattery => "PLUG AC!"
  | HighTemperature => "High temperature"
  end.

Definition BatteryState_eq_dec (a b : BatteryState) : {a = b} + {a <> b}.
Proof. decide equality. Defined.

Definition is_discharging (s : BatteryState) : bool :=
  if BatteryState_eq_dec s Discharging then true else false.

(** ** Unit conversions of the data model *)

Definition clamp (lo hi x : Z) : Z := Z.max lo (Z.min hi x).

(** The life is within 0..100, and full on AC whatever is read. *)
Definition life_of (s : BatteryState) (raw : Z) : Z :=
  match s with
  | OnAC => 100
  | _ => clamp 0 100 raw
  end.

(** Tenths of a kelvin to degrees Celsius. *)
Definition celsius_of (raw : Z) : Z := (raw - 2732) / 10.

(** The volume is masked to 0..127. *)
Definition level_of (raw : Z) : Z := raw mod 128.

(** ** DeltaTracker *)

Definition totalTicks (c : CpuSample) : Z :=
  userTicks c + niceTicks c + systemTicks c + idleTicks c.

(** [a / b] rounded to the nearest integer, for [b > 0]. *)
Definition round_div (a b : Z) : Z := (2 * a + b) / (2 * b).

Definition cpuUsage (prev cur : CpuSample) (last : Z) : Z :=
  let diffTotal := totalTicks cur - totalTicks prev in
  let diffIdle := idleTicks cur - idleTicks prev in
  if 0 <? diffTotal then round_div (100 * (diffTotal - diffIdle)) diffTotal
  else last.

Record Deltas : Type := mk_Deltas {
  cpuUsagePercent : Z;
  batteryJustStartedDischarging : bool;
  temperatureJustCrossedHigh : bool
}.

Definition HIGH_TEMPERATURE : Z := 80.
Definition LOW_BATTERY : Z := 10.

Definition update (cur : Sample) (p : PreviousState) : Deltas * PreviousState :=
  let usage := cpuUsage (prevCpu p) (cpu cur) (lastUsage p) in
  ({| cpuUsagePercent := usage;
      batteryJustStartedDischarging :=
        edge is_discharging (prevBattery p) (state (battery cur));
      temperatureJustCrossedHigh :=
        edge (fun t => HIGH_TEMPERATURE <=? t) (prevTemperature p)
          (temperatureCelsius cur) |},
   {| prevBattery := state (battery cur);
      prevTemperature := temperatureCelsius cur;
      prevCpu := cpu cur;
      lastUsage := usage |}).

(** ** AlertEngine *)

Definition evaluate (d : Deltas) (b : BatterySample) : list AlertKind :=
  (if batteryJustStartedDischarging d then [EnteredBattery] else []) ++
  (if lifePercent b <? LOW_BATTERY then [LowBattery] else []) ++
  (if temperatureJustCrossedHigh d then [HighTemperature] else []).

(** ** LineFormatter *)

(** The glyphs of the line: one icon per field and state, the marker of
    an unknown battery state, and the separator. *)
Class Markup : Type := mk_Markup {
  icon_plugged : string;
  icon_battery : string;
  marker_unknown : string;
  icon_temperature : string;
  icon_cpu : string;
  icon_volume_high : string;
  icon_volume_muted : string;
  separator : string
}.

Section Formatter.
Context `{Markup}.

Definition battery_icon (s : BatteryState) : string :=
  match s with
  | OnAC | Charging => icon_plugged
  | Discharging => icon_battery
  | Unknown => marker_unknown
  end.

Definition volume_icon (level : Z) : string :=
  if 0 <? level then icon_volume_high else icon_volume_muted.

(** [DD-MM-YYYY HH:MM]. *)
Definition render_timestamp (t : Timestamp) : string :=
  Printf.fmt_0d 2 (day t) ++ "-" ++ Printf.fmt_0d 2 (month t) ++ "-" ++
  Printf.fmt_0d 4 (year t) ++ " " ++
  Printf.fmt_0d 2 (hour t) ++ ":" ++ Printf.fmt_0d 2 (minute t).

Definition render (b : BatterySample) (temperature usage level : Z)
  (t : Timestamp) : string :=
  battery_icon (state b) ++ " " ++ Printf.fmt_d (lifePercent b) ++ "%" ++ separator ++
  icon_temperature ++ " " ++ Printf.fmt_d temperature ++ " C" ++ separator ++
  icon_cpu ++ " " ++ Printf.fmt_0d 2 usage ++ "%" ++ separator ++
  volume_icon level ++ " " ++ Printf.fmt_d level ++ "%" ++ separator ++
  render_timestamp t.

(** ** SamplingLoop *)

(** What the loop has done so far: its memory, the lines handed to the
    sink and the alerts handed to the notifier, oldest first. *)
Record State : Type := mk_State {
  previous : PreviousState;
  sink : list string;
  notified : list AlertKind
}.

Definition cycle (s : Sample) (st : State) : State :=
  let (d, p) := update s (previous st) in
  {| previous := p;
     sink := sink st ++
             [render (battery s) (temperatureCelsius s) (cpuUsagePercent d)
                (levelPercent s) (timestamp s)];
     notified := notified st ++ evaluate d (battery s) |}.

Definition run (ss : list Sample) (st : State) : State :=
  fold_left (fun st s => cycle s st) ss st.

Definition initial : State :=
  {| previous := {| prevBattery := OnAC; prevTemperature := 0;
                    prevCpu := mk_CpuSample 0 0 0 0; lastUsage := 0 |};
     sink := [];
     notified := [] |}.

End Formatter.

(** ** What the specification promises *)

Section Promises.
Context `{Markup}.

Lemma round_div_range (a b : Z) :
  0 < b -> 0 <= a <= 100 * b -> 0 <= round_div a b <= 100.
Proof. intros Hb Ha. unfold round_div. zdiv. Qed.

(** The usage is a percentage whenever the total has advanced and the
    idle ticks have advanced by no more than the total. *)
Lemma cpuUsage_range (prev cur : CpuSample) (last : Z) :
  0 < totalTicks cur - totalTicks prev ->
  0 <= idleTicks cur - idleTicks prev <= totalTicks cur - totalTicks prev ->
  0 <= cpuUsage prev cur last <= 100.
Proof.
  intros Ht Hi. unfold cpuUsage. cbv zeta.
  rewrite (proj2 (Z.ltb_lt _ _) Ht). apply round_div_range; lia.
Qed.

(** No division when the total has not advanced: the last value stands. *)
Lemma cpuUsage_reuse (prev cur : CpuSample) (last : Z) :
  totalTicks cur - totalTicks prev <= 0 -> cpuUsage prev cur last = last.
Proof. intros Ht. unfold cpuUsage. cbv zeta. now rewrite (proj2 (Z.ltb_ge _ _) Ht). Qed.

Lemma life_of_range (s : BatteryState) (raw : Z) : 0 <= life_of s raw <= 100.
Proof. unfold life_of, clamp. destruct s; lia. Qed.

Lemma level_of_range (raw : Z) : 0 <= level_of raw <= 127.
Proof. unfold level_of. zdiv. Qed.

(** One line and the alerts of one evaluation per cycle. *)
Lemma cycle_sink (s : Sample) (st : State) :
  length (sink (cycle s st)) = S (length (sink st)).
Proof. unfold cycle. cbn. rewrite length_app. cbn. lia. Qed.

Lemma run_sink (ss : list Sample) (st : State) :
  length (sink (run ss st)) = (length (sink st) + length ss)%nat.
Proof.
  revert st. induction ss as [|s ss IH]; intros st; cbn [run fold_left length]; [lia |].
  fold (run ss (cycle s st)). rewrite IH, cycle_sink. lia.
Qed.

End Promises.

End Spec.
