(* ===== verification/World.v ===== *)
(** * World: the state of the process and its environment

    [World] bundles what the C program keeps between two calls: the
    function-local [static] variables ([osd], [prev_state], [prev_temp],
    [prev_total], [prev_idle], [fd]) and the observable side of the process
    (the stdio buffer of the pipe to dzen2, what dzen2 has received, the
    messages xosd has displayed, the descriptors opened, the seconds
    slept).  [Env] is what the operating system answers during one cycle of
    the main loop: the sysctl values, the mixer, the clock.  Every sysctl
    name is read at most once per cycle, so one [Env] per cycle loses
    nothing.

    The C code never checks what [sysctlbyname] returns.  When the call
    fails the local variable keeps its indeterminate content, which the
    environment also supplies ([stack_int], [stack_cp_time], [stack_buf]).

    [mixer_opens] is a ghost field: it counts the descriptors the process
    has obtained from [open], so that "the device is opened once" can be
    stated. *)

From Stdlib Require Import ZArith Lia String Ascii List Bool.
From Stdlib Require Import RelationClasses Morphisms.
From S2P Require Import Prelude CInt.
Import ListNotations.

Local Open Scope string_scope.
Local Open Scope Z_scope.

Module World.

(** ** The xosd handle *)

Inductive xosd_align : Type := XOSD_left | XOSD_center | XOSD_right.
Inductive xosd_pos : Type := XOSD_top | XOSD_bottom | XOSD_middle.

Record xosd : Type := mk_xosd {
  osd_lines : Z;
  osd_align : xosd_align;
  osd_pos : xosd_pos;
  osd_vertical_offset : Z;
  osd_font : string;
  osd_shadow_offset : Z;
  osd_timeout : Z;
  osd_text : option string
}.

(** ** Broken-down time, the fields strftime reads *)

Record tm : Type := mk_tm {
  tm_min : Z;
  tm_hour : Z;
  tm_mday : Z;
  tm_mon : Z;
  tm_year : Z
}.

(** ** kern.cp_time: one counter per CPU state, indexed as <sys/dkstat.h> *)

Record cp_times : Type := mk_cp_times {
  CP_USER : Z;
  CP_NICE : Z;
  CP_SYS : Z;
  CP_INTR : Z;
  CP_IDLE : Z
}.

(** ** The environment of one cycle *)

Record Env : Type := mk_Env {
  sysctl_int : string -> option Z;
  sysctl_cp_time : option cp_times;
  stack_int : string -> Z;
  stack_cp_time : cp_times;
  stack_buf : string;
  open_mixer : Z;
  ioctl_mixer : Z -> option Z;
  localtime : tm;
  xosd_new : option xosd
}.

(** ** The state of the process *)

Record World : Type := mk_World {
  osd : option xosd;
  prev_state : Z;
  prev_temp : Z;
  prev_total : Z;
  prev_idle : Z;
  fd : Z;
  fp_buf : string;
  dzen_in : string;
  osd_shown : list string;
  mixer_opens : nat;
  clock : Z
}.

(** Static storage is zero-initialised; nothing has been written yet. *)
Definition initial : World :=
  {| osd := None; prev_state := 0; prev_temp := 0; prev_total := 0;
     prev_idle := 0; fd := 0; fp_buf := ""; dzen_in := "";
     osd_shown := []; mixer_opens := 0%nat; clock := 0 |}.

(** ** Field updates *)

Definition set_osd (v : option xosd) (w : World) : World :=
  {| osd := v; prev_state := prev_state w; prev_temp := prev_temp w;
     prev_total := prev_total w; prev_idle := prev_idle w; fd := fd w;
     fp_buf := fp_buf w; dzen_in := dzen_in w; osd_shown := osd_shown w;
     mixer_opens := mixer_opens w; clock := clock w |}.

Definition set_prev_state (v : Z) (w : World) : World :=
  {| osd := osd w; prev_state := v; prev_temp := prev_temp w;
     prev_total := prev_total w; prev_idle := prev_idle w; fd := fd w;
     fp_buf := fp_buf w; dzen_in := dzen_in w; osd_shown := osd_shown w;
     mixer_opens := mixer_opens w; clock := clock w |}.

Definition set_prev_temp (v : Z) (w : World) : World :=
  {| osd := osd w; prev_state := prev_state w; prev_temp := v;
     prev_total := prev_total w; prev_idle := prev_idle w; fd := fd w;
     fp_buf := fp_buf w; dzen_in := dzen_in w; osd_shown := osd_shown w;
     mixer_opens := mixer_opens w; clock := clock w |}.

Definition set_prev_total (v : Z) (w : World) : World :=
  {| osd := osd w; prev_state := prev_state w; prev_temp := prev_temp w;
     prev_total := v; prev_idle := prev_idle w; fd := fd w;
     fp_buf := fp_buf w; dzen_in := dzen_in w; osd_shown := osd_shown w;
     mixer_opens := mixer_opens w; clock := clock w |}.

Definition set_prev_idle (v : Z) (w : World) : World :=
  {| osd := osd w; prev_state := prev_state w; prev_temp := prev_temp w;
     prev_total := prev_total w; prev_idle := v; fd := fd w;
     fp_buf := fp_buf w; dzen_in := dzen_in w; osd_shown := osd_shown w;
     mixer_opens := mixer_opens w; clock := clock w |}.

Definition set_fd (v : Z) (w : World) : World :=
  {| osd := osd w; prev_state := prev_state w; prev_temp := prev_temp w;
     prev_total := prev_total w; prev_idle := prev_idle w; fd := v;
     fp_buf := fp_buf w; dzen_in := dzen_in w; osd_shown := osd_shown w;
     mixer_opens := mixer_opens w; clock := clock w |}.

Definition set_fp_buf (v : string) (w : World) : World :=
  {| osd := osd w; prev_state := prev_state w; prev_temp := prev_temp w;
     prev_total := prev_total w; prev_idle := prev_idle w; fd := fd w;
     fp_buf := v; dzen_in := dzen_in w; osd_shown := osd_shown w;
     mixer_opens := mixer_opens w; clock := clock w |}.

Definition set_dzen_in (v : string) (w : World) : World :=
  {| osd := osd w; prev_state := prev_state w; prev_temp := prev_temp w;
     prev_total := prev_total w; prev_idle := prev_idle w; fd := fd w;
     fp_buf := fp_buf w; dzen_in := v; osd_shown := osd_shown w;
     mixer_opens := mixer_opens w; clock := clock w |}.

Definition set_osd_shown (v : list string) (w : World) : World :=
  {| osd := osd w; prev_state := prev_state w; prev_temp := prev_temp w;
     prev_total := prev_total w; prev_idle := prev_idle w; fd := fd w;
     fp_buf := fp_buf w; dzen_in := dzen_in w; osd_shown := v;
     mixer_opens := mixer_opens w; clock := clock w |}.

Definition set_mixer_opens (v : nat) (w : World) : World :=
  {| osd := osd w; prev_state := prev_state w; prev_temp := prev_temp w;
     prev_total := prev_total w; prev_idle := prev_idle w; fd := fd w;
     fp_buf := fp_buf w; dzen_in := dzen_in w; osd_shown := osd_shown w;
     mixer_opens := v; clock := clock w |}.

Definition set_clock (v : Z) (w : World) : World :=
  {| osd := osd w; prev_state := prev_state w; prev_temp := prev_temp w;
     prev_total := prev_total w; prev_idle := prev_idle w; fd := fd w;
     fp_buf := fp_buf w; dzen_in := dzen_in w; osd_shown := osd_shown w;
     mixer_opens := mixer_opens w; clock := v |}.

(** ** Primitives of the C library, as programs *)

Definition M (A : Type) : Type := Prog World A.

(** [fprintf(fp, ...)] once the text is formatted: append to the buffer. *)
Definition fputs (s : string) : M unit :=
  modify (fun w => set_fp_buf (fp_buf w ++ s) w).

(** [fflush(fp)]: hand the buffer to the reader of the pipe. *)
Definition fflush : M unit :=
  modify (fun w => set_fp_buf "" (set_dzen_in (dzen_in w ++ fp_buf w) w)).

(** [err(1, msg)]: the process ends through [exit], which flushes the
    open stdio streams on its way out. *)
Definition die {A : Type} (msg : string) : M A :=
  bind fflush (fun _ => err 1 msg).

(** [sleep(n)]. *)
Definition sleep (n : Z) : M unit :=
  modify (fun w => set_clock (clock w + n) w).

(** [sysctlbyname(name, &var, &sz, NULL, 0)] for an [int] variable: the
    value the variable holds after the call, whether the call succeeded
    or not. *)
Definition sysctlbyname_int (e : Env) (name var : string) : Z :=
  match sysctl_int e name with
  | Some v => CInt.wrap v
  | None => CInt.wrap (stack_int e var)
  end.

(** [sysctlbyname(SYSCTL_CPU_TIME, &cp_time, ...)]. *)
Definition sysctlbyname_cp_time (e : Env) : cp_times :=
  match sysctl_cp_time e with
  | Some v => v
  | None => stack_cp_time e
  end.

(** ** What the primitives do to the state *)

Lemma fputs_ok (s : string) (w : World) :
  fputs s w = Ok tt (set_fp_buf (fp_buf w ++ s) w).
Proof. reflexivity. Qed.

Lemma fflush_ok (w : World) :
  fflush w = Ok tt (set_fp_buf "" (set_dzen_in (dzen_in w ++ fp_buf w) w)).
Proof. reflexivity. Qed.

Lemma die_exit {A : Type} (msg : string) (w : World) :
  die (A := A) msg w =
  Exit 1 msg (set_fp_buf "" (set_dzen_in (dzen_in w ++ fp_buf w) w)).
Proof. reflexivity. Qed.

Lemma sleep_ok (n : Z) (w : World) : sleep n w = Ok tt (set_clock (clock w + n) w).
Proof. reflexivity. Qed.

Lemma sysctlbyname_int_in_int (e : Env) (name var : string) :
  CInt.in_int (sysctlbyname_int e name var).
Proof. unfold sysctlbyname_int. destruct (sysctl_int e name); auto with jstatus. Qed.

Lemma sysctlbyname_int_ok (e : Env) (name var : string) (v : Z) :
  sysctl_int e name = Some v -> CInt.in_int v -> sysctlbyname_int e name var = v.
Proof.
  intros E H. unfold sysctlbyname_int. rewrite E. now apply CInt.wrap_small.
Qed.

(** ** Building environments

    [null_env] is the environment in which every call fails and every
    uninitialised variable holds zero; the [with_*] functions switch one
    answer on.  The examples of the development are built from them. *)

Definition null_env : Env :=
  {| sysctl_int := fun _ => None;
     sysctl_cp_time := None;
     stack_int := fun _ => 0;
     stack_cp_time := mk_cp_times 0 0 0 0 0;
     stack_buf := "";
     open_mixer := -1;
     ioctl_mixer := fun _ => None;
     localtime := mk_tm 0 0 1 0 70;
     xosd_new := None |}.

Definition with_sysctl (name : string) (v : Z) (e : Env) : Env :=
  {| sysctl_int := fun n => if String.eqb n name then Some v else sysctl_int e n;
     sysctl_cp_time := sysctl_cp_time e; stack_int := stack_int e;
     stack_cp_time := stack_cp_time e; stack_buf := stack_buf e; open_mixer := open_mixer e;
     ioctl_mixer := ioctl_mixer e; localtime := localtime e;
     xosd_new := xosd_new e |}.

Definition with_stack (var : string) (v : Z) (e : Env) : Env :=
  {| sysctl_int := sysctl_int e; sysctl_cp_time := sysctl_cp_time e;
     stack_int := fun n => if String.eqb n var then v else stack_int e n;
     stack_cp_time := stack_cp_time e; stack_buf := stack_buf e; open_mixer := open_mixer e;
     ioctl_mixer := ioctl_mixer e; localtime := localtime e;
     xosd_new := xosd_new e |}.

Definition with_cp_time (v : cp_times) (e : Env) : Env :=
  {| sysctl_int := sysctl_int e; sysctl_cp_time := Some v;
     stack_int := stack_int e; stack_cp_time := stack_cp_time e;
     stack_buf := stack_buf e;
     open_mixer := open_mixer e; ioctl_mixer := ioctl_mixer e;
     localtime := localtime e; xosd_new := xosd_new e |}.

Definition with_mixer (descr : Z) (level : option Z) (e : Env) : Env :=
  {| sysctl_int := sysctl_int e; sysctl_cp_time := sysctl_cp_time e;
     stack_int := stack_int e; stack_cp_time := stack_cp_time e; stack_buf := stack_buf e;
     open_mixer := descr; ioctl_mixer := fun _ => level;
     localtime := localtime e; xosd_new := xosd_new e |}.

Definition with_time (t : tm) (e : Env) : Env :=
  {| sysctl_int := sysctl_int e; sysctl_cp_time := sysctl_cp_time e;
     stack_int := stack_int e; stack_cp_time := stack_cp_time e; stack_buf := stack_buf e;
     open_mixer := open_mixer e; ioctl_mixer := ioctl_mixer e;
     localtime := t; xosd_new := xosd_new e |}.

(** A display is present: [xosd_create] hands out a handle with the
    library's settings. *)
Definition with_display (e : Env) : Env :=
  {| sysctl_int := sysctl_int e; sysctl_cp_time := sysctl_cp_time e;
     stack_int := stack_int e; stack_cp_time := stack_cp_time e; stack_buf := stack_buf e;
     open_mixer := open_mixer e; ioctl_mixer := ioctl_mixer e;
     localtime := localtime e;
     xosd_new := Some (mk_xosd 1 XOSD_left XOSD_top 0 "fixed" 0 (-1) None) |}.

(** ** Frames

    [unchanged_by mask w w']: the two states agree once [mask] has
    overwritten the fields a function is allowed to change.  Whatever
    field [mask] leaves alone is then the same in both. *)

Definition unchanged_by (mask : World -> World) (w w' : World) : Prop :=
  mask w = mask w'.

#[export] Instance unchanged_by_equivalence (mask : World -> World) :
  Equivalence (unchanged_by mask).
Proof.
  unfold unchanged_by. split.
  - intros w. reflexivity.
  - intros w w' H. now symmetry.
  - intros w1 w2 w3 H1 H2. now transitivity (mask w2).
Qed.

Lemma unchanged_proj {A : Type} (f : World -> A) (mask : World -> World) (w w' : World) :
  (forall x, f (mask x) = f x) -> unchanged_by mask w w' -> f w = f w'.
Proof. intros Hf H. rewrite <- (Hf w), <- (Hf w'). now f_equal. Qed.

(** A coarser mask keeps what a finer one kept. *)
Lemma unchanged_weaken (m1 m2 : World -> World) (w w' : World) :
  (forall x, m2 (m1 x) = m2 x) -> unchanged_by m1 w w' -> unchanged_by m2 w w'.
Proof. intros H. apply (unchanged_proj m2 m1). exact H. Qed.

(** ** Well-formed states: every [int] static holds an [int] *)

Record wf (w : World) : Prop := mk_wf {
  wf_prev_state : CInt.in_int (prev_state w);
  wf_prev_temp : CInt.in_int (prev_temp w);
  wf_prev_total : CInt.in_int (prev_total w);
  wf_prev_idle : CInt.in_int (prev_idle w);
  wf_fd : CInt.in_int (fd w)
}.

Lemma initial_wf : wf initial.
Proof. split; cbv; split; discriminate. Qed.

End World.

#[export] Hint Resolve World.sysctlbyname_int_in_int World.initial_wf : jstatus.
#[export] Hint Rewrite World.fputs_ok World.fflush_ok World.sleep_ok : prog.
