(* ===== verification/Osd.v ===== *)
(** * Osd: the on-screen notifier ([show_message])

    [show_message] keeps one xosd handle in a function-local static.  The
    first call creates it with one line of text and configures it; every
    call then replaces the text of line 0.  The xosd library is only
    called, never defined, by jstatus.c: its functions are modelled by
    what they document, each one a no-op that reports failure on a NULL
    handle, and [xosd_display] also on a line the handle does not have.
    A fresh handle carries the library's defaults, which the environment
    supplies ([xosd_new]); [None] is a failed [xosd_create]. *)

From Stdlib Require Import ZArith Lia String Ascii List Bool.
From Stdlib Require Import RelationClasses Morphisms.
From S2P Require Import Prelude CInt World.
Import ListNotations.
Import World.

Local Open Scope string_scope.
Local Open Scope Z_scope.
Local Open Scope prog_scope.

Module Osd.

Definition OSD_FONT : string :=
  "-adobe-helvetica-bold-r-normal-*-*-240-*-*-p-*-iso8859-1".

(** ** The library calls, on a pointer that may be NULL *)

Definition xosd_create (e : Env) (lines : Z) : option xosd :=
  match xosd_new e with
  | Some h =>
      Some {| osd_lines := lines; osd_align := osd_align h; osd_pos := osd_pos h;
              osd_vertical_offset := osd_vertical_offset h;
              osd_font := osd_font h; osd_shadow_offset := osd_shadow_offset h;
              osd_timeout := osd_timeout h; osd_text := None |}
  | None => None
  end.

Definition xosd_set_align (o : option xosd) (a : xosd_align) : option xosd :=
  match o with
  | Some h =>
      Some {| osd_lines := osd_lines h; osd_align := a; osd_pos := osd_pos h;
              osd_vertical_offset := osd_vertical_offset h;
              osd_font := osd_font h; osd_shadow_offset := osd_shadow_offset h;
              osd_timeout := osd_timeout h; osd_text := osd_text h |}
  | None => None
  end.

Definition xosd_set_pos (o : option xosd) (p : xosd_pos) : option xosd :=
  match o with
  | Some h =>
      Some {| osd_lines := osd_lines h; osd_align := osd_align h; osd_pos := p;
              osd_vertical_offset := osd_vertical_offset h;
              osd_font := osd_font h; osd_shadow_offset := osd_shadow_offset h;
              osd_timeout := osd_timeout h; osd_text := osd_text h |}
  | None => None
  end.

Definition xosd_set_vertical_offset (o : option xosd) (v : Z) : option xosd :=
  match o with
  | Some h =>
      Some {| osd_lines := osd_lines h; osd_align := osd_align h;
              osd_pos := osd_pos h; osd_vertical_offset := v;
              osd_font := osd_font h; osd_shadow_offset := osd_shadow_offset h;
              osd_timeout := osd_timeout h; osd_text := osd_text h |}
  | None => None
  end.

Definition xosd_set_font (o : option xosd) (f : string) : option xosd :=
  match o with
  | Some h =>
      Some {| osd_lines := osd_lines h; osd_align := osd_align h;
              osd_pos := osd_pos h;
              osd_vertical_offset := osd_vertical_offset h;
              osd_font := f; osd_shadow_offset := osd_shadow_offset h;
              osd_timeout := osd_timeout h; osd_text := osd_text h |}
  | None => None
  end.

Definition xosd_set_shadow_offset (o : option xosd) (v : Z) : option xosd :=
  match o with
  | Some h =>
      Some {| osd_lines := osd_lines h; osd_align := osd_align h;
              osd_pos := osd_pos h;
              osd_vertical_offset := osd_vertical_offset h;
              osd_font := osd_font h; osd_shadow_offset := v;
              osd_timeout := osd_timeout h; osd_text := osd_text h |}
  | None => None
  end.

Definition xosd_set_timeout (o : option xosd) (v : Z) : option xosd :=
  match o with
  | Some h =>
      Some {| osd_lines := osd_lines h; osd_align := osd_align h;
              osd_pos := osd_pos h;
              osd_vertical_offset := osd_vertical_offset h;
              osd_font := osd_font h; osd_shadow_offset := osd_shadow_offset h;
              osd_timeout := v; osd_text := osd_text h |}
  | None => None
  end.

Definition set_text (t : option string) (h : xosd) : xosd :=
  {| osd_lines := osd_lines h; osd_align := osd_align h; osd_pos := osd_pos h;
     osd_vertical_offset := osd_vertical_offset h; osd_font := osd_font h;
     osd_shadow_offset := osd_shadow_offset h; osd_timeout := osd_timeout h;
     osd_text := t |}.

(** [xosd_display(osd, line, XOSD_string, msg)]: the text of [line]
    becomes [msg] and the window is shown. *)
Definition xosd_display (line : Z) (msg : string) : M unit :=
  modify (fun w =>
    match osd w with
    | Some h =>
        if (0 <=? line) && (line <? osd_lines h) then
          set_osd_shown (osd_shown w ++ [msg]) (set_osd (Some (set_text (Some msg) h)) w)
        else w
    | None => w
    end).

(** ** The body of the [if (osd == NULL)] block *)

Definition osd_setup (e : Env) : option xosd :=
  let o := xosd_create e 1 in
  let o := xosd_set_align o XOSD_right in
  let o := xosd_set_pos o XOSD_bottom in
  let o := xosd_set_vertical_offset o 20 in
  let o := xosd_set_font o OSD_FONT in
  let o := xosd_set_shadow_offset o 4 in
  xosd_set_timeout o 4.

Definition show_message (e : Env) (msg : string) : M unit :=
  w <- get ;;
  match osd w with
  | None => modify (set_osd (osd_setup e))
  | Some _ => ret tt
  end ;;
  xosd_display 0 msg.

(** ** Specification *)

(** The handle as [show_message] configures it. *)
Definition configured (h : xosd) : Prop :=
  osd_lines h = 1 /\ osd_align h = XOSD_right /\ osd_pos h = XOSD_bottom /\
  osd_vertical_offset h = 20 /\ osd_font h = OSD_FONT /\
  osd_shadow_offset h = 4 /\ osd_timeout h = 4.

(** The static holds either NULL or a configured handle. *)
Definition osd_ok (w : World) : Prop :=
  forall h, osd w = Some h -> configured h.

(** The message on screen, if any. *)
Definition visible (w : World) : option string :=
  match osd w with
  | Some h => osd_text h
  | None => None
  end.

Lemma osd_setup_configured (e : Env) (h : xosd) :
  osd_setup e = Some h -> configured h /\ osd_text h = None.
Proof.
  unfold osd_setup, xosd_create. destruct (xosd_new e); [| discriminate].
  cbn. intros [= <-]. cbv. repeat split.
Qed.

Lemma osd_setup_none (e : Env) : xosd_new e = None <-> osd_setup e = None.
Proof.
  unfold osd_setup, xosd_create. destruct (xosd_new e); cbn; split; congruence.
Qed.

Lemma configured_set_text (t : option string) (h : xosd) :
  configured h -> configured (set_text t h).
Proof. intros C. exact C. Qed.

Lemma initial_osd_ok : osd_ok initial.
Proof. intros h. discriminate. Qed.

(** ** The notifier's share of the state

    [show_message] touches the handle and the list of displayed messages
    and nothing else.  Two states are [notifier_equiv] when they agree on
    everything but these two: the status line is a function of the
    equivalence class. *)

Definition erase (w : World) : World := set_osd_shown [] (set_osd None w).

Definition notifier_equiv : World -> World -> Prop := unchanged_by erase.

#[export] Instance notifier_equiv_equivalence : Equivalence notifier_equiv.
Proof. apply unchanged_by_equivalence. Qed.

Lemma erase_set_osd (o : option xosd) (w : World) : erase (set_osd o w) = erase w.
Proof. reflexivity. Qed.

Lemma erase_set_osd_shown (l : list string) (w : World) :
  erase (set_osd_shown l w) = erase w.
Proof. reflexivity. Qed.

Lemma notifier_equiv_proj {A : Type} (f : World -> A) (w w' : World) :
  (forall x, f (erase x) = f x) -> notifier_equiv w w' -> f w = f w'.
Proof. apply unchanged_proj. Qed.

#[export] Instance fp_buf_proper : Proper (notifier_equiv ==> eq) fp_buf.
Proof. intros w w'. now apply notifier_equiv_proj. Qed.

#[export] Instance dzen_in_proper : Proper (notifier_equiv ==> eq) dzen_in.
Proof. intros w w'. now apply notifier_equiv_proj. Qed.

#[export] Instance prev_state_proper : Proper (notifier_equiv ==> eq) prev_state.
Proof. intros w w'. now apply notifier_equiv_proj. Qed.

#[export] Instance prev_temp_proper : Proper (notifier_equiv ==> eq) prev_temp.
Proof. intros w w'. now apply notifier_equiv_proj. Qed.

#[export] Instance prev_total_proper : Proper (notifier_equiv ==> eq) prev_total.
Proof. intros w w'. now apply notifier_equiv_proj. Qed.

#[export] Instance prev_idle_proper : Proper (notifier_equiv ==> eq) prev_idle.
Proof. intros w w'. now apply notifier_equiv_proj. Qed.

#[export] Instance fd_proper : Proper (notifier_equiv ==> eq) fd.
Proof. intros w w'. now apply notifier_equiv_proj. Qed.

#[export] Instance clock_proper : Proper (notifier_equiv ==> eq) clock.
Proof. intros w w'. now apply notifier_equiv_proj. Qed.

#[export] Instance mixer_opens_proper : Proper (notifier_equiv ==> eq) mixer_opens.
Proof. intros w w'. now apply notifier_equiv_proj. Qed.

(** ** [xosd_display] *)

Lemma xosd_display_null (line : Z) (msg : string) (w : World) :
  osd w = None -> xosd_display line msg w = Ok tt w.
Proof. intros E. unfold xosd_display, modify. now rewrite E. Qed.

Lemma xosd_display_configured (msg : string) (w : World) (h : xosd) :
  osd w = Some h -> configured h ->
  exists w', xosd_display 0 msg w = Ok tt w' /\
    osd_shown w' = (osd_shown w ++ [msg])%list /\ visible w' = Some msg /\
    osd_ok w' /\ notifier_equiv w w'.
Proof.
  intros E C. unfold xosd_display, modify. rewrite E.
  destruct C as (L & C). rewrite L. cbn [Z.leb Z.ltb Z.compare andb].
  eexists. split; [reflexivity |].
  split; [reflexivity |]. split; [reflexivity |]. split; [| reflexivity].
  intros h' [= <-]. apply configured_set_text. now split.
Qed.

Lemma xosd_display_frame (line : Z) (msg : string) (w w' : World) :
  xosd_display line msg w = Ok tt w' -> notifier_equiv w w'.
Proof.
  unfold xosd_display, modify. intros [= <-].
  destruct (osd w); [| reflexivity].
  destruct (_ && _); reflexivity.
Qed.

(** ** [show_message] *)

Lemma show_message_reuse (e : Env) (msg : string) (w : World) (h : xosd) :
  osd w = Some h -> show_message e msg w = xosd_display 0 msg w.
Proof. intros E. unfold show_message, bind, get. now rewrite E. Qed.

Lemma show_message_create (e : Env) (msg : string) (w : World) :
  osd w = None ->
  show_message e msg w = xosd_display 0 msg (set_osd (osd_setup e) w).
Proof. intros E. unfold show_message, bind, get. now rewrite E. Qed.

(** Notification never stops the program. *)
Lemma show_message_ok (e : Env) (msg : string) (w : World) :
  exists w', show_message e msg w = Ok tt w'.
Proof.
  destruct (osd w) as [h|] eqn:E.
  - rewrite (show_message_reuse e msg w h E). eexists. reflexivity.
  - rewrite (show_message_create e msg w E). eexists. reflexivity.
Qed.

(** It changes the notifier's share of the state only. *)
Lemma show_message_frame (e : Env) (msg : string) (w w' : World) :
  show_message e msg w = Ok tt w' -> notifier_equiv w w'.
Proof.
  destruct (osd w) as [h|] eqn:E.
  - rewrite (show_message_reuse e msg w h E). apply xosd_display_frame.
  - rewrite (show_message_create e msg w E). intros H.
    apply xosd_display_frame in H. etransitivity; [| exact H]. reflexivity.
Qed.

(** With a handle at hand or obtainable, the message is displayed and is
    the one on screen afterwards. *)
Lemma show_message_shown (e : Env) (msg : string) (w : World) :
  osd_ok w -> (osd w <> None \/ xosd_new e <> None) ->
  exists w', show_message e msg w = Ok tt w' /\
    osd_shown w' = (osd_shown w ++ [msg])%list /\ visible w' = Some msg /\ osd_ok w'.
Proof.
  intros Hok Hh. destruct (osd w) as [h|] eqn:E.
  - rewrite (show_message_reuse e msg w h E).
    destruct (xosd_display_configured msg w h E (Hok h E)) as (w' & ? & ? & ? & ? & _).
    eauto.
  - rewrite (show_message_create e msg w E).
    destruct (osd_setup e) as [h|] eqn:S.
    + destruct (osd_setup_configured e h S) as [C _].
      destruct (xosd_display_configured msg (set_osd (Some h) w) h eq_refl C)
        as (w' & ? & ? & ? & ? & _).
      eauto.
    + apply osd_setup_none in S. destruct Hh; contradiction.
Qed.

(** When no handle can be created the message is dropped, and the next
    call will try again. *)
Lemma show_message_dropped (e : Env) (msg : string) (w : World) :
  osd w = None -> xosd_new e = None ->
  exists w', show_message e msg w = Ok tt w' /\
    osd w' = None /\ osd_shown w' = osd_shown w.
Proof.
  intros E N. rewrite (show_message_create e msg w E).
  apply osd_setup_none in N. rewrite N.
  rewrite xosd_display_null by reflexivity. eauto.
Qed.

(** The handle is created at most once: an existing one keeps its
    settings. *)
Lemma show_message_keeps_handle (e : Env) (msg : string) (w w' : World) (h : xosd) :
  osd w = Some h -> configured h -> show_message e msg w = Ok tt w' ->
  exists h', osd w' = Some h' /\ configured h' /\ osd_text h' = Some msg.
Proof.
  intros E C. rewrite (show_message_reuse e msg w h E).
  unfold xosd_display, modify. rewrite E.
  destruct C as (L & C). rewrite L. cbn [Z.leb Z.ltb Z.compare andb].
  intros [= <-]. eexists. split; [reflexivity |].
  split; [| reflexivity]. apply configured_set_text. now split.
Qed.

Lemma show_message_osd_ok (e : Env) (msg : string) (w w' : World) :
  osd_ok w -> show_message e msg w = Ok tt w' -> osd_ok w'.
Proof.
  intros Hok. destruct (osd w) as [h|] eqn:E.
  - intros H. destruct (show_message_keeps_handle e msg w w' h E (Hok h E) H)
      as (h' & E' & C & _).
    intros h2 E2. congruence.
  - rewrite (show_message_create e msg w E).
    destruct (osd_setup e) as [h|] eqn:S.
    + destruct (osd_setup_configured e h S) as [C _].
      destruct (xosd_display_configured msg (set_osd (Some h) w) h eq_refl C)
        as (w2 & -> & _ & _ & Hok' & _).
      now intros [= <-].
    + rewrite xosd_display_null by reflexivity. intros [= <-] h. discriminate.
Qed.

(** ** The notifier as a state transformer

    [show_message] always returns, so it is a function on states:
    [notify e msg w] is the state it leaves.  The components that raise
    alerts are specified with it. *)

Definition display (line : Z) (msg : string) (w : World) : World :=
  final_state (xosd_display line msg w).

Definition notify (e : Env) (msg : string) (w : World) : World :=
  final_state (show_message e msg w).

Definition notify_all (e : Env) (msgs : list string) (w : World) : World :=
  fold_left (fun w msg => notify e msg w) msgs w.

(** A handle exists or can be created. *)
Definition available (e : Env) (w : World) : Prop :=
  osd w <> None \/ xosd_new e <> None.

(** The notifier works: what [show_message] needs to display a message. *)
Definition ready (e : Env) (w : World) : Prop := osd_ok w /\ available e w.

Lemma show_message_run (e : Env) (msg : string) (w : World) :
  show_message e msg w = Ok tt (notify e msg w).
Proof.
  unfold notify. destruct (show_message_ok e msg w) as (w' & ->). reflexivity.
Qed.

Lemma notify_all_cons (e : Env) (m : string) (msgs : list string) (w : World) :
  notify_all e (m :: msgs) w = notify_all e msgs (notify e m w).
Proof. reflexivity. Qed.

Lemma notify_all_app (e : Env) (l1 l2 : list string) (w : World) :
  notify_all e (l1 ++ l2) w = notify_all e l2 (notify_all e l1 w).
Proof. apply fold_left_app. Qed.

(** An alert under a condition: C's [if (c) show_message(msg);]. *)
Lemma when_show_message (c : bool) (e : Env) (msg : string) (w : World) :
  when c (show_message e msg) w = Ok tt (notify_all e (if c then [msg] else []) w).
Proof. destruct c; [apply show_message_run | reflexivity]. Qed.

(** The notifier reads nothing of the environment but the handle it may
    have to create. *)
Lemma notify_env (e e' : Env) (msg : string) (w : World) :
  xosd_new e = xosd_new e' -> notify e msg w = notify e' msg w.
Proof.
  intros H. unfold notify, show_message, osd_setup, xosd_create. now rewrite H.
Qed.

Lemma notify_all_env (e e' : Env) (msgs : list string) (w : World) :
  xosd_new e = xosd_new e' -> notify_all e msgs w = notify_all e' msgs w.
Proof.
  intros H. revert w. induction msgs as [|m msgs IH]; intros w; [reflexivity |].
  now rewrite !notify_all_cons, (notify_env e e' m w H), IH.
Qed.

Lemma notify_equiv (e : Env) (msg : string) (w : World) :
  notifier_equiv w (notify e msg w).
Proof. apply (show_message_frame e msg), show_message_run. Qed.

Lemma notify_all_equiv (e : Env) (msgs : list string) (w : World) :
  notifier_equiv w (notify_all e msgs w).
Proof.
  revert w. induction msgs as [|m msgs IH]; intros w; [reflexivity |].
  rewrite notify_all_cons. etransitivity; [apply (notify_equiv e m) | apply IH].
Qed.

Lemma notify_osd_ok (e : Env) (msg : string) (w : World) :
  osd_ok w -> osd_ok (notify e msg w).
Proof. intros H. eapply show_message_osd_ok; [exact H | apply show_message_run]. Qed.

Lemma notify_all_osd_ok (e : Env) (msgs : list string) (w : World) :
  osd_ok w -> osd_ok (notify_all e msgs w).
Proof.
  revert w. induction msgs as [|m msgs IH]; intros w H; [exact H |].
  rewrite notify_all_cons. apply IH. now apply notify_osd_ok.
Qed.

Lemma notify_ready (e : Env) (msg : string) (w : World) :
  ready e w ->
  osd_shown (notify e msg w) = (osd_shown w ++ [msg])%list /\
  visible (notify e msg w) = Some msg /\ ready e (notify e msg w).
Proof.
  intros [Hok Hav].
  destruct (show_message_shown e msg w Hok Hav) as (w' & E & Hs & Hv & Hok').
  rewrite show_message_run in E. injection E as <-.
  split; [exact Hs |]. split; [exact Hv |]. split; [exact Hok' |].
  left. unfold visible in Hv. destruct (osd (notify e msg w)); congruence.
Qed.

(** A working notifier displays every message handed to it, in order,
    and the last one stays on screen. *)
Lemma notify_all_ready (e : Env) (msgs : list string) (w : World) :
  ready e w ->
  osd_shown (notify_all e msgs w) = (osd_shown w ++ msgs)%list /\
  ready e (notify_all e msgs w) /\
  visible (notify_all e msgs w) = last (map Some msgs) (visible w).
Proof.
  revert w. induction msgs as [|m msgs IH]; intros w H.
  - cbn. now rewrite app_nil_r.
  - destruct (notify_ready e m w H) as (Hs & Hv & Hr).
    destruct (IH _ Hr) as (Hs' & Hr' & Hv').
    rewrite notify_all_cons, Hs', Hs, <- app_assoc.
    split; [reflexivity |]. split; [exact Hr' |].
    rewrite Hv', Hv.
    destruct msgs; [reflexivity | apply (last_cons_default (A := option string))].
Qed.

(** [show_message] as a specification triple. *)
Lemma show_message_total (e : Env) (msg : string) :
  total (ready e) (show_message e msg)
    (fun w _ w' => osd_shown w' = (osd_shown w ++ [msg])%list /\
                   visible w' = Some msg /\ ready e w' /\ notifier_equiv w w').
Proof.
  intros w H. exists tt, (notify e msg w). split; [apply show_message_run |].
  destruct (notify_ready e msg w H) as (? & ? & ?).
  auto using notify_equiv.
Qed.

(** ** Theorems *)

(** C37: with a display, [show_message] shows the message: it returns,
    the message is the one on screen, the handle in the static is
    configured as the function configures it (one line, bottom right,
    offset 20, shadow 4, timeout 4 seconds), and nothing outside the
    notifier changes. *)
Theorem show_message_displays (e : Env) (msg : string) (w : World) :
  ready e w ->
  exists w' h,
    show_message e msg w = Ok tt w' /\
    osd w' = Some h /\ configured h /\ osd_text h = Some msg /\
    osd_shown w' = (osd_shown w ++ [msg])%list /\
    notifier_equiv w w'.
Proof.
  intros H. exists (notify e msg w).
  destruct (notify_ready e msg w H) as (Hs & Hv & Hok & _).
  unfold visible in Hv. destruct (osd (notify e msg w)) as [h|] eqn:E; [| discriminate].
  exists h. split; [apply show_message_run |]. split; [reflexivity |].
  split; [now apply Hok |]. auto using notify_equiv.
Qed.

Lemma show_message_displays_witness :
  exists w' h,
    show_message (with_display null_env) "PLUG AC!" initial = Ok tt w' /\
    osd w' = Some h /\ configured h /\ osd_text h = Some "PLUG AC!" /\
    osd_shown w' = (osd_shown initial ++ ["PLUG AC!"])%list /\
    notifier_equiv initial w'.
Proof.
  apply (show_message_displays (with_display null_env) "PLUG AC!" initial).
  split; [apply initial_osd_ok | right; discriminate].
Defined.

(** [show_message] never stops the program.  It returns whatever
    the display does; nothing outside the notifier changes; without a
    display the message is dropped and the next call tries to create the
    handle again. *)
Theorem show_message_never_stops (e : Env) (msg : string) (w : World) :
  exists w',
    show_message e msg w = Ok tt w' /\
    notifier_equiv w w' /\
    (osd w = None -> xosd_new e = None ->
     osd w' = None /\ osd_shown w' = osd_shown w).
Proof.
  exists (notify e msg w). split; [apply show_message_run |].
  split; [apply notify_equiv |]. intros E N.
  destruct (show_message_dropped e msg w E N) as (w' & H & Ho & Hs).
  rewrite show_message_run in H. injection H as <-. now split.
Qed.

End Osd.

#[export] Hint Resolve Osd.notify_equiv Osd.notify_all_equiv Osd.notify_osd_ok
  Osd.notify_all_osd_ok Osd.initial_osd_ok : jstatus.
