(* ===== verification/Stream.v ===== *)
(** * Stream: what a statement may do to the line being written

    The loop of [main] relies on one thing from the functions it calls:
    that they only add text to the stream, and text without a newline.
    This file makes that the interface between the field printers and the
    loop.  [pipe w] is everything written so far, flushed or not;
    [Writes n m] says that the statement [m] adds to it a text with
    exactly [n] newlines when it returns and at most [n] when it stops,
    that it keeps the state well formed and the clock from going back,
    and that when it exits it exits with status 1 and a flushed stream.

    The rules below are those of a small program logic: one per
    primitive and one per way of composing statements.  They are
    instances, so that the judgement of a function is found by looking at
    its text.  Each component proves the judgement of its printer; [Main]
    and [Loop] count lines from the judgements alone. *)

From Stdlib Require Import ZArith Lia String Ascii List Bool.
From Stdlib Require Import RelationClasses Morphisms.
From S2P Require Import Prelude CInt Printf World Osd.
Import ListNotations.
Import World.

Local Open Scope string_scope.
Local Open Scope Z_scope.
Local Open Scope prog_scope.

Module Stream.

Definition NL : ascii := "010"%char.

(** The number of line ends in a text. *)
Definition lines (t : string) : nat := count_char NL t.

(** Everything the process has written: what dzen2 has received and what
    still waits in the buffer. *)
Definition pipe (w : World) : string := dzen_in w ++ fp_buf w.

(** What every statement keeps. *)
Record kept (w w' : World) : Prop := mk_kept {
  kept_wf : wf w -> wf w';
  kept_osd : Osd.osd_ok w -> Osd.osd_ok w';
  kept_clock : clock w <= clock w'
}.

Definition writes_outcome {A : Type} (n : nat) (w : World) (o : outcome World A) : Prop :=
  match o with
  | Ok _ w' => (exists t, pipe w' = pipe w ++ t /\ lines t = n) /\ kept w w'
  | Exit code _ w' =>
      code = 1 /\ fp_buf w' = "" /\
      exists t, pipe w' = pipe w ++ t /\ (lines t <= n)%nat
  | Fault w' => exists t, pipe w' = pipe w ++ t /\ (lines t <= n)%nat
  end.

Class Writes {A : Type} (n : nat) (m : M A) : Prop :=
  writes : forall w, writes_outcome n w (m w).

(** A text without a newline. *)
Class NlFree (t : string) : Prop := nl_free : lines t = 0%nat.

#[global] Hint Mode Writes + - ! : typeclass_instances.
#[global] Hint Mode NlFree ! : typeclass_instances.

(** ** Texts *)

#[global] Instance kept_preorder : PreOrder kept.
Proof.
  split.
  - intros w. split; auto. lia.
  - intros w1 w2 w3 [] []. split; auto. lia.
Qed.

Lemma lines_append (s t : string) : lines (s ++ t) = (lines s + lines t)%nat.
Proof. apply count_char_append. Qed.

#[global] Hint Rewrite lines_append : count.

#[global] Instance nl_free_empty : NlFree "".
Proof. reflexivity. Qed.

#[global] Instance nl_free_append (s t : string) :
  NlFree s -> NlFree t -> NlFree (s ++ t).
Proof. unfold NlFree. intros Hs Ht. now rewrite lines_append, Hs, Ht. Qed.

#[global] Instance nl_free_fmt_d (n : Z) : NlFree (Printf.fmt_d n).
Proof. now apply Printf.count_fmt_d. Qed.

#[global] Instance nl_free_fmt_0d (w : nat) (n : Z) : NlFree (Printf.fmt_0d w n).
Proof. now apply Printf.count_fmt_0d. Qed.

#[global] Instance nl_free_fmt_sd (w : nat) (n : Z) : NlFree (Printf.fmt_sd w n).
Proof. now apply Printf.count_fmt_sd. Qed.

#[global] Instance nl_free_if (c : bool) (s t : string) :
  NlFree s -> NlFree t -> NlFree (if c then s else t).
Proof. now destruct c. Qed.

(** A literal is looked at. *)
#[global] Hint Extern 10 (NlFree _) => vm_compute; reflexivity : typeclass_instances.

(** ** The rules *)

(** The statics a statement must keep in range, and the handle. *)
Definition statics (w : World) : Z * Z * Z * Z * Z * option xosd :=
  (prev_state w, prev_temp w, prev_total w, prev_idle w, fd w, osd w).

Lemma kept_statics (w w' : World) :
  statics w' = statics w -> clock w <= clock w' -> kept w w'.
Proof.
  unfold statics. intros [= E1 E2 E3 E4 E5 E6] Hc. split; [| | exact Hc].
  - intros [? ? ? ? ?]. split; congruence.
  - intros H h. rewrite E6. apply H.
Qed.

Lemma pipe_append (w : World) (t : string) :
  dzen_in w ++ fp_buf w ++ t = pipe w ++ t.
Proof. unfold pipe. now autorewrite with str. Qed.

Section Rules.
Context {A B : Type}.

#[global] Instance writes_ret (a : A) : Writes 0 (ret a).
Proof.
  intros w. split; [| reflexivity]. exists "". now rewrite append_nil_r.
Qed.

Lemma writes_bind (n n' : nat) (m : M A) (k : A -> M B) :
  Writes n m -> (forall a, Writes n' (k a)) -> Writes (n + n') (bind m k).
Proof.
  intros Hm Hk w. specialize (Hm w). unfold bind.
  destruct (m w) as [a w1|code msg w1|w1]; cbn [writes_outcome] in *.
  - destruct Hm as [(t1 & E1 & L1) K1]. specialize (Hk a w1).
    destruct (k a w1) as [b w2|code msg w2|w2]; cbn [writes_outcome] in *.
    + destruct Hk as [(t2 & E2 & L2) K2]. split; [| now transitivity w1].
      exists (t1 ++ t2). rewrite E2, E1, lines_append. split; [now autorewrite with str | lia].
    + destruct Hk as (-> & Hb & t2 & E2 & L2). split; [reflexivity |]. split; [exact Hb |].
      exists (t1 ++ t2). rewrite E2, E1, lines_append. split; [now autorewrite with str | lia].
    + destruct Hk as (t2 & E2 & L2).
      exists (t1 ++ t2). rewrite E2, E1, lines_append. split; [now autorewrite with str | lia].
  - destruct Hm as (-> & Hb & t & E & L). split; [reflexivity |]. split; [exact Hb |].
    exists t. split; [exact E | lia].
  - destruct Hm as (t & E & L). exists t. split; [exact E | lia].
Qed.

(** Statements that write no newline compose. *)
#[global] Instance writes_seq (m : M A) (k : A -> M B) :
  Writes 0 m -> (forall a, Writes 0 (k a)) -> Writes 0 (bind m k).
Proof. apply (writes_bind 0 0). Qed.

#[global] Instance writes_if (n : nat) (c : bool) (m m' : M A) :
  Writes n m -> Writes n m' -> Writes n (if c then m else m').
Proof. now destruct c. Qed.

#[global] Instance writes_trap : Writes 0 (trap (A := A)).
Proof. intros w. exists "". now rewrite append_nil_r. Qed.

#[global] Instance writes_die (msg : string) : Writes 0 (die (A := A) msg).
Proof.
  intros w. rewrite die_exit. split; [reflexivity |]. split; [reflexivity |].
  exists "". unfold pipe. cbn [dzen_in fp_buf set_fp_buf set_dzen_in].
  now autorewrite with str.
Qed.

End Rules.

#[global] Instance writes_get : Writes 0 (get (S := World)).
Proof. intros w. split; [| reflexivity]. exists "". now rewrite append_nil_r. Qed.

#[global] Instance writes_when (c : bool) (m : M unit) :
  Writes 0 m -> Writes 0 (when c m).
Proof. intros H. unfold when. destruct c; [exact H | apply writes_ret]. Qed.

Lemma writes_fputs (t : string) : Writes (lines t) (fputs t).
Proof.
  intros w. rewrite fputs_ok. split; [| now apply kept_statics].
  exists t. split; [| reflexivity]. unfold pipe. cbn [dzen_in fp_buf set_fp_buf].
  apply pipe_append.
Qed.

#[global] Instance writes_fputs_free (t : string) : NlFree t -> Writes 0 (fputs t).
Proof. intros H. rewrite <- H. apply writes_fputs. Qed.

#[global] Instance writes_fflush : Writes 0 fflush.
Proof.
  intros w. rewrite fflush_ok. split; [| now apply kept_statics].
  exists "". unfold pipe. cbn [dzen_in fp_buf set_fp_buf set_dzen_in].
  now autorewrite with str.
Qed.

Lemma writes_sleep (n : Z) : 0 <= n -> Writes 0 (sleep n).
Proof.
  intros Hn w. rewrite sleep_ok.
  split; [| apply kept_statics; [reflexivity | cbn [clock set_clock]; lia]].
  exists "". now rewrite append_nil_r.
Qed.

(** An update that leaves the stream, the notifier and the clock alone,
    and the state well formed. *)
Lemma writes_modify (f : World -> World) :
  (forall w, pipe (f w) = pipe w) -> (forall w, kept w (f w)) ->
  Writes 0 (modify f).
Proof.
  intros Hp Hk w. split; [| apply Hk]. exists "". now rewrite Hp, append_nil_r.
Qed.

#[global] Instance writes_show_message (e : Env) (msg : string) :
  Writes 0 (Osd.show_message e msg).
Proof.
  intros w. rewrite Osd.show_message_run. cbn [writes_outcome].
  pose proof (Osd.notify_equiv e msg w) as E.
  split.
  - exists "". unfold pipe.
    now rewrite <- (Osd.dzen_in_proper _ _ E), <- (Osd.fp_buf_proper _ _ E), append_nil_r.
  - split.
    + intros [? ? ? ? ?].
      split; [rewrite <- (Osd.prev_state_proper _ _ E) | rewrite <- (Osd.prev_temp_proper _ _ E)
             | rewrite <- (Osd.prev_total_proper _ _ E) | rewrite <- (Osd.prev_idle_proper _ _ E)
             | rewrite <- (Osd.fd_proper _ _ E)]; assumption.
    + now apply Osd.notify_osd_ok.
    + rewrite <- (Osd.clock_proper _ _ E). reflexivity.
Qed.

(** [writes_steps]: the judgement of a sequence, statement by statement;
    what resolution does not find is left to the caller. *)
Ltac writes_steps :=
  repeat (apply writes_seq; [try exact _ | intros ?]); try exact _.

(** An update of one static to an [int], or of the ghost counter. *)
Lemma writes_set_prev_state (v : Z) : CInt.in_int v -> Writes 0 (modify (set_prev_state v)).
Proof.
  intros Hv. apply writes_modify; [reflexivity |].
  intros w. split; [intros []; now split | auto | reflexivity].
Qed.

Lemma writes_set_prev_temp (v : Z) : CInt.in_int v -> Writes 0 (modify (set_prev_temp v)).
Proof.
  intros Hv. apply writes_modify; [reflexivity |].
  intros w. split; [intros []; now split | auto | reflexivity].
Qed.

Lemma writes_set_prev_total (v : Z) : CInt.in_int v -> Writes 0 (modify (set_prev_total v)).
Proof.
  intros Hv. apply writes_modify; [reflexivity |].
  intros w. split; [intros []; now split | auto | reflexivity].
Qed.

Lemma writes_set_prev_idle (v : Z) : CInt.in_int v -> Writes 0 (modify (set_prev_idle v)).
Proof.
  intros Hv. apply writes_modify; [reflexivity |].
  intros w. split; [intros []; now split | auto | reflexivity].
Qed.

Lemma writes_set_fd (v : Z) : CInt.in_int v -> Writes 0 (modify (set_fd v)).
Proof.
  intros Hv. apply writes_modify; [reflexivity |].
  intros w. split; [intros []; now split | auto | reflexivity].
Qed.

#[global] Instance writes_count_open :
  Writes 0 (modify (fun w => set_mixer_opens (S (mixer_opens w)) w)).
Proof. apply writes_modify; [reflexivity |]. intros w. now apply kept_statics. Qed.

(** ** Loops *)

Lemma writes_for_each {E : Type} (P : E -> Prop) (n : nat) (body : E -> M unit)
  (es : list E) :
  (forall e, P e -> Writes n (body e)) -> Forall P es ->
  Writes (length es * n) (for_each body es).
Proof.
  intros Hb Hes. induction Hes as [|e es He _ IH]; [apply writes_ret |].
  cbn [for_each length Nat.mul]. apply writes_bind; [now apply Hb | intros _; exact IH].
Qed.

End Stream.

#[export] Hint Resolve Stream.writes_set_prev_state Stream.writes_set_prev_temp
  Stream.writes_set_prev_total Stream.writes_set_prev_idle Stream.writes_set_fd : jstatus.
