(* ===== verification/Dzen.v ===== *)
(** * Dzen: the markup helpers ([print_icon], [print_dot])

    The status line is dzen2 markup: an icon is [^i(path)] followed by a
    space, and the separator between two fields is the [DOT] sequence
    between two spaces.  The icon paths are the [#define]s of the
    source. *)

From Stdlib Require Import ZArith Lia String Ascii List Bool.
From S2P Require Import Prelude CInt World Stream.
Import World.

Local Open Scope string_scope.

Module Dzen.

Definition DZEN_CMD : string := "dzen2 -x 1400 -y 1061".

Definition XBM_PATH : string := "/usr/home/jlaffaye/.dzen/".
Definition ICON_POWER_AC : string := XBM_PATH ++ "power-ac.xbm".
Definition ICON_POWER_BAT : string := XBM_PATH ++ "power-bat2.xbm".
Definition ICON_VOLUME_HIGH : string := XBM_PATH ++ "vol-hi.xbm".
Definition ICON_VOLUME_MUTE : string := XBM_PATH ++ "vol-mute.xbm".
Definition ICON_TEMP : string := XBM_PATH ++ "temp.xbm".
Definition ICON_LOAD : string := XBM_PATH ++ "load.xbm".
Definition DOT : string := "^p(5)^c(5)^p(5)".

(** The text [print_icon] writes: [fprintf(fp, "^i(%s) ", path)]. *)
Definition icon (path : string) : string := "^i(" ++ path ++ ") ".

(** The text [print_dot] writes: [fprintf(fp, " %s ", DOT)]. *)
Definition dot : string := " " ++ DOT ++ " ".

Definition print_icon (path : string) : M unit := fputs (icon path).

Definition print_dot : M unit := fputs dot.

(** ** Appending to the stream

    [appends t w w']: [w'] is [w] with [t] added to the stdio buffer and
    nothing else changed.  Both helpers, and every [fprintf] of the
    program, act on the state this way. *)

Definition appends (t : string) (w w' : World) : Prop :=
  w' = set_fp_buf (fp_buf w ++ t) w.

Lemma fputs_total (t : string) (P : World -> Prop) :
  total P (fputs t) (fun w _ w' => appends t w w').
Proof. apply total_modify. reflexivity. Qed.

Lemma print_icon_total (path : string) (P : World -> Prop) :
  total P (print_icon path) (fun w _ w' => appends (icon path) w w').
Proof. apply fputs_total. Qed.

Lemma print_dot_total (P : World -> Prop) :
  total P print_dot (fun w _ w' => appends dot w w').
Proof. apply fputs_total. Qed.

Lemma appends_fp_buf (t : string) (w w' : World) :
  appends t w w' -> fp_buf w' = fp_buf w ++ t.
Proof. now intros ->. Qed.

Lemma appends_trans (t u : string) (w1 w2 w3 : World) :
  appends t w1 w2 -> appends u w2 w3 -> appends (t ++ u) w1 w3.
Proof. intros -> ->. unfold appends. cbn. now rewrite append_assoc. Qed.

Lemma appends_nil (w : World) : appends "" w w.
Proof. unfold appends. rewrite append_nil_r. now destruct w. Qed.

(** The separator is the same 17 bytes between every two fields. *)
Lemma dot_text : dot = " ^p(5)^c(5)^p(5) ".
Proof. reflexivity. Qed.

Lemma icon_length (path : string) :
  String.length (icon path) = (String.length path + 5)%nat.
Proof. unfold icon. rewrite !length_append. simpl. lia. Qed.

(** ** The stream discipline

    The helpers write text without a newline. *)

#[global] Instance icon_nl_free (path : string) :
  Stream.NlFree path -> Stream.NlFree (icon path).
Proof. intros H. unfold icon. exact _. Qed.

#[global] Instance dot_nl_free : Stream.NlFree dot.
Proof. reflexivity. Qed.

#[global] Instance print_icon_writes (path : string) :
  Stream.NlFree path -> Stream.Writes 0 (print_icon path).
Proof. intros H. unfold print_icon. exact _. Qed.

#[global] Instance print_dot_writes : Stream.Writes 0 print_dot.
Proof. unfold print_dot. exact _. Qed.

End Dzen.
