(* ===== verification/Field.v ===== *)
(** * Field: what the alerting fields have in common

    [print_bat] and [print_temp] have one shape: read a value, raise
    alerts that depend on the value and on the one remembered in a
    function-local static, print a text, store the value in the static.
    [Static] states what it means for a projection and an update of the
    state to be such a static; [post] is the state a function of that
    shape leaves, and the lemmas of this file are proved once for every
    instance. *)

From Stdlib Require Import ZArith Lia String Ascii List Bool.
From Stdlib Require Import RelationClasses Morphisms.
From S2P Require Import Prelude CInt World Osd.
Import ListNotations.
Import World.

Local Open Scope string_scope.
Local Open Scope Z_scope.

Module Field.

(** A static [int] of one C function, as seen from the rest of the
    program: writing it changes it and nothing the stream or the notifier
    can see; neither the stream nor the notifier changes it. *)
Class Static (proj : World -> Z) (upd : Z -> World -> World) : Prop := {
  static_proj_upd : forall v w, proj (upd v w) = v;
  static_osd : forall v w, osd (upd v w) = osd w;
  static_osd_shown : forall v w, osd_shown (upd v w) = osd_shown w;
  static_fp_buf : forall v w, fp_buf (upd v w) = fp_buf w;
  static_proj_fp_buf : forall t w, proj (set_fp_buf t w) = proj w;
  static_proj_erase : forall w, proj (Osd.erase w) = proj w
}.

#[global] Instance prev_state_static : Static prev_state set_prev_state.
Proof. split; reflexivity. Qed.

#[global] Instance prev_temp_static : Static prev_temp set_prev_temp.
Proof. split; reflexivity. Qed.

Section Alerting.
Context {proj : World -> Z} {upd : Z -> World -> World} `{Static proj upd}.
Context (value : Env -> Z) (text : Env -> string) (alerts : Z -> Env -> list string).

(** The state left by one call: alerts, then text, then the static. *)
Definition post (e : Env) (w : World) : World :=
  let w1 := Osd.notify_all e (alerts (proj w) e) w in
  upd (value e) (set_fp_buf (fp_buf w1 ++ text e) w1).

(** The alerts of a run of calls, from the remembered value [prev]. *)
Fixpoint trace (prev : Z) (es : list Env) : list string :=
  match es with
  | [] => []
  | e :: es' => alerts prev e ++ trace (value e) es'
  end.

Definition loop_post (es : list Env) (w : World) : World :=
  fold_left (fun w e => post e w) es w.

Lemma post_proj (e : Env) (w : World) : proj (post e w) = value e.
Proof. unfold post. cbv zeta. apply static_proj_upd. Qed.

Lemma post_fp_buf (e : Env) (w : World) : fp_buf (post e w) = fp_buf w ++ text e.
Proof.
  unfold post. cbv zeta. rewrite static_fp_buf. cbn. f_equal. symmetry.
  apply (Osd.notifier_equiv_proj fp_buf); [reflexivity | apply Osd.notify_all_equiv].
Qed.

Lemma post_osd_shown (e : Env) (w : World) :
  Osd.ready e w ->
  osd_shown (post e w) = (osd_shown w ++ alerts (proj w) e)%list /\
  Osd.ready e (post e w).
Proof.
  intros Hr. unfold post. cbv zeta.
  destruct (Osd.notify_all_ready e (alerts (proj w) e) w Hr) as (Hs & [Hok Hav] & _).
  rewrite static_osd_shown. split; [exact Hs |].
  split.
  - intros h. rewrite static_osd. apply Hok.
  - unfold Osd.available in *. now rewrite static_osd.
Qed.

Lemma post_osd_ok (e : Env) (w : World) : Osd.osd_ok w -> Osd.osd_ok (post e w).
Proof.
  intros Hok h. unfold post. cbv zeta. rewrite static_osd. cbn.
  now apply Osd.notify_all_osd_ok.
Qed.

(** Over a run of calls with a display present, the messages displayed
    are the alerts of the successive calls, each computed from the value
    the call before stored. *)
Lemma loop_osd_shown (es : list Env) (w : World) :
  Osd.osd_ok w -> Forall (fun e => xosd_new e <> None) es ->
  osd_shown (loop_post es w) = (osd_shown w ++ trace (proj w) es)%list /\
  Osd.osd_ok (loop_post es w).
Proof.
  intros Hok Hes. revert w Hok.
  induction Hes as [|e es He _ IH]; intros w Hok.
  - cbn. now rewrite app_nil_r.
  - destruct (post_osd_shown e w) as (Hs & Hr & _);
      [split; [exact Hok | now right] |].
    destruct (IH (post e w) Hr) as (Hs' & Hok').
    unfold loop_post in *. cbn [fold_left trace].
    now rewrite Hs', Hs, post_proj, <- app_assoc.
Qed.

(** When each call raises [msg] exactly on an edge of [high], a run
    raises it once per edge. *)
Lemma count_trace (high : Z -> bool) (msg : string) (prev : Z) (es : list Env) :
  (forall p e, count_occ string_dec (alerts p e) msg =
               if edge high p (value e) then 1%nat else 0%nat) ->
  count_occ string_dec (trace prev es) msg = edges high prev (map value es).
Proof.
  intros Hc. revert prev. induction es as [|e es IH]; intros prev; [reflexivity |].
  cbn [trace map edges]. now rewrite count_occ_app, Hc, IH.
Qed.

End Alerting.

End Field.
