(* ===== verification/Battery.v ===== *)
(** * Battery: the battery field and its alerts ([print_bat])

    [print_bat] reads the ACPI battery state, reads the remaining life
    only while charging or discharging (it is 100 otherwise), raises
    "ON BATTERY" on the cycle the state becomes discharging and
    "PLUG AC!" on every cycle the life is below 10, prints an icon chosen
    by the state and the life as a percentage, and remembers the state
    for the next cycle in the static [prev_state].

    [print_bat_run] gives the state the function leaves in closed form:
    the alerts [bat_alerts], in order, then the text [bat_text], then the
    update of [prev_state].  The other theorems are read off it. *)

From Stdlib Require Import ZArith Lia String Ascii List Bool.
From Stdlib Require Import RelationClasses Morphisms.
From S2P Require Import Prelude CInt Printf World Osd Stream Dzen Field.
Import ListNotations.
Import World.

Local Open Scope string_scope.
Local Open Scope Z_scope.
Local Open Scope prog_scope.

Module Battery.

Definition SYSCTL_BAT_STATE : string := "hw.acpi.battery.state".
Definition SYSCTL_BAT_LIFE : string := "hw.acpi.battery.life".
Definition SYSCTL_BAT_TIME : string := "hw.acpi.battery.time".

Definition STATE_AC : Z := 0.
Definition STATE_CHARGING : Z := 6.
Definition STATE_DISCHARGING : Z := 1.

(** [sysctlbyname(SYSCTL_BAT_STATE, &state, ...)]. *)
Definition read_state (e : Env) : Z := sysctlbyname_int e SYSCTL_BAT_STATE "state".

(** The life is read only while charging or discharging. *)
Definition read_life (e : Env) : Z :=
  let state := read_state e in
  if (state =? STATE_DISCHARGING) || (state =? STATE_CHARGING)
  then sysctlbyname_int e SYSCTL_BAT_LIFE "life"
  else 100.

(** The condition of the first alert: discharging now, not before. *)
Definition on_battery_edge (prev state : Z) : bool :=
  (state =? STATE_DISCHARGING) && negb (prev =? STATE_DISCHARGING).

(** The icon, or the literal marker of an unknown state. *)
Definition print_power_icon (state : Z) : M unit :=
  if (state =? STATE_AC) || (state =? STATE_CHARGING)
  then Dzen.print_icon Dzen.ICON_POWER_AC
  else if state =? STATE_DISCHARGING
  then Dzen.print_icon Dzen.ICON_POWER_BAT
  else fputs "[?] ".

Definition print_bat (e : Env) : M unit :=
  let state := read_state e in
  let life := read_life e in
  w <- get ;;
  when (on_battery_edge (prev_state w) state)
    (let remaining := sysctlbyname_int e SYSCTL_BAT_TIME "remaining" in
     let hours := Z.quot remaining 60 in
     let minutes := Z.rem remaining 60 in
     Osd.show_message e "ON BATTERY") ;;
  when (life <? 10) (Osd.show_message e "PLUG AC!") ;;
  print_power_icon state ;;
  fputs (Printf.fmt_d life ++ "%") ;;
  modify (set_prev_state state).

(** ** Specification *)

Definition power_icon (state : Z) : string :=
  if (state =? STATE_AC) || (state =? STATE_CHARGING)
  then Dzen.icon Dzen.ICON_POWER_AC
  else if state =? STATE_DISCHARGING
  then Dzen.icon Dzen.ICON_POWER_BAT
  else "[?] ".

(** The text of the battery field. *)
Definition bat_text (e : Env) : string :=
  power_icon (read_state e) ++ Printf.fmt_d (read_life e) ++ "%".

(** The alerts of one cycle, in the order they are raised. *)
Definition bat_alerts (prev : Z) (e : Env) : list string :=
  (if on_battery_edge prev (read_state e) then ["ON BATTERY"] else []) ++
  (if read_life e <? 10 then ["PLUG AC!"] else []).

(** The state [print_bat] leaves: the alerts, the text, the static. *)
Definition bat_post : Env -> World -> World :=
  Field.post (proj := prev_state) (upd := set_prev_state) read_state bat_text bat_alerts.

(** ** The function in closed form *)

Lemma print_power_icon_run (state : Z) (w : World) :
  print_power_icon state w = Ok tt (set_fp_buf (fp_buf w ++ power_icon state) w).
Proof.
  unfold print_power_icon, power_icon.
  destruct (_ || _); [reflexivity |]. destruct (_ =? _); reflexivity.
Qed.

Lemma print_bat_run (e : Env) (w : World) : print_bat e w = Ok tt (bat_post e w).
Proof.
  unfold print_bat, bat_post, Field.post, bat_alerts, bat_text.
  cbv zeta. rewrite Osd.notify_all_app.
  unfold bind at 1. cbn [get].
  prog_step (Osd.when_show_message _ e _ w).
  prog_step (Osd.when_show_message _ e _ _).
  prog_step (print_power_icon_run _ _).
  unfold bind, fputs, modify. cbn. now rewrite append_assoc.
Qed.

(** ** What [print_bat] may change

    The notifier's share of the state, the stdio buffer and its own
    static. *)

Definition mask (w : World) : World :=
  set_prev_state 0 (set_fp_buf "" (Osd.erase w)).

Lemma bat_post_frame (e : Env) (w : World) : unchanged_by mask w (bat_post e w).
Proof.
  pose proof (Osd.notify_all_equiv e (bat_alerts (prev_state w) e) w) as H.
  apply (unchanged_weaken Osd.erase mask) in H; [exact H | reflexivity].
Qed.

Lemma bat_post_fp_buf (e : Env) (w : World) :
  fp_buf (bat_post e w) = fp_buf w ++ bat_text e.
Proof. apply Field.post_fp_buf. Qed.

Lemma bat_post_prev_state (e : Env) (w : World) :
  prev_state (bat_post e w) = read_state e.
Proof. reflexivity. Qed.

Lemma bat_post_osd_shown (e : Env) (w : World) :
  Osd.ready e w ->
  osd_shown (bat_post e w) = (osd_shown w ++ bat_alerts (prev_state w) e)%list /\
  Osd.ready e (bat_post e w).
Proof. apply Field.post_osd_shown. Qed.

(** ** The readings *)

Lemma read_state_in_int (e : Env) : CInt.in_int (read_state e).
Proof. apply sysctlbyname_int_in_int. Qed.

Lemma read_life_in_int (e : Env) : CInt.in_int (read_life e).
Proof.
  unfold read_life. cbv zeta. destruct (_ || _).
  - apply sysctlbyname_int_in_int.
  - cbv. split; discriminate.
Qed.

(** On AC power, and in any state that is neither charging nor
    discharging, the life is not read: it is 100. *)
Lemma read_life_full (e : Env) :
  read_state e <> STATE_DISCHARGING -> read_state e <> STATE_CHARGING ->
  read_life e = 100.
Proof.
  intros H1 H2. unfold read_life. cbv zeta.
  destruct (Z.eqb_spec (read_state e) STATE_DISCHARGING); [contradiction |].
  destruct (Z.eqb_spec (read_state e) STATE_CHARGING); [contradiction |].
  reflexivity.
Qed.

Lemma read_life_read (e : Env) :
  read_state e = STATE_DISCHARGING \/ read_state e = STATE_CHARGING ->
  read_life e = sysctlbyname_int e SYSCTL_BAT_LIFE "life".
Proof.
  intros H. unfold read_life. cbv zeta.
  destruct (Z.eqb_spec (read_state e) STATE_DISCHARGING),
    (Z.eqb_spec (read_state e) STATE_CHARGING); try reflexivity.
  destruct H; contradiction.
Qed.

(** ** The alerts *)

Lemma on_battery_edge_spec (prev state : Z) :
  on_battery_edge prev state = true <->
  state = STATE_DISCHARGING /\ prev <> STATE_DISCHARGING.
Proof. unfold on_battery_edge, STATE_DISCHARGING. lia. Qed.

Lemma in_bat_alerts_on_battery (prev : Z) (e : Env) :
  In "ON BATTERY" (bat_alerts prev e) <->
  read_state e = STATE_DISCHARGING /\ prev <> STATE_DISCHARGING.
Proof.
  rewrite <- on_battery_edge_spec. unfold bat_alerts.
  destruct (on_battery_edge prev (read_state e)), (read_life e <? 10); cbn;
    intuition (discriminate || auto).
Qed.

Lemma in_bat_alerts_plug_ac (prev : Z) (e : Env) :
  In "PLUG AC!" (bat_alerts prev e) <-> read_life e < 10.
Proof.
  rewrite <- Z.ltb_lt. unfold bat_alerts.
  destruct (on_battery_edge prev (read_state e)), (read_life e <? 10); cbn;
    intuition (discriminate || auto).
Qed.

(** ** The cycles of the battery state machine *)

(** The alerts of a run of cycles, from the state remembered before it. *)
Definition bat_trace : Z -> list Env -> list string := Field.trace read_state bat_alerts.

(** The number of cycles on which the state becomes discharging. *)
Definition discharging (state : Z) : bool := state =? STATE_DISCHARGING.

Definition rising (prev : Z) (states : list Z) : nat := edges discharging prev states.

Definition bat_loop_post : list Env -> World -> World :=
  Field.loop_post (proj := prev_state) (upd := set_prev_state) read_state bat_text bat_alerts.

Lemma bat_loop_run (es : list Env) (w : World) :
  for_each print_bat es w = Ok tt (bat_loop_post es w).
Proof. apply for_each_run, print_bat_run. Qed.

Lemma bat_loop_osd_shown (es : list Env) (w : World) :
  Osd.osd_ok w -> Forall (fun e => xosd_new e <> None) es ->
  osd_shown (bat_loop_post es w) = (osd_shown w ++ bat_trace (prev_state w) es)%list /\
  Osd.osd_ok (bat_loop_post es w).
Proof. apply Field.loop_osd_shown. Qed.

Lemma count_bat_alerts (prev : Z) (e : Env) :
  count_occ string_dec (bat_alerts prev e) "ON BATTERY" =
  if edge discharging prev (read_state e) then 1%nat else 0%nat.
Proof.
  change (edge discharging prev (read_state e))
    with (on_battery_edge prev (read_state e)).
  unfold bat_alerts.
  destruct (on_battery_edge prev (read_state e)), (read_life e <? 10); reflexivity.
Qed.

Lemma count_bat_trace (prev : Z) (es : list Env) :
  count_occ string_dec (bat_trace prev es) "ON BATTERY" =
  rising prev (map read_state es).
Proof. apply Field.count_trace, count_bat_alerts. Qed.

(** While the state stays discharging no further edge is seen. *)
Lemma rising_steady (states : list Z) :
  Forall (fun s => s = STATE_DISCHARGING) states -> rising STATE_DISCHARGING states = 0%nat.
Proof.
  intros H. apply edges_steady; [reflexivity |].
  eapply Forall_impl; [| exact H]. now intros s ->.
Qed.

(** The field is at most 56 characters long. *)
Lemma length_bat_text (e : Env) : (String.length (bat_text e) <= 56)%nat.
Proof.
  unfold bat_text, power_icon. rewrite !length_append.
  pose proof (Printf.length_fmt_d_int (read_life e) (read_life_in_int e)).
  destruct (_ || _); [| destruct (_ =? _)];
    try change (String.length (Dzen.icon Dzen.ICON_POWER_AC)) with 42%nat;
    try change (String.length (Dzen.icon Dzen.ICON_POWER_BAT)) with 44%nat;
    cbn [String.length]; lia.
Qed.

(** ** Theorems *)

(** C31: [print_bat] always returns.  It appends the battery field to the
    stream buffer, stores the state just read in [prev_state], and changes
    nothing else but the notifier's share of the state. *)
Theorem print_bat_total (e : Env) :
  total (fun _ => True) (print_bat e)
    (fun w _ w' => fp_buf w' = fp_buf w ++ bat_text e /\
                   prev_state w' = read_state e /\ unchanged_by mask w w').
Proof.
  intros w _. exists tt, (bat_post e w). split; [apply print_bat_run |].
  auto using bat_post_fp_buf, bat_post_prev_state, bat_post_frame.
Qed.

(** C6: with a working notifier, the messages [print_bat] displays in a
    cycle contain "ON BATTERY" exactly when the state read is discharging
    and the state remembered from the previous cycle is not (edge
    trigger), and "PLUG AC!" exactly when the life is below 10 (level
    trigger). *)
Theorem print_bat_alerts (e : Env) (w : World) :
  Osd.ready e w ->
  exists w' new,
    print_bat e w = Ok tt w' /\
    osd_shown w' = (osd_shown w ++ new)%list /\
    (In "ON BATTERY" new <->
       read_state e = STATE_DISCHARGING /\ prev_state w <> STATE_DISCHARGING) /\
    (In "PLUG AC!" new <-> read_life e < 10).
Proof.
  intros H. exists (bat_post e w), (bat_alerts (prev_state w) e).
  split; [apply print_bat_run |].
  split; [now apply bat_post_osd_shown |].
  split; [apply in_bat_alerts_on_battery | apply in_bat_alerts_plug_ac].
Qed.

Definition env_low_on_battery : Env :=
  with_display (with_sysctl SYSCTL_BAT_STATE 1 (with_sysctl SYSCTL_BAT_LIFE 5 null_env)).

Lemma ready_initial (e : Env) : xosd_new e <> None -> Osd.ready e initial.
Proof. intros H. split; [apply Osd.initial_osd_ok | now right]. Qed.

Lemma print_bat_alerts_witness :
  exists w' new,
    print_bat env_low_on_battery initial = Ok tt w' /\
    osd_shown w' = (osd_shown initial ++ new)%list /\
    (In "ON BATTERY" new <->
       read_state env_low_on_battery = STATE_DISCHARGING /\
       prev_state initial <> STATE_DISCHARGING) /\
    (In "PLUG AC!" new <-> read_life env_low_on_battery < 10).
Proof.
  apply (print_bat_alerts env_low_on_battery initial).
  apply ready_initial. discriminate.
Defined.

(** C7: over any run of cycles with a display present, the messages
    displayed are the alerts of the successive cycles, and "ON BATTERY"
    appears once per transition into the discharging state: never again
    while the state stays discharging. *)
Theorem print_bat_edges (es : list Env) (w : World) :
  Osd.osd_ok w -> Forall (fun e => xosd_new e <> None) es ->
  exists w',
    for_each print_bat es w = Ok tt w' /\
    osd_shown w' = (osd_shown w ++ bat_trace (prev_state w) es)%list /\
    count_occ string_dec (bat_trace (prev_state w) es) "ON BATTERY" =
      rising (prev_state w) (map read_state es).
Proof.
  intros Hok Hes. exists (bat_loop_post es w).
  split; [apply bat_loop_run |].
  split; [now apply bat_loop_osd_shown | apply count_bat_trace].
Qed.

(** The scenario of the specification: AC, AC, battery, battery, AC,
    battery. *)
Definition env_state (s : Z) : Env :=
  with_display (with_sysctl SYSCTL_BAT_STATE s (with_sysctl SYSCTL_BAT_LIFE 50 null_env)).

Definition scenario : list Env := map env_state [0; 0; 1; 1; 0; 1].

Lemma print_bat_edges_witness :
  exists w',
    for_each print_bat scenario initial = Ok tt w' /\
    osd_shown w' = (osd_shown initial ++ bat_trace (prev_state initial) scenario)%list /\
    count_occ string_dec (bat_trace (prev_state initial) scenario) "ON BATTERY" =
      rising (prev_state initial) (map read_state scenario).
Proof.
  apply (print_bat_edges scenario initial).
  - apply Osd.initial_osd_ok.
  - repeat constructor; discriminate.
Defined.

Example scenario_alerts :
  bat_trace 0 scenario = ["ON BATTERY"; "ON BATTERY"] /\
  map (fun p => bat_alerts (fst p) (env_state (snd p)))
      [(0, 0); (0, 0); (0, 1); (1, 1); (1, 0); (0, 1)] =
    [[]; []; ["ON BATTERY"]; []; []; ["ON BATTERY"]].
Proof. vm_compute. auto. Qed.

(** C32: when the machine goes on battery with less than 10 percent left,
    both messages are displayed in the same cycle, and the second
    replaces the first on the single line of the display: what stays on
    screen is "PLUG AC!". *)
Theorem print_bat_masks_on_battery (e : Env) (w : World) :
  Osd.ready e w ->
  read_state e = STATE_DISCHARGING -> prev_state w <> STATE_DISCHARGING ->
  read_life e < 10 ->
  exists w',
    print_bat e w = Ok tt w' /\
    osd_shown w' = (osd_shown w ++ ["ON BATTERY"; "PLUG AC!"])%list /\
    Osd.visible w' = Some "PLUG AC!".
Proof.
  intros H Hs Hp Hl. exists (bat_post e w). split; [apply print_bat_run |].
  assert (bat_alerts (prev_state w) e = ["ON BATTERY"; "PLUG AC!"]) as E.
  { unfold bat_alerts.
    rewrite (proj2 (on_battery_edge_spec _ _)) by auto.
    now rewrite (proj2 (Z.ltb_lt _ _)). }
  unfold bat_post, Field.post. cbv zeta. rewrite E.
  destruct (Osd.notify_all_ready e ["ON BATTERY"; "PLUG AC!"] w H) as (Hsh & _ & Hv).
  split; [exact Hsh | exact Hv].
Qed.

Lemma print_bat_masks_on_battery_witness :
  exists w',
    print_bat env_low_on_battery initial = Ok tt w' /\
    osd_shown w' = (osd_shown initial ++ ["ON BATTERY"; "PLUG AC!"])%list /\
    Osd.visible w' = Some "PLUG AC!".
Proof.
  apply (print_bat_masks_on_battery env_low_on_battery initial).
  - apply ready_initial. discriminate.
  - reflexivity.
  - discriminate.
  - reflexivity.
Defined.

(** C33: the result of [sysctlbyname] is not looked at.  When the read of
    the state fails, the function carries on with whatever the
    uninitialised variable [state] holds: that value picks the icon, is
    compared with the remembered state, and is stored in [prev_state]
    for the next cycle. *)
Theorem print_bat_failed_read (e : Env) (w : World) :
  sysctl_int e SYSCTL_BAT_STATE = None ->
  exists w',
    print_bat e w = Ok tt w' /\
    read_state e = CInt.wrap (stack_int e "state") /\
    prev_state w' = CInt.wrap (stack_int e "state") /\
    fp_buf w' = fp_buf w ++ power_icon (CInt.wrap (stack_int e "state")) ++
                Printf.fmt_d (read_life e) ++ "%".
Proof.
  intros H. exists (bat_post e w). split; [apply print_bat_run |].
  assert (E : read_state e = CInt.wrap (stack_int e "state"))
    by (unfold read_state, sysctlbyname_int; now rewrite H).
  rewrite bat_post_fp_buf, bat_post_prev_state. unfold bat_text. now rewrite E.
Qed.

(** No sysctl answers; the stack holds 1 where [state] lives. *)
Definition env_garbage : Env := with_stack "state" 1 null_env.

Lemma print_bat_failed_read_witness :
  exists w',
    print_bat env_garbage initial = Ok tt w' /\
    read_state env_garbage = CInt.wrap (stack_int env_garbage "state") /\
    prev_state w' = CInt.wrap (stack_int env_garbage "state") /\
    fp_buf w' = fp_buf initial ++ power_icon (CInt.wrap (stack_int env_garbage "state")) ++
                Printf.fmt_d (read_life env_garbage) ++ "%".
Proof. apply (print_bat_failed_read env_garbage initial). reflexivity. Defined.

(** C34: the life is printed as read.  While charging or discharging, any
    [int] the kernel reports is shown, above 100 and below 0 included;
    in every other state, unknown ones included, 100 is shown. *)
Theorem print_bat_life_unclamped (e : Env) (w : World) (v : Z) :
  sysctl_int e SYSCTL_BAT_LIFE = Some v -> CInt.in_int v ->
  exists w',
    print_bat e w = Ok tt w' /\
    fp_buf w' = fp_buf w ++ power_icon (read_state e) ++
                Printf.fmt_d (if (read_state e =? STATE_DISCHARGING) ||
                                 (read_state e =? STATE_CHARGING)
                              then v else 100) ++ "%".
Proof.
  intros H Hv. exists (bat_post e w). split; [apply print_bat_run |].
  rewrite bat_post_fp_buf. unfold bat_text, read_life. cbv zeta.
  now rewrite (sysctlbyname_int_ok e SYSCTL_BAT_LIFE "life" v H Hv).
Qed.

(** Discharging, with a life of 250 reported. *)
Definition env_overfull : Env :=
  with_sysctl SYSCTL_BAT_STATE 1 (with_sysctl SYSCTL_BAT_LIFE 250 null_env).

Lemma print_bat_life_unclamped_witness :
  exists w',
    print_bat env_overfull initial = Ok tt w' /\
    fp_buf w' = fp_buf initial ++ power_icon (read_state env_overfull) ++
                Printf.fmt_d (if (read_state env_overfull =? STATE_DISCHARGING) ||
                                 (read_state env_overfull =? STATE_CHARGING)
                              then 250 else 100) ++ "%".
Proof.
  apply (print_bat_life_unclamped env_overfull initial 250); [reflexivity |].
  unfold CInt.in_int, CInt.INT_MIN, CInt.INT_MAX. lia.
Defined.

Example overfull_text :
  fp_buf (final_state (print_bat env_overfull initial)) =
  "^i(/usr/home/jlaffaye/.dzen/power-bat2.xbm) 250%".
Proof. vm_compute. reflexivity. Qed.

(** ** The stream discipline *)

#[global] Instance print_power_icon_writes (state : Z) :
  Stream.Writes 0 (print_power_icon state).
Proof. unfold print_power_icon. exact _. Qed.

#[global] Instance print_bat_writes (e : Env) : Stream.Writes 0 (print_bat e).
Proof.
  unfold print_bat. cbv zeta. Stream.writes_steps.
  apply Stream.writes_set_prev_state, read_state_in_int.
Qed.

End Battery.

#[export] Hint Resolve Battery.read_state_in_int Battery.read_life_in_int : jstatus.
