(* ===== verification/Thermal.v ===== *)
(** * Thermal: the temperature field and its alert ([print_temp])

    [print_temp] reads the thermal zone in tenths of a kelvin, converts it
    with the macro [TZ_KELVTOC], raises "High temperature" on the cycle
    the result reaches 80 when the previous one was below, prints the
    icon and the value, and remembers the value in [prev_temp].

    [TZ_KELVTOC(x)] expands to two expressions separated by a comma, the
    degrees and the tenths.  In the statement [temp = TZ_KELVTOC(temp);]
    the assignment binds tighter than the comma: the degrees are stored,
    and the tenths are then computed from the value just stored and
    thrown away.  [celsius] and [tenths] are the two expressions;
    [print_temp] uses them as the statement does. *)

From Stdlib Require Import ZArith Lia String Ascii List Bool.
From Stdlib Require Import RelationClasses Morphisms.
From S2P Require Import Prelude CInt Printf World Osd Stream Dzen Field.
Import ListNotations.
Import World.

Local Open Scope string_scope.
Local Open Scope Z_scope.
Local Open Scope prog_scope.

Module Thermal.

Definition SYSCTL_TEMP : string := "hw.acpi.thermal.tz1.temperature".

Definition TZ_ZEROC : Z := 2732.

(** First expression of [TZ_KELVTOC]: [((x) - TZ_ZEROC) / 10]. *)
Definition celsius (x : Z) : Z := Z.quot (CInt.sub x TZ_ZEROC) 10.

(** Second expression of [TZ_KELVTOC]: [abs(((x) - TZ_ZEROC) % 10)]. *)
Definition tenths (x : Z) : Z := CInt.abs (Z.rem (CInt.sub x TZ_ZEROC) 10).

Definition TZ_KELVTOC (x : Z) : Z * Z := (celsius x, tenths x).

(** [sysctlbyname(SYSCTL_TEMP, &temp, ...)]. *)
Definition read_temp (e : Env) : Z := sysctlbyname_int e SYSCTL_TEMP "temp".

(** The condition of the alert: at 80 or above now, below 80 before. *)
Definition high_edge (prev temp : Z) : bool := (temp >=? 80) && (prev <? 80).

Definition print_temp (e : Env) : M unit :=
  let temp := read_temp e in
  let temp := fst (TZ_KELVTOC temp) in
  let discarded := snd (TZ_KELVTOC temp) in
  w <- get ;;
  when (high_edge (prev_temp w) temp) (Osd.show_message e "High temperature") ;;
  Dzen.print_icon Dzen.ICON_TEMP ;;
  fputs (Printf.fmt_d temp ++ " C") ;;
  modify (set_prev_temp temp).

(** ** Specification *)

(** The temperature displayed, in degrees. *)
Definition temp_of (e : Env) : Z := celsius (read_temp e).

Definition temp_text (e : Env) : string :=
  Dzen.icon Dzen.ICON_TEMP ++ Printf.fmt_d (temp_of e) ++ " C".

Definition temp_alerts (prev : Z) (e : Env) : list string :=
  if high_edge prev (temp_of e) then ["High temperature"] else [].

(** The state [print_temp] leaves: the alert, the text, the static. *)
Definition temp_post : Env -> World -> World :=
  Field.post (proj := prev_temp) (upd := set_prev_temp) temp_of temp_text temp_alerts.

Definition mask (w : World) : World :=
  set_prev_temp 0 (set_fp_buf "" (Osd.erase w)).

(** ** The function in closed form *)

Lemma print_temp_run (e : Env) (w : World) : print_temp e w = Ok tt (temp_post e w).
Proof.
  unfold print_temp, temp_post, Field.post, temp_alerts, temp_text, temp_of.
  cbv zeta. cbn [fst TZ_KELVTOC].
  unfold bind at 1. cbn [get].
  prog_step (Osd.when_show_message _ e _ w).
  unfold bind, Dzen.print_icon, fputs, modify. cbn. now rewrite append_assoc.
Qed.

Lemma temp_post_frame (e : Env) (w : World) : unchanged_by mask w (temp_post e w).
Proof.
  pose proof (Osd.notify_all_equiv e (temp_alerts (prev_temp w) e) w) as H.
  apply (unchanged_weaken Osd.erase mask) in H; [exact H | reflexivity].
Qed.

Lemma temp_post_fp_buf (e : Env) (w : World) :
  fp_buf (temp_post e w) = fp_buf w ++ temp_text e.
Proof. apply Field.post_fp_buf. Qed.

Lemma temp_post_osd_shown (e : Env) (w : World) :
  Osd.ready e w ->
  osd_shown (temp_post e w) = (osd_shown w ++ temp_alerts (prev_temp w) e)%list /\
  Osd.ready e (temp_post e w).
Proof. apply Field.post_osd_shown. Qed.

(** ** The conversion *)

Lemma celsius_in_int (x : Z) : CInt.in_int (celsius x).
Proof. unfold celsius. apply CInt.quot_in_int; [apply CInt.sub_in_int | lia]. Qed.

Lemma temp_of_in_int (e : Env) : CInt.in_int (temp_of e).
Proof. apply celsius_in_int. Qed.

(** Without overflow the conversion is the truncated tenth of the
    distance to the freezing point. *)
Lemma celsius_exact (x : Z) :
  CInt.in_int (x - TZ_ZEROC) -> celsius x = Z.quot (x - TZ_ZEROC) 10.
Proof. intros H. unfold celsius. now rewrite CInt.sub_exact. Qed.

(** The temperature of a cycle whose read succeeds. *)
Lemma temp_of_read (e : Env) (raw : Z) :
  sysctl_int e SYSCTL_TEMP = Some raw ->
  -2147480916 <= raw <= 2147483647 ->
  temp_of e = Z.quot (raw - 2732) 10.
Proof.
  intros Hr Hraw. unfold temp_of, read_temp.
  rewrite (sysctlbyname_int_ok e _ _ raw Hr)
    by (unfold CInt.in_int, CInt.INT_MIN, CInt.INT_MAX; lia).
  apply celsius_exact. unfold CInt.in_int, CInt.INT_MIN, CInt.INT_MAX, TZ_ZEROC. lia.
Qed.

Lemma high_edge_spec (prev temp : Z) :
  high_edge prev temp = true <-> temp >= 80 /\ prev < 80.
Proof. unfold high_edge. lia. Qed.

(** The alert is the edge trigger of the condition "at 80 or above". *)
Definition hot (temp : Z) : bool := temp >=? 80.

Lemma high_edge_edge (prev temp : Z) : high_edge prev temp = edge hot prev temp.
Proof. unfold high_edge, edge, hot. lia. Qed.

Lemma in_temp_alerts (prev : Z) (e : Env) :
  In "High temperature" (temp_alerts prev e) <-> temp_of e >= 80 /\ prev < 80.
Proof.
  rewrite <- high_edge_spec. unfold temp_alerts.
  destruct (high_edge prev (temp_of e)); cbn; intuition (discriminate || auto).
Qed.

(** For a reading at or above the freezing point the degrees are the
    whole degrees of the reading: the tenths are cut off. *)
Lemma celsius_above (x : Z) :
  TZ_ZEROC <= x <= CInt.INT_MAX ->
  10 * celsius x <= x - TZ_ZEROC < 10 * celsius x + 10.
Proof.
  unfold TZ_ZEROC, CInt.INT_MAX. intros H.
  rewrite celsius_exact by (unfold CInt.in_int, CInt.INT_MIN, CInt.INT_MAX, TZ_ZEROC; lia).
  unfold TZ_ZEROC. zdiv.
Qed.

(** C division truncates toward zero: every reading less than a degree
    away from the freezing point, on either side, is shown as 0. *)
Lemma celsius_floor (x : Z) :
  TZ_ZEROC <= x <= CInt.INT_MAX -> celsius x = (x - TZ_ZEROC) / 10.
Proof. intros H. pose proof (celsius_above x H). zdiv. Qed.

Lemma celsius_near_zero (x : Z) :
  TZ_ZEROC - 10 < x < TZ_ZEROC + 10 -> celsius x = 0.
Proof.
  unfold TZ_ZEROC. intros H.
  rewrite celsius_exact by (unfold CInt.in_int, CInt.INT_MIN, CInt.INT_MAX, TZ_ZEROC; lia).
  unfold TZ_ZEROC. zdiv.
Qed.

(** ** The cycles of the temperature alert *)

Definition temp_trace : Z -> list Env -> list string := Field.trace temp_of temp_alerts.

Definition temp_loop_post : list Env -> World -> World :=
  Field.loop_post (proj := prev_temp) (upd := set_prev_temp) temp_of temp_text temp_alerts.

Lemma temp_loop_run (es : list Env) (w : World) :
  for_each print_temp es w = Ok tt (temp_loop_post es w).
Proof. apply for_each_run, print_temp_run. Qed.

Lemma count_temp_alerts (prev : Z) (e : Env) :
  count_occ string_dec (temp_alerts prev e) "High temperature" =
  if edge hot prev (temp_of e) then 1%nat else 0%nat.
Proof.
  rewrite <- high_edge_edge. unfold temp_alerts.
  destruct (high_edge prev (temp_of e)); reflexivity.
Qed.

(** The field is at most 51 characters long. *)
Lemma length_temp_text (e : Env) : (String.length (temp_text e) <= 51)%nat.
Proof.
  unfold temp_text. rewrite !length_append.
  pose proof (Printf.length_fmt_d_int (temp_of e) (temp_of_in_int e)).
  change (String.length (Dzen.icon Dzen.ICON_TEMP)) with 38%nat.
  cbn [String.length]. lia.
Qed.

(** ** Theorems *)

(** C30: [print_temp] always returns.  It appends the temperature field to
    the stream buffer, stores the converted temperature in [prev_temp],
    and changes nothing else but the notifier's share of the state. *)
Theorem print_temp_total (e : Env) :
  total (fun _ => True) (print_temp e)
    (fun w _ w' => fp_buf w' = fp_buf w ++ temp_text e /\
                   prev_temp w' = temp_of e /\ unchanged_by mask w w').
Proof.
  intros w _. exists tt, (temp_post e w). split; [apply print_temp_run |].
  split; [apply temp_post_fp_buf |]. split; [reflexivity | apply temp_post_frame].
Qed.

(** C8: with a working notifier, [print_temp] displays "High temperature"
    exactly on the cycles where the converted temperature is at least 80
    and the one remembered from the previous cycle is below 80. *)
Theorem print_temp_alert (e : Env) (w : World) :
  Osd.ready e w ->
  exists w' new,
    print_temp e w = Ok tt w' /\
    osd_shown w' = (osd_shown w ++ new)%list /\
    (In "High temperature" new <-> temp_of e >= 80 /\ prev_temp w < 80).
Proof.
  intros H. exists (temp_post e w), (temp_alerts (prev_temp w) e).
  split; [apply print_temp_run |].
  split; [now apply temp_post_osd_shown | apply in_temp_alerts].
Qed.

Definition env_temp (raw : Z) : Env :=
  with_display (with_sysctl SYSCTL_TEMP raw null_env).

Lemma print_temp_alert_witness :
  exists w' new,
    print_temp (env_temp 3540) initial = Ok tt w' /\
    osd_shown w' = (osd_shown initial ++ new)%list /\
    (In "High temperature" new <->
       temp_of (env_temp 3540) >= 80 /\ prev_temp initial < 80).
Proof.
  apply (print_temp_alert (env_temp 3540) initial).
  split; [apply Osd.initial_osd_ok | right; discriminate].
Defined.

(** C9: over any run of cycles with a display present, "High temperature"
    is displayed once per upward crossing of 80 degrees, hence at most
    once every two cycles, however long the temperature stays high. *)
Theorem print_temp_crossings (es : list Env) (w : World) :
  Osd.osd_ok w -> Forall (fun e => xosd_new e <> None) es ->
  exists w',
    for_each print_temp es w = Ok tt w' /\
    osd_shown w' = (osd_shown w ++ temp_trace (prev_temp w) es)%list /\
    count_occ string_dec (temp_trace (prev_temp w) es) "High temperature" =
      edges hot (prev_temp w) (map temp_of es) /\
    (2 * edges hot (prev_temp w) (map temp_of es) <= length es + 1)%nat.
Proof.
  intros Hok Hes. exists (temp_loop_post es w).
  split; [apply temp_loop_run |].
  split; [now apply Field.loop_osd_shown |].
  split; [apply Field.count_trace, count_temp_alerts |].
  pose proof (edges_bound hot (prev_temp w) (map temp_of es)) as B.
  rewrite length_map in B. destruct (hot (prev_temp w)); lia.
Qed.

(** Three cycles: 70, 81.8 and 85 degrees. *)
Definition heating : list Env := map env_temp [3432; 3550; 3582].

Lemma print_temp_crossings_witness :
  exists w',
    for_each print_temp heating initial = Ok tt w' /\
    osd_shown w' = (osd_shown initial ++ temp_trace (prev_temp initial) heating)%list /\
    count_occ string_dec (temp_trace (prev_temp initial) heating) "High temperature" =
      edges hot (prev_temp initial) (map temp_of heating) /\
    (2 * edges hot (prev_temp initial) (map temp_of heating) <= length heating + 1)%nat.
Proof.
  apply (print_temp_crossings heating initial).
  - apply Osd.initial_osd_ok.
  - repeat constructor; discriminate.
Defined.

Example heating_alerts : temp_trace 0 heating = ["High temperature"].
Proof. vm_compute. reflexivity. Qed.

(** C28: what the temperature field shows.  When the sysctl read succeeds
    with [raw] tenths of a kelvin, an [int] from which 2732 can be
    subtracted without overflow, [print_temp] prints the temperature
    icon, [(raw - 2732) / 10] as C computes it, and [" C"], and remembers
    that number.  The division truncates toward zero: from 2732 up the
    number is the whole degrees of the reading, rounded down; every
    reading less than a degree away from 273.2 K, below as well as
    above, shows 0; further below the number is rounded up, so -0.9 C
    and -1.9 C show as 0 and -1. *)
Theorem print_temp_celsius (e : Env) (w : World) (raw : Z) :
  sysctl_int e SYSCTL_TEMP = Some raw ->
  -2147480916 <= raw <= 2147483647 ->
  exists w',
    print_temp e w = Ok tt w' /\
    fp_buf w' =
      fp_buf w ++ "^i(/usr/home/jlaffaye/.dzen/temp.xbm) " ++
      Printf.fmt_d (Z.quot (raw - 2732) 10) ++ " C" /\
    prev_temp w' = Z.quot (raw - 2732) 10 /\
    (2732 <= raw -> prev_temp w' = (raw - 2732) / 10) /\
    (2722 < raw < 2742 -> prev_temp w' = 0) /\
    (raw <= 2732 -> prev_temp w' = - ((2732 - raw) / 10)).
Proof.
  intros Hr Hraw. exists (temp_post e w). split; [apply print_temp_run |].
  rewrite temp_post_fp_buf. unfold temp_text.
  replace (prev_temp (temp_post e w)) with (temp_of e) by reflexivity.
  rewrite (temp_of_read e raw Hr Hraw).
  split; [reflexivity |]. split; [reflexivity |]. repeat split; intros H; zdiv.
Qed.

Lemma print_temp_celsius_witness :
  exists w',
    print_temp (env_temp 2725) initial = Ok tt w' /\
    fp_buf w' =
      fp_buf initial ++ "^i(/usr/home/jlaffaye/.dzen/temp.xbm) " ++
      Printf.fmt_d (Z.quot (2725 - 2732) 10) ++ " C" /\
    prev_temp w' = Z.quot (2725 - 2732) 10 /\
    (2732 <= 2725 -> prev_temp w' = (2725 - 2732) / 10) /\
    (2722 < 2725 < 2742 -> prev_temp w' = 0) /\
    (2725 <= 2732 -> prev_temp w' = - ((2732 - 2725) / 10)).
Proof.
  apply (print_temp_celsius (env_temp 2725) initial); [reflexivity | lia].
Defined.

Example celsius_3032 : celsius 3032 = 30.
Proof. reflexivity. Qed.

(** 272.5 K is -0.7 C: the field shows 0, not -1. *)
Example temp_text_below_zero :
  temp_text (env_temp 2725) = "^i(/usr/home/jlaffaye/.dzen/temp.xbm) 0 C".
Proof. vm_compute. reflexivity. Qed.

(** C29: the tenths of a degree never reach the output.  Two environments
    whose readings convert to the same number of degrees make
    [print_temp] behave identically, whatever the tenths: the second
    expression of [TZ_KELVTOC] is evaluated and discarded. *)
Theorem print_temp_drops_tenths (e e' : Env) (w : World) :
  celsius (read_temp e) = celsius (read_temp e') -> xosd_new e = xosd_new e' ->
  print_temp e w = print_temp e' w.
Proof.
  intros Hc Hx. rewrite !print_temp_run. f_equal.
  unfold temp_post, Field.post, temp_alerts, temp_text, temp_of.
  cbv zeta. rewrite Hc. now rewrite (Osd.notify_all_env e e' _ w Hx).
Qed.

Lemma print_temp_drops_tenths_witness :
  print_temp (env_temp 3032) initial = print_temp (env_temp 3039) initial.
Proof.
  apply (print_temp_drops_tenths (env_temp 3032) (env_temp 3039) initial);
    reflexivity.
Defined.

Example temp_text_30 :
  temp_text (env_temp 3039) = "^i(/usr/home/jlaffaye/.dzen/temp.xbm) 30 C".
Proof. vm_compute. reflexivity. Qed.

(** ** The stream discipline *)

#[global] Instance print_temp_writes (e : Env) : Stream.Writes 0 (print_temp e).
Proof.
  unfold print_temp. cbv zeta. Stream.writes_steps.
  apply Stream.writes_set_prev_temp, celsius_in_int.
Qed.

End Thermal.

#[export] Hint Resolve Thermal.celsius_in_int Thermal.temp_of_in_int : jstatus.
