(* ===== verification/Cpu.v ===== *)
(** * Cpu: the CPU usage field ([print_cpu_usage])

    [print_cpu_usage] reads the cumulative tick counters of kern.cp_time
    (five [long]s), narrows four of them to [int], and from the
    differences with the totals remembered in [prev_total] and
    [prev_idle] computes the share of non-idle ticks since the previous
    cycle, as a percentage rounded to the nearest integer:
    [(1000 * (diff_total - diff_idle) / diff_total + 5) / 10].

    The division has no guard.  When the total did not change between two
    cycles the processor traps on it: the model stops with [Fault] at that
    statement, before the statics are updated and before anything of the
    field is written.  The multiplication by 1000 is done in [int] and
    wraps once more than 2147483 busy ticks have passed, which the first
    cycle of a process started on a long-running machine sees. *)

From Stdlib Require Import ZArith Lia String Ascii List Bool.
From S2P Require Import Prelude CInt Printf World Osd Stream Dzen.
Import ListNotations.
Import World.

Local Open Scope string_scope.
Local Open Scope Z_scope.
Local Open Scope prog_scope.

Module Cpu.

Definition SYSCTL_CPU_TIME : string := "kern.cp_time".

(** [curr_user + curr_nice + curr_system + curr_idle], left to right. *)
Definition total_ticks (user nice system idle : Z) : Z :=
  CInt.add (CInt.add (CInt.add user nice) system) idle.

(** [(1000 * (diff_total - diff_idle) / diff_total + 5) / 10]; no value
    when the first division traps. *)
Definition usage (diff_total diff_idle : Z) : option Z :=
  match CInt.div (CInt.mul 1000 (CInt.sub diff_total diff_idle)) diff_total with
  | Some q => Some (Z.quot (CInt.add q 5) 10)
  | None => None
  end.

Definition print_cpu_usage (e : Env) : M unit :=
  let cp_time := sysctlbyname_cp_time e in
  let curr_user := CInt.of_long (CP_USER cp_time) in
  let curr_nice := CInt.of_long (CP_NICE cp_time) in
  let curr_system := CInt.of_long (CP_SYS cp_time) in
  let curr_idle := CInt.of_long (CP_IDLE cp_time) in
  let curr_total := total_ticks curr_user curr_nice curr_system curr_idle in
  w <- get ;;
  let diff_idle := CInt.sub curr_idle (prev_idle w) in
  let diff_total := CInt.sub curr_total (prev_total w) in
  match usage diff_total diff_idle with
  | None => trap
  | Some diff_usage =>
      modify (set_prev_total curr_total) ;;
      modify (set_prev_idle curr_idle) ;;
      Dzen.print_icon Dzen.ICON_LOAD ;;
      fputs (Printf.fmt_0d 2 diff_usage ++ "%")
  end.

(** ** Specification *)

(** The sample of a cycle: total and idle ticks, as [int]s. *)
Definition curr_idle (e : Env) : Z := CInt.of_long (CP_IDLE (sysctlbyname_cp_time e)).

Definition curr_total (e : Env) : Z :=
  let cp := sysctlbyname_cp_time e in
  total_ticks (CInt.of_long (CP_USER cp)) (CInt.of_long (CP_NICE cp))
    (CInt.of_long (CP_SYS cp)) (CInt.of_long (CP_IDLE cp)).

Definition diff_total (e : Env) (w : World) : Z := CInt.sub (curr_total e) (prev_total w).
Definition diff_idle (e : Env) (w : World) : Z := CInt.sub (curr_idle e) (prev_idle w).

(** The percentage of a cycle, if the division goes through. *)
Definition usage_of (e : Env) (w : World) : option Z :=
  usage (diff_total e w) (diff_idle e w).

Definition cpu_text (u : Z) : string :=
  Dzen.icon Dzen.ICON_LOAD ++ Printf.fmt_0d 2 u ++ "%".

(** The state a returning call leaves. *)
Definition cpu_post (e : Env) (u : Z) (w : World) : World :=
  let w1 := set_prev_idle (curr_idle e) (set_prev_total (curr_total e) w) in
  set_fp_buf (fp_buf w1 ++ cpu_text u) w1.

Definition mask (w : World) : World :=
  set_prev_idle 0 (set_prev_total 0 (set_fp_buf "" w)).

(** A cycle the function gets through: the total has moved. *)
Definition runs (e : Env) (w : World) : Prop := usage_of e w <> None.

(** ** The function in closed form *)

Lemma print_cpu_usage_run (e : Env) (w : World) :
  print_cpu_usage e w =
  match usage_of e w with
  | Some u => Ok tt (cpu_post e u w)
  | None => Fault w
  end.
Proof.
  unfold print_cpu_usage, usage_of, diff_total, diff_idle, curr_total, curr_idle.
  cbv zeta. unfold bind at 1. cbn [get].
  destruct (usage _ _) as [u|]; [| reflexivity].
  unfold cpu_post, cpu_text, bind, Dzen.print_icon, fputs, modify. cbn.
  now rewrite append_assoc.
Qed.

(** ** The arithmetic of the percentage *)

Section Usage.
Variables dt di : Z.
Hypothesis Hdt : 0 < dt.
Hypothesis Hdi : 0 <= di <= dt.
Hypothesis Hfit : 1000 * (dt - di) <= CInt.INT_MAX.

Lemma permille_range : 0 <= 1000 * (dt - di) / dt <= 1000.
Proof.
  split; [apply Z.div_pos; lia |]. apply Z.div_le_upper_bound; lia.
Qed.

(** Within the hypotheses no operation wraps and the divisions are the
    mathematical ones. *)
Lemma usage_exact : usage dt di = Some ((1000 * (dt - di) / dt + 5) / 10).
Proof.
  pose proof permille_range as Hq.
  unfold CInt.INT_MAX in Hfit. unfold usage.
  rewrite CInt.sub_exact, CInt.mul_exact
    by (unfold CInt.in_int, CInt.INT_MIN, CInt.INT_MAX; lia).
  rewrite CInt.div_pos, (Z.quot_div_nonneg (1000 * (dt - di)) dt) by lia.
  rewrite CInt.add_exact, Z.quot_div_nonneg
    by (unfold CInt.in_int, CInt.INT_MIN, CInt.INT_MAX; lia).
  reflexivity.
Qed.

Lemma usage_range : 0 <= (1000 * (dt - di) / dt + 5) / 10 <= 100.
Proof.
  pose proof permille_range. remember (1000 * (dt - di) / dt) as q eqn:Eq. clear Eq. zdiv.
Qed.

(** The two truncating divisions amount to rounding the exact percentage
    to the nearest integer, halves upward. *)
Lemma usage_round : (1000 * (dt - di) / dt + 5) / 10 = (200 * (dt - di) + dt) / (2 * dt).
Proof.
  pose proof permille_range.
  pose proof (Z.mul_div_le (1000 * (dt - di)) dt Hdt) as H1.
  pose proof (Z.mul_succ_div_gt (1000 * (dt - di)) dt Hdt) as H2.
  remember (1000 * (dt - di) / dt) as q eqn:Eq. clear Eq.
  apply Z.div_unique with (r := 200 * (dt - di) + dt - 2 * dt * ((q + 5) / 10)); [| ring].
  left.
  pose proof (Z.mul_div_le (q + 5) 10 ltac:(lia)) as H3.
  pose proof (Z.mul_succ_div_gt (q + 5) 10 ltac:(lia)) as H4.
  remember ((q + 5) / 10) as u eqn:Eu. clear Eu.
  nia.
Qed.

End Usage.

Lemma usage_zero_total (di : Z) : usage 0 di = None.
Proof. unfold usage. now rewrite CInt.div_zero. Qed.

(** The division has no value in two cases only: a total that did not
    move, and a total that went back by one tick while the product is the
    smallest [int]. *)
Lemma usage_none_inv (dt di : Z) :
  usage dt di = None ->
  dt = 0 \/ (dt = -1 /\ CInt.mul 1000 (CInt.sub dt di) = CInt.INT_MIN).
Proof.
  unfold usage.
  destruct (CInt.div _ dt) as [q|] eqn:E; [discriminate |]. intros _.
  apply CInt.div_none_inv in E. tauto.
Qed.

Lemma usage_none_iff (dt di : Z) : dt <> -1 -> usage dt di = None <-> dt = 0.
Proof.
  intros Hdt. split.
  - intros H. destruct (usage_none_inv dt di H) as [|[E _]]; [assumption | contradiction].
  - intros ->. apply usage_zero_total.
Qed.

(** ** The counters *)

(** Narrowing four counters and adding them in [int] is narrowing their
    sum. *)
Lemma total_ticks_of_long (u n s i : Z) :
  total_ticks (CInt.of_long u) (CInt.of_long n) (CInt.of_long s) (CInt.of_long i) =
  CInt.wrap (u + n + s + i).
Proof.
  unfold total_ticks. now rewrite !CInt.add_of_long.
Qed.

Lemma curr_total_in_int (e : Env) : CInt.in_int (curr_total e).
Proof. apply CInt.add_in_int. Qed.

Lemma curr_idle_in_int (e : Env) : CInt.in_int (curr_idle e).
Proof. apply CInt.of_long_in_int. Qed.

(** The true number of ticks of a sample, idle included, interrupts
    excluded. *)
Definition ticks (cp : cp_times) : Z := CP_USER cp + CP_NICE cp + CP_SYS cp + CP_IDLE cp.

Lemma curr_total_ticks (e : Env) : curr_total e = CInt.of_long (ticks (sysctlbyname_cp_time e)).
Proof. unfold curr_total. cbv zeta. apply total_ticks_of_long. Qed.

(** A percentage that was computed is an [int]; the field is at most 50
    characters long. *)
Lemma usage_in_int (dt di u : Z) : usage dt di = Some u -> CInt.in_int u.
Proof.
  unfold usage. destruct (CInt.div _ _) as [q|]; [| discriminate].
  intros [= <-]. apply CInt.quot_in_int; [apply CInt.add_in_int | lia].
Qed.

Lemma length_cpu_text (u : Z) :
  CInt.in_int u -> (String.length (cpu_text u) <= 50)%nat.
Proof.
  intros H. unfold cpu_text. rewrite !length_append.
  pose proof (Printf.length_fmt_0d_int 2 u ltac:(lia) H).
  change (String.length (Dzen.icon Dzen.ICON_LOAD)) with 38%nat.
  cbn [String.length]. lia.
Qed.

(** ** What a returning call leaves *)

Lemma cpu_post_frame (e : Env) (u : Z) (w : World) : unchanged_by mask w (cpu_post e u w).
Proof. reflexivity. Qed.

Lemma cpu_post_fp_buf (e : Env) (u : Z) (w : World) :
  fp_buf (cpu_post e u w) = fp_buf w ++ cpu_text u.
Proof. reflexivity. Qed.

Lemma print_cpu_usage_some (e : Env) (w : World) (u : Z) :
  usage_of e w = Some u -> print_cpu_usage e w = Ok tt (cpu_post e u w).
Proof. intros E. now rewrite print_cpu_usage_run, E. Qed.

Lemma print_cpu_usage_none (e : Env) (w : World) :
  usage_of e w = None -> print_cpu_usage e w = Fault w.
Proof. intros E. now rewrite print_cpu_usage_run, E. Qed.

Lemma print_cpu_usage_fault (e : Env) (w : World) :
  diff_total e w = 0 -> print_cpu_usage e w = Fault w.
Proof.
  intros H. apply print_cpu_usage_none. unfold usage_of. rewrite H.
  apply usage_zero_total.
Qed.

Lemma diff_total_same (e e' : Env) (u : Z) (w : World) :
  curr_total e' = curr_total e -> diff_total e' (cpu_post e u w) = 0.
Proof.
  intros E. unfold diff_total. cbn. rewrite E. unfold CInt.sub.
  now rewrite Z.sub_diag.
Qed.

(** ** Theorems *)

(** C4: on a cycle where the total has advanced, the idle ticks have
    advanced by no more than the total, and a thousand times the busy
    ticks fit an [int], [print_cpu_usage] returns and prints a
    percentage between 0 and 100: the share of busy ticks since the
    previous cycle, rounded to the nearest integer (halves upward). *)
Theorem print_cpu_usage_percent (e : Env) (w : World) :
  0 < diff_total e w ->
  0 <= diff_idle e w <= diff_total e w ->
  1000 * (diff_total e w - diff_idle e w) <= CInt.INT_MAX ->
  exists u w',
    print_cpu_usage e w = Ok tt w' /\
    fp_buf w' = fp_buf w ++ cpu_text u /\
    0 <= u <= 100 /\
    u = (200 * (diff_total e w - diff_idle e w) + diff_total e w) / (2 * diff_total e w).
Proof.
  intros Hdt Hdi Hfit.
  exists ((1000 * (diff_total e w - diff_idle e w) / diff_total e w + 5) / 10).
  eexists. split.
  - apply print_cpu_usage_some. now apply usage_exact.
  - split; [reflexivity |].
    split; [now apply usage_range | now apply usage_round].
Qed.

(** The samples of the specification's scenario: user 100, nice 0,
    system 50, idle 850 before; user 120, nice 0, system 60, idle 870
    now.  The total has advanced by 50 ticks, 20 of them idle. *)
Definition sample_prev : World := set_prev_idle 850 (set_prev_total 1000 initial).
Definition sample_env : Env := with_cp_time (mk_cp_times 120 0 60 7 870) null_env.

Lemma print_cpu_usage_percent_witness :
  exists u w',
    print_cpu_usage sample_env sample_prev = Ok tt w' /\
    fp_buf w' = fp_buf sample_prev ++ cpu_text u /\
    0 <= u <= 100 /\
    u = (200 * (diff_total sample_env sample_prev - diff_idle sample_env sample_prev)
         + diff_total sample_env sample_prev) / (2 * diff_total sample_env sample_prev).
Proof.
  apply (print_cpu_usage_percent sample_env sample_prev).
  - reflexivity.
  - split; discriminate.
  - discriminate.
Defined.

(** The samples of the specification's scenario: the total advances by
    50 ticks, not by the 100 the scenario states, 30 of them are busy and
    the function prints 60%.  A single digit is padded with a zero. *)
Example print_cpu_usage_scenario :
  diff_total sample_env sample_prev = 50 /\
  diff_idle sample_env sample_prev = 20 /\
  usage_of sample_env sample_prev = Some 60 /\
  fp_buf (final_state (print_cpu_usage sample_env sample_prev)) =
    "^i(/usr/home/jlaffaye/.dzen/load.xbm) 60%" /\
  usage 100 20 = Some 80 /\
  cpu_text 7 = "^i(/usr/home/jlaffaye/.dzen/load.xbm) 07%".
Proof. vm_compute. repeat split. Qed.

(** C27: what a call that returns has done.  The division went through;
    the field is the load icon and that percentage on at least two
    digits; [prev_total] holds the sum of the user, nice, system and idle
    counters narrowed to [int] (the interrupt counter is not part of it)
    and [prev_idle] the narrowed idle counter, so the next call measures
    from this sample; nothing else changes. *)
Theorem print_cpu_usage_statics (e : Env) (w w' : World) :
  print_cpu_usage e w = Ok tt w' ->
  exists u,
    usage (diff_total e w) (diff_idle e w) = Some u /\
    fp_buf w' =
      fp_buf w ++ "^i(/usr/home/jlaffaye/.dzen/load.xbm) " ++ Printf.fmt_0d 2 u ++ "%" /\
    prev_total w' = CInt.of_long (ticks (sysctlbyname_cp_time e)) /\
    prev_idle w' = CInt.of_long (CP_IDLE (sysctlbyname_cp_time e)) /\
    unchanged_by mask w w'.
Proof.
  rewrite print_cpu_usage_run. unfold usage_of.
  destruct (usage _ _) as [u|]; [| discriminate]. intros [= <-]. exists u.
  split; [reflexivity |]. split; [reflexivity |].
  split; [apply curr_total_ticks |]. now split.
Qed.

Lemma print_cpu_usage_statics_witness :
  exists u,
    usage (diff_total sample_env sample_prev) (diff_idle sample_env sample_prev) = Some u /\
    fp_buf (cpu_post sample_env 60 sample_prev) =
      fp_buf sample_prev ++ "^i(/usr/home/jlaffaye/.dzen/load.xbm) " ++
      Printf.fmt_0d 2 u ++ "%" /\
    prev_total (cpu_post sample_env 60 sample_prev) =
      CInt.of_long (ticks (sysctlbyname_cp_time sample_env)) /\
    prev_idle (cpu_post sample_env 60 sample_prev) =
      CInt.of_long (CP_IDLE (sysctlbyname_cp_time sample_env)) /\
    unchanged_by mask sample_prev (cpu_post sample_env 60 sample_prev).
Proof.
  apply (print_cpu_usage_statics sample_env sample_prev). reflexivity.
Defined.

(** C5: when the total has not moved since the previous cycle the
    division by [diff_total] traps: the function stops there, with the
    statics and the stream as they were.  Nothing guards the division. *)
Theorem print_cpu_usage_zero_total (e : Env) (w : World) :
  diff_total e w = 0 -> print_cpu_usage e w = Fault w.
Proof. exact (print_cpu_usage_fault e w). Qed.

Lemma print_cpu_usage_zero_total_witness : print_cpu_usage null_env initial = Fault initial.
Proof. apply (print_cpu_usage_zero_total null_env initial). reflexivity. Defined.

(** Two calls that see the same total, as two cycles within one
    clock tick do, or two cycles in which the sysctl fails and the
    uninitialised array holds the same bytes: the second call traps. *)
Theorem print_cpu_usage_same_sample (e e' : Env) (w w' : World) :
  curr_total e' = curr_total e ->
  print_cpu_usage e w = Ok tt w' -> print_cpu_usage e' w' = Fault w'.
Proof.
  intros E. rewrite print_cpu_usage_run.
  destruct (usage_of e w) as [u|]; [| discriminate]. intros [= <-].
  apply print_cpu_usage_fault. now apply diff_total_same.
Qed.

Lemma print_cpu_usage_same_sample_witness :
  print_cpu_usage sample_env (cpu_post sample_env 60 sample_prev) =
  Fault (cpu_post sample_env 60 sample_prev).
Proof.
  apply (print_cpu_usage_same_sample sample_env sample_env sample_prev);
    reflexivity.
Defined.

(** C25: the product [1000 * busy] is computed in [int].  From 2147484
    busy ticks between two samples it no longer fits; up to 4294967 busy
    ticks (a product below 2^32, which wraps once and comes out negative)
    the percentage printed is zero or negative whatever the real load.
    Beyond that the product wraps further and the value printed is some
    other wrong number ([usage_wraps_twice]). *)
Theorem usage_wraps (dt di : Z) :
  0 < dt -> CInt.in_int dt -> 0 <= di <= dt ->
  CInt.INT_MAX < 1000 * (dt - di) <= 4294967295 ->
  exists u, usage dt di = Some u /\ u <= 0.
Proof.
  unfold CInt.in_int, CInt.INT_MIN, CInt.INT_MAX. intros Hdt Hint Hdi Hb.
  unfold usage.
  rewrite CInt.sub_exact by (unfold CInt.in_int, CInt.INT_MIN, CInt.INT_MAX; lia).
  assert (CInt.mul 1000 (dt - di) = 1000 * (dt - di) - 4294967296) as ->.
  { unfold CInt.mul, CInt.wrap. zdiv. }
  rewrite CInt.div_pos by lia. eexists. split; [reflexivity |].
  set (q := Z.quot (1000 * (dt - di) - 4294967296) dt).
  assert (-2147483648 <= q <= 0) as Hq by (subst q; zdiv).
  rewrite CInt.add_exact by (unfold CInt.in_int, CInt.INT_MIN, CInt.INT_MAX; lia).
  zdiv.
Qed.

Lemma usage_wraps_witness : exists u, usage 4000000 1000000 = Some u /\ u <= 0.
Proof.
  apply (usage_wraps 4000000 1000000);
    unfold CInt.in_int, CInt.INT_MIN, CInt.INT_MAX; lia.
Defined.

Example usage_after_hours : usage 4000000 1000000 = Some (-31).
Proof. vm_compute. reflexivity. Qed.

(** Past 4294967 busy ticks the wrapped product is positive again: a
    fully busy machine is shown at 14%. *)
Example usage_wraps_twice : usage 5000000 0 = Some 14 /\ usage 6000000 1000000 = Some 12.
Proof. vm_compute. split; reflexivity. Qed.

(** C26: the counters are [long]s narrowed to [int].  As long as the true
    advance of the total between two samples fits an [int], the
    difference computed from the narrowed values is the true advance,
    even across a wrap of the narrowed counter. *)
Theorem diff_total_exact (e0 e : Env) (w : World) :
  prev_total w = curr_total e0 ->
  CInt.in_int (ticks (sysctlbyname_cp_time e) - ticks (sysctlbyname_cp_time e0)) ->
  diff_total e w = ticks (sysctlbyname_cp_time e) - ticks (sysctlbyname_cp_time e0).
Proof.
  intros Hp Hfit. unfold diff_total. rewrite Hp, !curr_total_ticks.
  now apply CInt.sub_of_long.
Qed.

(** A counter that has passed 2^31: the narrowed values are negative and
    positive, the difference is still 100. *)
Definition wrapped_before : Env := with_cp_time (mk_cp_times 2147483600 0 0 0 0) null_env.
Definition wrapped_after : Env := with_cp_time (mk_cp_times 2147483700 0 0 0 0) null_env.

Lemma diff_total_exact_witness :
  diff_total wrapped_after (set_prev_total (curr_total wrapped_before) initial) =
  ticks (sysctlbyname_cp_time wrapped_after) - ticks (sysctlbyname_cp_time wrapped_before).
Proof.
  apply (diff_total_exact wrapped_before wrapped_after).
  - reflexivity.
  - cbv. split; discriminate.
Defined.

(** The interrupt counter [cp_time[CP_INTR]] is read and never used:
    two environments whose samples differ only there make the function
    behave identically. *)
Theorem print_cpu_usage_ignores_intr (e e' : Env) (w : World) :
  CP_USER (sysctlbyname_cp_time e) = CP_USER (sysctlbyname_cp_time e') ->
  CP_NICE (sysctlbyname_cp_time e) = CP_NICE (sysctlbyname_cp_time e') ->
  CP_SYS (sysctlbyname_cp_time e) = CP_SYS (sysctlbyname_cp_time e') ->
  CP_IDLE (sysctlbyname_cp_time e) = CP_IDLE (sysctlbyname_cp_time e') ->
  print_cpu_usage e w = print_cpu_usage e' w.
Proof.
  intros Hu Hn Hs Hi. unfold print_cpu_usage. cbv zeta.
  now rewrite Hu, Hn, Hs, Hi.
Qed.

Lemma print_cpu_usage_ignores_intr_witness :
  print_cpu_usage sample_env sample_prev =
  print_cpu_usage (with_cp_time (mk_cp_times 120 0 60 99 870) null_env) sample_prev.
Proof.
  apply (print_cpu_usage_ignores_intr sample_env
           (with_cp_time (mk_cp_times 120 0 60 99 870) null_env) sample_prev);
    reflexivity.
Defined.

(** ** The stream discipline *)

#[global] Instance print_cpu_usage_writes (e : Env) : Stream.Writes 0 (print_cpu_usage e).
Proof.
  unfold print_cpu_usage. cbv zeta. apply Stream.writes_seq; [exact _ | intros w].
  destruct (usage _ _); [| exact _]. Stream.writes_steps.
  - apply Stream.writes_set_prev_total, CInt.add_in_int.
  - apply Stream.writes_set_prev_idle, CInt.of_long_in_int.
Qed.

End Cpu.

#[export] Hint Resolve Cpu.curr_total_in_int Cpu.curr_idle_in_int : jstatus.
