(* ===== verification/Volume.v ===== *)
(** * Volume: the mixer field ([print_volume])

    [print_volume] opens /dev/mixer on its first call and keeps the
    descriptor in the static [fd], whose zero value means "not opened
    yet".  Each call reads the master volume with an ioctl, keeps the low
    seven bits (the left channel), and prints an icon (muted at zero) and
    the level.  Both system calls are checked: a failure ends the process
    through [err(1, ...)].

    The sentinel is also a valid descriptor.  When [open] returns 0, which
    it does once standard input is closed, the next call finds [fd == 0]
    again and opens the device anew: [print_volume_reopens]. *)

From Stdlib Require Import ZArith Lia String Ascii List Bool.
From S2P Require Import Prelude CInt Printf World Osd Stream Dzen.
Import ListNotations.
Import World.

Local Open Scope string_scope.
Local Open Scope Z_scope.
Local Open Scope prog_scope.

Module Volume.

(** The [if (fd == 0)] block: [fd = open("/dev/mixer", O_RDWR)], checked. *)
Definition open_mixer_once (e : Env) : M unit :=
  w <- get ;;
  when (fd w =? 0)
    (let r := CInt.wrap (open_mixer e) in
     modify (set_fd r) ;;
     if r <? 0 then die "open(/dev/mixer)"
     else modify (fun w => set_mixer_opens (S (mixer_opens w)) w)).

(** [vol &= 0x7f]. *)
Definition level (v : Z) : Z := Z.land (CInt.wrap v) 127.

Definition print_level (vol : Z) : M unit :=
  (if vol >? 0 then Dzen.print_icon Dzen.ICON_VOLUME_HIGH
   else Dzen.print_icon Dzen.ICON_VOLUME_MUTE) ;;
  fputs (Printf.fmt_d vol ++ "%").

Definition print_volume (e : Env) : M unit :=
  open_mixer_once e ;;
  w <- get ;;
  match ioctl_mixer e (fd w) with
  | None => die "ioctl(mixer)"
  | Some v => print_level (level v)
  end.

(** ** Specification *)

Definition vol_text (vol : Z) : string :=
  (if vol >? 0 then Dzen.icon Dzen.ICON_VOLUME_HIGH
   else Dzen.icon Dzen.ICON_VOLUME_MUTE) ++ Printf.fmt_d vol ++ "%".

(** The descriptor in use after the first block, when it does not exit. *)
Definition fd_of (e : Env) (w : World) : Z :=
  if fd w =? 0 then CInt.wrap (open_mixer e) else fd w.

(** The state after the first block. *)
Definition opened (e : Env) (w : World) : World :=
  if fd w =? 0
  then set_mixer_opens (S (mixer_opens w)) (set_fd (CInt.wrap (open_mixer e)) w)
  else w.

(** The state the process exits in: the descriptor stored, the stream
    flushed. *)
Definition exited (w : World) : World :=
  set_fp_buf "" (set_dzen_in (dzen_in w ++ fp_buf w) w).

Definition mask (w : World) : World :=
  set_mixer_opens 0 (set_fd 0 (set_fp_buf "" w)).

(** ** The function in closed form *)

Lemma open_mixer_once_run (e : Env) (w : World) :
  open_mixer_once e w =
  if (fd w =? 0) && (CInt.wrap (open_mixer e) <? 0)
  then Exit 1 "open(/dev/mixer)" (exited (set_fd (CInt.wrap (open_mixer e)) w))
  else Ok tt (opened e w).
Proof.
  unfold open_mixer_once, opened. unfold bind at 1. cbn [get].
  destruct (fd w =? 0); [| reflexivity]. cbn [when andb]. cbv zeta.
  unfold bind, modify. destruct (_ <? 0); reflexivity.
Qed.

Lemma print_level_run (vol : Z) (w : World) :
  print_level vol w = Ok tt (set_fp_buf (fp_buf w ++ vol_text vol) w).
Proof.
  unfold print_level, vol_text, bind, Dzen.print_icon, fputs, modify.
  destruct (vol >? 0); cbn; now rewrite append_assoc.
Qed.

Lemma fd_opened (e : Env) (w : World) : fd (opened e w) = fd_of e w.
Proof. unfold opened, fd_of. now destruct (fd w =? 0). Qed.

Lemma fp_buf_opened (e : Env) (w : World) : fp_buf (opened e w) = fp_buf w.
Proof. unfold opened. now destruct (fd w =? 0). Qed.

Lemma print_volume_run (e : Env) (w : World) :
  print_volume e w =
  if (fd w =? 0) && (CInt.wrap (open_mixer e) <? 0)
  then Exit 1 "open(/dev/mixer)" (exited (set_fd (CInt.wrap (open_mixer e)) w))
  else match ioctl_mixer e (fd_of e w) with
       | None => Exit 1 "ioctl(mixer)" (exited (opened e w))
       | Some v => Ok tt (set_fp_buf (fp_buf w ++ vol_text (level v)) (opened e w))
       end.
Proof.
  unfold print_volume. unfold bind at 1. rewrite open_mixer_once_run.
  destruct (_ && _); [reflexivity |].
  unfold bind. cbn [get]. rewrite fd_opened.
  destruct (ioctl_mixer e (fd_of e w)) as [v|]; [| reflexivity].
  now rewrite print_level_run, fp_buf_opened.
Qed.

(** ** The level *)

Lemma level_mod (v : Z) : level v = v mod 128.
Proof.
  unfold level. change 127 with (Z.ones 7).
  rewrite Z.land_ones by lia. change (2 ^ 7) with 128.
  destruct (CInt.wrap_cong v) as [k ->].
  replace (k * 4294967296) with (k * 33554432 * 128) by lia.
  apply Z.mod_add. lia.
Qed.

Lemma level_range (v : Z) : 0 <= level v <= 127.
Proof. rewrite level_mod. zdiv. Qed.

(** The high bits of the word the mixer returns, the right channel among
    them, do not reach the output. *)
Lemma level_high_bits (v k : Z) : level (v + 128 * k) = level v.
Proof.
  rewrite !level_mod. rewrite (Z.mul_comm 128 k). apply Z.mod_add. lia.
Qed.

(** The field is at most 46 characters long. *)
Lemma length_vol_text (v : Z) : (String.length (vol_text (level v)) <= 46)%nat.
Proof.
  pose proof (level_range v) as R. unfold vol_text. rewrite !length_append.
  pose proof (Printf.length_fmt_u_int (level v) ltac:(lia)).
  assert (String.length (Printf.fmt_d (level v)) <= 3)%nat.
  { rewrite Printf.fmt_d_nonneg by lia.
    destruct (Z.lt_ge_cases (level v) 100) as [L | L];
      [destruct (Z.lt_ge_cases (level v) 10) |].
    - rewrite Printf.length_fmt_u_1 by lia. lia.
    - rewrite Printf.length_fmt_u_2 by lia. lia.
    - replace (level v) with (100 * (level v / 100) + level v mod 100) by zdiv.
      rewrite Printf.fmt_u_hundreds, length_append by zdiv.
      rewrite Printf.length_fmt_u_1, Printf.length_fmt_02d by zdiv. lia. }
  destruct (_ >? _);
    try change (String.length (Dzen.icon Dzen.ICON_VOLUME_HIGH)) with 40%nat;
    try change (String.length (Dzen.icon Dzen.ICON_VOLUME_MUTE)) with 42%nat;
    cbn [String.length]; lia.
Qed.

(** ** Returning calls *)

Lemma print_volume_ok_inv (e : Env) (w w' : World) :
  print_volume e w = Ok tt w' ->
  exists v, ioctl_mixer e (fd_of e w) = Some v /\
            w' = set_fp_buf (fp_buf w ++ vol_text (level v)) (opened e w).
Proof.
  rewrite print_volume_run. destruct (_ && _); [discriminate |].
  destruct (ioctl_mixer e (fd_of e w)) as [v|]; [| discriminate].
  intros [= <-]. now exists v.
Qed.

Lemma opened_frame (e : Env) (w : World) : unchanged_by mask w (opened e w).
Proof. unfold opened. destruct (fd w =? 0); reflexivity. Qed.

(** The descriptor and the count of opens go together: none yet, or one
    descriptor obtained by one open. *)
Definition opened_once (w : World) : Prop :=
  (fd w = 0 /\ mixer_opens w = 0%nat) \/ (fd w <> 0 /\ mixer_opens w = 1%nat).

(** [open] hands out a descriptor other than 0, or fails. *)
Definition nonzero_open (e : Env) : Prop := CInt.wrap (open_mixer e) <> 0.

Lemma print_volume_opened_once (e : Env) (w w' : World) :
  nonzero_open e -> opened_once w ->
  print_volume e w = Ok tt w' -> opened_once w' /\ fd w' <> 0.
Proof.
  intros Ho Hw H. apply print_volume_ok_inv in H as (v & _ & ->).
  unfold opened_once, opened in *. cbn.
  destruct (Z.eqb_spec (fd w) 0) as [E|E]; cbn.
  - destruct Hw as [[_ ->]|[Hw _]]; [auto | contradiction].
  - destruct Hw as [[Hw _]|[_ ->]]; [contradiction | auto].
Qed.

(** ** Theorems *)

(** C10: when the device is open, or can be opened, and the ioctl
    succeeds, [print_volume] returns and prints the low seven bits of the
    word read: a level between 0 and 127, after the muted icon when it is
    zero and the high-volume icon otherwise.  It changes nothing but the
    stream buffer and its descriptor. *)
Theorem print_volume_total (e : Env) (w : World) (v : Z) :
  fd w <> 0 \/ 0 <= CInt.wrap (open_mixer e) ->
  ioctl_mixer e (fd_of e w) = Some v ->
  exists w',
    print_volume e w = Ok tt w' /\
    fp_buf w' = fp_buf w ++ vol_text (level v) /\
    0 <= level v <= 127 /\ level v = v mod 128 /\
    fd w' = fd_of e w /\ unchanged_by mask w w'.
Proof.
  intros Ho Hi. rewrite print_volume_run, Hi.
  assert ((fd w =? 0) && (CInt.wrap (open_mixer e) <? 0) = false) as -> by lia.
  eexists. split; [reflexivity |].
  split; [reflexivity |]. split; [apply level_range |].
  split; [apply level_mod |]. split; [apply fd_opened | apply opened_frame].
Qed.

Definition env_mixer (level : option Z) : Env := with_mixer 3 level null_env.

Lemma print_volume_total_witness :
  exists w',
    print_volume (env_mixer (Some 19275)) initial = Ok tt w' /\
    fp_buf w' = fp_buf initial ++ vol_text (level 19275) /\
    0 <= level 19275 <= 127 /\ level 19275 = 19275 mod 128 /\
    fd w' = fd_of (env_mixer (Some 19275)) initial /\ unchanged_by mask initial w'.
Proof.
  apply (print_volume_total (env_mixer (Some 19275)) initial 19275).
  - right. discriminate.
  - reflexivity.
Defined.

Example vol_text_75 :
  vol_text (level 19275) = "^i(/usr/home/jlaffaye/.dzen/vol-hi.xbm) 75%" /\
  vol_text (level 0) = "^i(/usr/home/jlaffaye/.dzen/vol-mute.xbm) 0%".
Proof. vm_compute. auto. Qed.

(** C22: when the device is not open yet and [open] fails, the process
    exits with status 1 and the message "open(/dev/mixer)"; what the
    cycle had written so far reaches dzen2 as an unterminated line,
    flushed by [exit]. *)
Theorem print_volume_open_fails (e : Env) (w : World) :
  fd w = 0 -> CInt.wrap (open_mixer e) < 0 ->
  exists w',
    print_volume e w = Exit 1 "open(/dev/mixer)" w' /\
    dzen_in w' = dzen_in w ++ fp_buf w /\ fp_buf w' = "".
Proof.
  intros Hf Ho. rewrite print_volume_run.
  assert ((fd w =? 0) && (CInt.wrap (open_mixer e) <? 0) = true) as -> by lia.
  eexists. split; [reflexivity |]. split; reflexivity.
Qed.

Lemma print_volume_open_fails_witness :
  exists w',
    print_volume null_env initial = Exit 1 "open(/dev/mixer)" w' /\
    dzen_in w' = dzen_in initial ++ fp_buf initial /\ fp_buf w' = "".
Proof.
  apply (print_volume_open_fails null_env initial); reflexivity.
Defined.

(** When the ioctl fails on the descriptor in use, the process exits
    with status 1 and the message "ioctl(mixer)". *)
Theorem print_volume_ioctl_fails (e : Env) (w : World) :
  fd w <> 0 \/ 0 <= CInt.wrap (open_mixer e) ->
  ioctl_mixer e (fd_of e w) = None ->
  exists w',
    print_volume e w = Exit 1 "ioctl(mixer)" w' /\
    dzen_in w' = dzen_in w ++ fp_buf w /\ fp_buf w' = "".
Proof.
  intros Ho Hi. rewrite print_volume_run, Hi.
  assert ((fd w =? 0) && (CInt.wrap (open_mixer e) <? 0) = false) as -> by lia.
  eexists. split; [reflexivity |].
  unfold exited. cbn. now rewrite fp_buf_opened, (unchanged_proj dzen_in mask _ _ (fun _ => eq_refl) (opened_frame e w)).
Qed.

Lemma print_volume_ioctl_fails_witness :
  exists w',
    print_volume (env_mixer None) initial = Exit 1 "ioctl(mixer)" w' /\
    dzen_in w' = dzen_in initial ++ fp_buf initial /\ fp_buf w' = "".
Proof.
  apply (print_volume_ioctl_fails (env_mixer None) initial).
  - right. discriminate.
  - reflexivity.
Defined.

(** C23: the device is opened once.  Over a run of calls that all return,
    in environments where [open] does not hand out descriptor 0, the
    process holds at most one descriptor of the mixer, and exactly one
    after the first call. *)
Theorem print_volume_opens_once (es : list Env) (w' : World) :
  Forall nonzero_open es ->
  for_each print_volume es initial = Ok tt w' ->
  opened_once w' /\ (es <> [] -> mixer_opens w' = 1%nat).
Proof.
  intros Hes Hrun.
  assert (opened_once initial) as H0 by (left; split; reflexivity).
  split.
  - apply (for_each_inv print_volume opened_once nonzero_open es initial w');
      [| exact Hes | exact H0 | exact Hrun].
    intros e s s' He Hs H. now apply (print_volume_opened_once e s s').
  - destruct es as [|e es]; [contradiction |]. intros _.
    cbn [for_each] in Hrun. apply bind_ok_inv in Hrun as ([] & w1 & H1 & H2).
    inversion Hes as [|? ? He Hes']; subst.
    destruct (print_volume_opened_once e initial w1 He H0 H1) as [I1 F1].
    assert (opened_once w' /\ fd w' <> 0) as [[[F _]|[_ M]] Fd].
    { apply (for_each_inv print_volume (fun w => opened_once w /\ fd w <> 0)
               nonzero_open es w1 w'); [| exact Hes' | exact (conj I1 F1) | exact H2].
      intros e0 s s' He0 [Hs _] H. now apply (print_volume_opened_once e0 s s'). }
    + contradiction.
    + exact M.
Qed.

Lemma print_volume_opens_once_witness :
  opened_once (final_state (for_each print_volume [env_mixer (Some 75); env_mixer (Some 80)] initial)) /\
  ([env_mixer (Some 75); env_mixer (Some 80)] <> [] ->
   mixer_opens (final_state (for_each print_volume [env_mixer (Some 75); env_mixer (Some 80)] initial)) = 1%nat).
Proof.
  apply (print_volume_opens_once [env_mixer (Some 75); env_mixer (Some 80)]).
  - repeat constructor; discriminate.
  - reflexivity.
Defined.

(** C24: descriptor 0 is taken for "not opened".  When [open] returns 0
    the call works, but it leaves [fd] at 0, and the next call opens the
    device again: every cycle costs one more descriptor. *)
Theorem print_volume_reopens (e : Env) (w w' : World) :
  fd w = 0 -> CInt.wrap (open_mixer e) = 0 ->
  print_volume e w = Ok tt w' ->
  fd w' = 0 /\ mixer_opens w' = S (mixer_opens w).
Proof.
  intros Hf Ho H. apply print_volume_ok_inv in H as (v & _ & ->).
  unfold opened. rewrite Hf, Ho. split; reflexivity.
Qed.

Definition env_stdin_closed : Env := with_mixer 0 (Some 75) null_env.

Lemma print_volume_reopens_witness :
  fd (final_state (print_volume env_stdin_closed initial)) = 0 /\
  mixer_opens (final_state (print_volume env_stdin_closed initial)) = S (mixer_opens initial).
Proof.
  apply (print_volume_reopens env_stdin_closed initial); reflexivity.
Defined.

Example three_cycles_three_opens :
  mixer_opens (final_state (for_each print_volume
    [env_stdin_closed; env_stdin_closed; env_stdin_closed] initial)) = 3%nat.
Proof. vm_compute. reflexivity. Qed.

(** ** The stream discipline *)

#[global] Instance open_mixer_once_writes (e : Env) : Stream.Writes 0 (open_mixer_once e).
Proof.
  unfold open_mixer_once. cbv zeta. apply Stream.writes_seq; [exact _ | intros w].
  apply Stream.writes_when. Stream.writes_steps.
  apply Stream.writes_set_fd, CInt.wrap_in_int.
Qed.

#[global] Instance print_level_writes (vol : Z) : Stream.Writes 0 (print_level vol).
Proof. unfold print_level. exact _. Qed.

#[global] Instance print_volume_writes (e : Env) : Stream.Writes 0 (print_volume e).
Proof.
  unfold print_volume. Stream.writes_steps.
  destruct (ioctl_mixer e _); exact _.
Qed.

End Volume.
