(* ===== verification/Date.v ===== *)
(** * Date: the clock field ([print_date])

    [print_date] formats the local time with
    [strftime(buf, sizeof(buf), "%d-%m-%Y %k:%M", tm)] into a buffer of
    128 bytes and prints the buffer.  [strftime_text] is the text of the
    five conversions: day and month on two digits, the year as the C
    library's [_yconv] prints it (on at least four digits, [yconv_04d]),
    the hour on two columns padded with a space ([%k]), the minute on two
    digits.
    [strftime] is the library call with its size limit: it stores the
    text when it fits with its terminating NUL and otherwise leaves the
    buffer indeterminate.  [strftime_fits] shows the limit is never
    reached. *)

From Stdlib Require Import ZArith Lia String Ascii List Bool PeanoNat.
From S2P Require Import Prelude CInt Printf World Osd Stream Dzen.
Import ListNotations.
Import World.

Local Open Scope string_scope.
Local Open Scope Z_scope.
Local Open Scope prog_scope.

Module Date.

Definition TM_YEAR_BASE : Z := 1900.

(** The year as the C library prints it for [%Y] (FreeBSD's [_yconv]
    with both halves converted): the years since 1900 and the base are
    added by hundreds and rests, so that the sum never overflows, the two
    halves are brought to the same sign, and each is printed through
    [%02d].  For an [int] year no operation here leaves the range of
    [int]. *)
Definition yconv_parts (a b : Z) : Z * Z :=
  let trail := Z.rem a 100 + Z.rem b 100 in
  let lead := Z.quot a 100 + Z.quot b 100 + Z.quot trail 100 in
  let trail := Z.rem trail 100 in
  if (trail <? 0) && (0 <? lead) then (lead - 1, trail + 100)
  else if (lead <? 0) && (0 <? trail) then (lead + 1, trail - 100)
  else (lead, trail).

(** [lead] is the century, [trail] the year in it. *)
Definition yconv (a b : Z) : string :=
  let '(lead, trail) := yconv_parts a b in
  (if (lead =? 0) && (trail <? 0) then "-0" else Printf.fmt_0d 2 lead) ++
  Printf.fmt_0d 2 (Z.abs trail).

(** The conversions of ["%d-%m-%Y %k:%M"], in order. *)
Definition strftime_text (t : tm) : string :=
  Printf.fmt_0d 2 (tm_mday t) ++ "-" ++
  Printf.fmt_0d 2 (tm_mon t + 1) ++ "-" ++
  yconv (tm_year t) TM_YEAR_BASE ++ " " ++
  Printf.fmt_sd 2 (tm_hour t) ++ ":" ++
  Printf.fmt_0d 2 (tm_min t).

(** [strftime(buf, maxsize, ...)]: the text, if it fits with its NUL. *)
Definition strftime (maxsize : nat) (t : tm) : option string :=
  let s := strftime_text t in
  if (String.length s <? maxsize)%nat then Some s else None.

Definition print_date (e : Env) : M unit :=
  let tm := localtime e in
  let buf :=
    match strftime 128 tm with
    | Some s => s
    | None => stack_buf e
    end in
  fputs buf.

(** ** Specification *)

(** What [localtime] returns: every field an [int], in the ranges of
    <time.h>. *)
Record valid_tm (t : tm) : Prop := mk_valid_tm {
  valid_min : 0 <= tm_min t <= 59;
  valid_hour : 0 <= tm_hour t <= 23;
  valid_mday : 1 <= tm_mday t <= 31;
  valid_mon : 0 <= tm_mon t <= 11;
  valid_year : CInt.INT_MIN <= tm_year t <= CInt.INT_MAX - 1900
}.

Definition date_text (e : Env) : string := strftime_text (localtime e).

(** ** The year

    With the base 1900 the two halves are the hundreds and the rest of
    the year itself, so [%Y] is the year on at least four digits. *)

Lemma yconv_parts_base (a : Z) :
  yconv_parts a 1900 =
  let r := Z.rem a 100 in
  let l := Z.quot a 100 + 19 in
  if (r <? 0) && (0 <? l) then (l - 1, r + 100)
  else if (l <? 0) && (0 <? r) then (l + 1, r - 100)
  else (l, r).
Proof.
  unfold yconv_parts.
  change (Z.rem 1900 100) with 0. change (Z.quot 1900 100) with 19.
  rewrite Z.add_0_r.
  assert (Z.quot (Z.rem a 100) 100 = 0) as -> by zdiv.
  assert (Z.rem (Z.rem a 100) 100 = Z.rem a 100) as -> by zdiv.
  now rewrite Z.add_0_r.
Qed.

Ltac yconv_cases :=
  rewrite yconv_parts_base; cbv zeta;
  repeat match goal with
         | |- context [?x <? ?y] => destruct (Z.ltb_spec x y)
         end; cbn [andb]; f_equal; zdiv.

Lemma yconv_parts_nonneg (a : Z) :
  0 <= a + 1900 ->
  yconv_parts a 1900 = ((a + 1900) / 100, (a + 1900) mod 100).
Proof. intros H. yconv_cases. Qed.

Lemma yconv_parts_neg (a : Z) :
  a + 1900 < 0 ->
  yconv_parts a 1900 = (- ((- (a + 1900)) / 100), - ((- (a + 1900)) mod 100)).
Proof. intros H. yconv_cases. Qed.

(** [%Y] is the year on at least four digits. *)
Lemma yconv_04d (a : Z) : yconv a TM_YEAR_BASE = Printf.fmt_0d 4 (a + 1900).
Proof.
  unfold yconv, TM_YEAR_BASE. destruct (Z.lt_ge_cases (a + 1900) 0) as [H | H].
  - rewrite (yconv_parts_neg a H).
    set (m := - (a + 1900)). replace (a + 1900) with (- m) by (subst m; lia).
    assert (0 < m) by (subst m; lia).
    replace (Printf.fmt_0d 4 (- m)) with (Printf.fmt_0d 4 (- (100 * (m / 100) + m mod 100)))
      by (f_equal; zdiv).
    rewrite <- Printf.fmt_04d_split_neg by zdiv.
    rewrite Z.abs_opp, Z.abs_eq by zdiv.
    destruct (Z.eqb_spec (m / 100) 0) as [E | E].
    + rewrite E. cbn [Z.opp Z.eqb andb].
      now rewrite (proj2 (Z.ltb_lt _ _)) by zdiv.
    + now rewrite (proj2 (Z.eqb_neq _ _)) by lia.
  - rewrite (yconv_parts_nonneg a H).
    rewrite (proj2 (Z.ltb_ge _ _)), andb_false_r, Z.abs_eq by zdiv.
    rewrite Printf.fmt_04d_split by zdiv. f_equal. zdiv.
Qed.

(** From the year 1000 on, [%Y] is the plain numeral of the year. *)
Lemma yconv_plain (a : Z) :
  1000 <= a + 1900 -> yconv a TM_YEAR_BASE = Printf.fmt_d (a + 1900).
Proof.
  intros H. rewrite yconv_04d. apply Printf.fmt_0d_wide.
  rewrite Printf.fmt_d_nonneg by lia. now apply Printf.length_fmt_u_ge4.
Qed.

Example yconv_years :
  yconv 126 TM_YEAR_BASE = "2026" /\ yconv (-1) TM_YEAR_BASE = "1899" /\
  yconv (-901) TM_YEAR_BASE = "0999" /\ yconv (-1905) TM_YEAR_BASE = "-005" /\
  yconv 8100 TM_YEAR_BASE = "10000".
Proof. vm_compute. repeat split. Qed.

(** ** The size of the text *)

Lemma length_strftime_text (t : tm) :
  valid_tm t -> (String.length (strftime_text t) <= 26)%nat.
Proof.
  intros [Hmin Hhour Hmday Hmon Hyear].
  unfold CInt.INT_MIN, CInt.INT_MAX in Hyear.
  unfold strftime_text. rewrite yconv_04d, !length_append. cbn [String.length].
  rewrite !Printf.length_fmt_02d, Printf.length_fmt_s2d by lia.
  pose proof (Printf.length_fmt_0d_int 4 (tm_year t + 1900) ltac:(lia) ltac:(lia)). lia.
Qed.

(** A year of four digits gives the sixteen characters
    [dd-mm-yyyy hh:mm]. *)
Lemma length_strftime_text_16 (t : tm) :
  valid_tm t -> 1000 <= tm_year t + 1900 <= 9999 ->
  String.length (strftime_text t) = 16%nat.
Proof.
  intros [Hmin Hhour Hmday Hmon _] Hy.
  unfold strftime_text. rewrite yconv_plain, !length_append by lia.
  cbn [String.length].
  rewrite !Printf.length_fmt_02d, Printf.length_fmt_s2d by lia.
  rewrite Printf.fmt_d_nonneg, Printf.length_fmt_u_4 by lia. reflexivity.
Qed.

Lemma strftime_fits_text (t : tm) :
  valid_tm t ->
  strftime 128 t = Some (strftime_text t) /\
  (String.length (strftime_text t) <= 26)%nat.
Proof.
  intros H. pose proof (length_strftime_text t H) as L. split; [| exact L].
  unfold strftime. cbv zeta.
  destruct (Nat.ltb_spec (String.length (strftime_text t)) 128); [reflexivity | lia].
Qed.

Lemma print_date_run (e : Env) (w : World) :
  valid_tm (localtime e) ->
  print_date e w = Ok tt (set_fp_buf (fp_buf w ++ date_text e) w).
Proof.
  intros H. unfold print_date, strftime, date_text. cbv zeta.
  pose proof (length_strftime_text _ H) as L.
  destruct (Nat.ltb_spec (String.length (strftime_text (localtime e))) 128);
    [reflexivity | lia].
Qed.

(** ** Theorems *)

(** C35: the buffer of 128 bytes is never too small: for every broken-down
    time [localtime] can return, [strftime] stores the whole text, at most
    26 characters. *)
Theorem strftime_fits (t : tm) :
  valid_tm t ->
  strftime 128 t = Some (strftime_text t) /\
  (String.length (strftime_text t) <= 26)%nat.
Proof. apply strftime_fits_text. Qed.

(** 8 November 2026, 09:05. *)
Definition sample_tm : tm := mk_tm 5 9 8 10 126.

Lemma sample_tm_valid : valid_tm sample_tm.
Proof. split; cbv; split; discriminate. Qed.

Lemma strftime_fits_witness :
  strftime 128 sample_tm = Some (strftime_text sample_tm) /\
  (String.length (strftime_text sample_tm) <= 26)%nat.
Proof. apply (strftime_fits sample_tm). exact sample_tm_valid. Defined.

(** The part of the date before the hour. *)
Definition date_prefix (t : tm) : string :=
  Printf.fmt_0d 2 (tm_mday t) ++ "-" ++ Printf.fmt_0d 2 (tm_mon t + 1) ++ "-" ++
  yconv (tm_year t) TM_YEAR_BASE ++ " ".

Lemma strftime_text_split (t : tm) :
  strftime_text t =
  date_prefix t ++ Printf.fmt_sd 2 (tm_hour t) ++ ":" ++ Printf.fmt_0d 2 (tm_min t).
Proof. unfold strftime_text, date_prefix. now autorewrite with str. Qed.

Lemma length_date_prefix (t : tm) :
  valid_tm t -> 1000 <= tm_year t + 1900 <= 9999 ->
  String.length (date_prefix t) = 11%nat.
Proof.
  intros [_ _ Hmday Hmon _] Hy. unfold date_prefix.
  rewrite yconv_plain, !length_append by lia. cbn [String.length].
  rewrite !Printf.length_fmt_02d by lia.
  rewrite Printf.fmt_d_nonneg, Printf.length_fmt_u_4 by lia. reflexivity.
Qed.

(** C36: [print_date] returns and appends the date to the stream buffer:
    for a year of four digits, sixteen characters of the form
    [dd-mm-yyyy hh:mm]; when the hour is below 10 the first character of
    [hh] is a space, not a zero; nothing else changes. *)
Theorem print_date_total (e : Env) (w : World) :
  valid_tm (localtime e) -> 1000 <= tm_year (localtime e) + 1900 <= 9999 ->
  exists w',
    print_date e w = Ok tt w' /\
    Dzen.appends (date_text e) w w' /\
    String.length (date_text e) = 16%nat /\
    (tm_hour (localtime e) < 10 -> String.get 11 (date_text e) = Some " "%char).
Proof.
  intros Hv Hy. eexists. split; [now apply print_date_run |].
  split; [reflexivity |].
  split; [now apply length_strftime_text_16 |].
  intros Hh. unfold date_text. rewrite strftime_text_split.
  rewrite <- (length_date_prefix _ Hv Hy).
  rewrite <- (append_correct2 (date_prefix (localtime e)) _ 0 : String.get 0 _ = _).
  rewrite Printf.fmt_s2d_small by (destruct Hv; lia). reflexivity.
Qed.

Definition env_date : Env := with_time sample_tm null_env.

Lemma print_date_total_witness :
  exists w',
    print_date env_date initial = Ok tt w' /\
    Dzen.appends (date_text env_date) initial w' /\
    String.length (date_text env_date) = 16%nat /\
    (tm_hour (localtime env_date) < 10 ->
     String.get 11 (date_text env_date) = Some " "%char).
Proof.
  apply (print_date_total env_date initial).
  - exact sample_tm_valid.
  - cbv. split; discriminate.
Defined.

Example date_text_sample : date_text env_date = "08-11-2026  9:05".
Proof. vm_compute. reflexivity. Qed.

(** ** The stream discipline *)

#[global] Instance strftime_text_nl_free (t : tm) : Stream.NlFree (strftime_text t).
Proof. unfold strftime_text. rewrite yconv_04d. exact _. Qed.

(** With a valid time the buffer holds the date; otherwise what is
    printed is whatever the buffer held. *)
Lemma print_date_writes (e : Env) :
  valid_tm (localtime e) -> Stream.Writes 0 (print_date e).
Proof.
  intros H. unfold print_date. cbv zeta.
  rewrite (proj1 (strftime_fits_text _ H)). exact _.
Qed.

End Date.
