(* ===== verification/Main.v ===== *)
(** * Main: one cycle of the sampling loop, and [main]

    [cycle] is the body of the [for (;;)] of [main]: the five fields in
    their fixed order with a separator between neighbours, the newline
    that ends the line, the flush that hands the line to dzen2, and the
    second of sleep.  [main] opens the pipe and runs the loop; the model
    runs the first [length es] iterations, the [i]-th against the [i]-th
    environment.

    [cycle_run] is the cycle in closed form: what it does on each of
    its four ways out (a line written, the mixer not opening, the mixer
    not answering, the division trapping).  The theorems that follow are
    read off it. *)

From Stdlib Require Import ZArith Lia String Ascii List Bool.
From S2P Require Import Prelude CInt Printf World Osd Stream Dzen Field.
From S2P Require Import Battery Thermal Cpu Volume Date.
Import ListNotations.
Import World.

Local Open Scope string_scope.
Local Open Scope Z_scope.
Local Open Scope prog_scope.

Module Main.

Definition newline : string := String "010" "".

(** The body of the loop. *)
Definition cycle (e : Env) : M unit :=
  Battery.print_bat e ;;
  Dzen.print_dot ;;
  Thermal.print_temp e ;;
  Dzen.print_dot ;;
  Cpu.print_cpu_usage e ;;
  Dzen.print_dot ;;
  Volume.print_volume e ;;
  Dzen.print_dot ;;
  Date.print_date e ;;
  fputs newline ;;
  fflush ;;
  sleep 1.

(** [main]: [popen_ok] says whether [popen] returned a stream; [es] are
    the environments of the iterations that are run. *)
Definition main (popen_ok : bool) (es : list Env) : M unit :=
  if popen_ok then for_each cycle es
  else err 1 ("popen(" ++ Dzen.DZEN_CMD ++ ")").

(** ** Specification *)

(** The line of a cycle that reads usage [u] and mixer value [v]. *)
Definition line (e : Env) (u v : Z) : string :=
  Battery.bat_text e ++ Dzen.dot ++
  Thermal.temp_text e ++ Dzen.dot ++
  Cpu.cpu_text u ++ Dzen.dot ++
  Volume.vol_text (Volume.level v) ++ Dzen.dot ++
  Date.date_text e ++ newline.

(** The line without its newline. *)
Definition fields (e : Env) (u v : Z) : string :=
  Battery.bat_text e ++ Dzen.dot ++
  Thermal.temp_text e ++ Dzen.dot ++
  Cpu.cpu_text u ++ Dzen.dot ++
  Volume.vol_text (Volume.level v) ++ Dzen.dot ++
  Date.date_text e.

Definition put (t : string) (w : World) : World := set_fp_buf (fp_buf w ++ t) w.

(** The state before [print_cpu_usage], before [print_volume], and at the
    end of a cycle that writes its line. *)
Definition after_temp (e : Env) (w : World) : World :=
  put Dzen.dot (Thermal.temp_post e (put Dzen.dot (Battery.bat_post e w))).

Definition after_cpu (e : Env) (u : Z) (w : World) : World :=
  put Dzen.dot (Cpu.cpu_post e u (after_temp e w)).

(** The end of a cycle: the rest of the line [t], the flush, the sleep. *)
Definition finish (t : string) (w : World) : World :=
  let w6 := Volume.exited (put t w) in
  set_clock (clock w6 + 1) w6.

Definition cycle_post (e : Env) (u v : Z) (w : World) : World :=
  finish (Volume.vol_text (Volume.level v) ++ Dzen.dot ++ Date.date_text e ++ newline)
    (Volume.opened e (after_cpu e u w)).

(** What the end of a cycle may change: the stream, the pipe, the clock. *)
Definition mask_out (w : World) : World :=
  set_clock 0 (set_dzen_in "" (set_fp_buf "" w)).

(** A cycle that writes its line: the clock is valid, the tick counters
    have moved, the mixer opens (or is open) and answers. *)
Record healthy (e : Env) (w : World) : Prop := mk_healthy {
  healthy_tm : Date.valid_tm (localtime e);
  healthy_cpu : Cpu.runs e w;
  healthy_open : fd w <> 0 \/ 0 <= CInt.wrap (open_mixer e);
  healthy_ioctl : ioctl_mixer e (Volume.fd_of e w) <> None
}.

(** What the two alerting fields may change. *)
Definition mask2 (w : World) : World :=
  set_prev_temp 0 (set_prev_state 0 (set_fp_buf "" (Osd.erase w))).

Lemma line_fields (e : Env) (u v : Z) : line e u v = fields e u v ++ newline.
Proof. unfold line, fields. now autorewrite with str. Qed.

(** ** The prefix of the cycle *)

Lemma put_frame (t : string) (w : World) : unchanged_by mask2 w (put t w).
Proof. reflexivity. Qed.

Lemma after_temp_frame (e : Env) (w : World) : unchanged_by mask2 w (after_temp e w).
Proof.
  unfold after_temp.
  transitivity (Battery.bat_post e w).
  { apply (unchanged_weaken Battery.mask mask2); [reflexivity |].
    apply Battery.bat_post_frame. }
  etransitivity; [apply put_frame |].
  etransitivity; [| apply put_frame].
  apply (unchanged_weaken Thermal.mask mask2); [reflexivity |].
  apply Thermal.temp_post_frame.
Qed.

Lemma after_temp_fp_buf (e : Env) (w : World) :
  fp_buf (after_temp e w) =
  fp_buf w ++ Battery.bat_text e ++ Dzen.dot ++ Thermal.temp_text e ++ Dzen.dot.
Proof.
  unfold after_temp, put. cbn [fp_buf set_fp_buf].
  rewrite Thermal.temp_post_fp_buf. cbn [fp_buf set_fp_buf].
  rewrite Battery.bat_post_fp_buf. now autorewrite with str.
Qed.

Lemma after_temp_prev_state (e : Env) (w : World) :
  prev_state (after_temp e w) = Battery.read_state e.
Proof.
  unfold after_temp, put.
  change (prev_state (Thermal.temp_post e
    (set_fp_buf (fp_buf (Battery.bat_post e w) ++ Dzen.dot) (Battery.bat_post e w))) =
    Battery.read_state e).
  rewrite <- (unchanged_proj prev_state Thermal.mask _ _ (fun _ => eq_refl)
               (Thermal.temp_post_frame e _)).
  reflexivity.
Qed.

Lemma after_temp_prev_temp (e : Env) (w : World) :
  prev_temp (after_temp e w) = Thermal.temp_of e.
Proof. reflexivity. Qed.

Lemma after_temp_usage (e : Env) (w : World) :
  Cpu.usage_of e (after_temp e w) = Cpu.usage_of e w.
Proof.
  pose proof (after_temp_frame e w) as F.
  unfold Cpu.usage_of, Cpu.diff_total, Cpu.diff_idle.
  now rewrite <- (unchanged_proj prev_total mask2 _ _ (fun _ => eq_refl) F),
              <- (unchanged_proj prev_idle mask2 _ _ (fun _ => eq_refl) F).
Qed.

Lemma after_temp_osd_ok (e : Env) (w : World) :
  Osd.osd_ok w -> Osd.osd_ok (after_temp e w).
Proof.
  intros H. unfold after_temp.
  assert (K : forall t x, Osd.osd_ok x -> Osd.osd_ok (put t x)) by (intros t x Hx; exact Hx).
  apply K. apply Field.post_osd_ok. apply K. now apply Field.post_osd_ok.
Qed.

Lemma put_ready (t : string) (e : Env) (w : World) :
  Osd.ready e w -> Osd.ready e (put t w).
Proof. intros H. exact H. Qed.

(** The alerts of a cycle: those of the battery, then that of the
    temperature. *)
Definition cycle_alerts (e : Env) (w : World) : list string :=
  (Battery.bat_alerts (prev_state w) e ++ Thermal.temp_alerts (prev_temp w) e)%list.

Lemma after_temp_osd_shown (e : Env) (w : World) :
  Osd.ready e w ->
  osd_shown (after_temp e w) = (osd_shown w ++ cycle_alerts e w)%list.
Proof.
  intros Hr. unfold after_temp, cycle_alerts.
  destruct (Battery.bat_post_osd_shown e w Hr) as (Hb & Hr1).
  apply (put_ready Dzen.dot) in Hr1.
  destruct (Thermal.temp_post_osd_shown e _ Hr1) as (Ht & _).
  change (osd_shown (Thermal.temp_post e (put Dzen.dot (Battery.bat_post e w))) =
          (osd_shown w ++ Battery.bat_alerts (prev_state w) e ++
           Thermal.temp_alerts (prev_temp w) e)%list).
  rewrite Ht. change (osd_shown (put Dzen.dot (Battery.bat_post e w)))
    with (osd_shown (Battery.bat_post e w)).
  rewrite Hb, <- app_assoc. do 2 f_equal.
  change (prev_temp (put Dzen.dot (Battery.bat_post e w)))
    with (prev_temp (Battery.bat_post e w)).
  now rewrite <- (unchanged_proj prev_temp Battery.mask _ _ (fun _ => eq_refl)
                   (Battery.bat_post_frame e w)).
Qed.

Lemma after_cpu_fd (e : Env) (u : Z) (w : World) : fd (after_cpu e u w) = fd w.
Proof.
  unfold after_cpu, put, Cpu.cpu_post. cbn [fd set_fp_buf set_prev_idle set_prev_total].
  symmetry. exact (unchanged_proj fd mask2 _ _ (fun _ => eq_refl) (after_temp_frame e w)).
Qed.

Lemma after_cpu_fd_of (e : Env) (u : Z) (w : World) :
  Volume.fd_of e (after_cpu e u w) = Volume.fd_of e w.
Proof. unfold Volume.fd_of. now rewrite after_cpu_fd. Qed.

(** What the three fields before the mixer may change. *)
Definition mask3 (w : World) : World := set_prev_idle 0 (set_prev_total 0 (mask2 w)).

Lemma after_cpu_frame (e : Env) (u : Z) (w : World) :
  unchanged_by mask3 w (after_cpu e u w).
Proof.
  transitivity (after_temp e w); [| reflexivity].
  apply (unchanged_weaken mask2 mask3); [reflexivity | apply after_temp_frame].
Qed.

Lemma after_cpu_fp_buf (e : Env) (u : Z) (w : World) :
  fp_buf (after_cpu e u w) =
  fp_buf w ++ Battery.bat_text e ++ Dzen.dot ++ Thermal.temp_text e ++ Dzen.dot ++
  Cpu.cpu_text u ++ Dzen.dot.
Proof.
  unfold after_cpu, put, Cpu.cpu_post. cbv zeta.
  cbn [fp_buf set_fp_buf set_prev_idle set_prev_total].
  rewrite after_temp_fp_buf. now autorewrite with str.
Qed.

(** The fields the cycle leaves to the part after the mixer: a
    projection that no field before it can change has, in the state
    before the flush, the value the mixer block gives it. *)
Lemma opened_after_cpu {A : Type} (f : World -> A) (e : Env) (u : Z) (w : World) :
  (forall x, f (mask3 x) = f x) -> (forall x, f (Volume.mask x) = f x) ->
  f (Volume.opened e (after_cpu e u w)) = f w.
Proof.
  intros H3 HV.
  rewrite <- (unchanged_proj f Volume.mask _ _ HV (Volume.opened_frame e _)).
  symmetry. exact (unchanged_proj f mask3 _ _ H3 (after_cpu_frame e u w)).
Qed.

(** ** The state after a cycle *)

Lemma finish_frame (t : string) (w : World) : unchanged_by mask_out w (finish t w).
Proof. reflexivity. Qed.

Lemma finish_dzen_in (t : string) (w : World) :
  dzen_in (finish t w) = dzen_in w ++ fp_buf w ++ t.
Proof. reflexivity. Qed.

Lemma finish_clock (t : string) (w : World) : clock (finish t w) = clock w + 1.
Proof. reflexivity. Qed.

(** A field that neither the mixer block nor the end of the cycle
    changes has, after the cycle, the value it had before the mixer. *)
Lemma cycle_post_proj {A : Type} (f : World -> A) (e : Env) (u v : Z) (w : World) :
  (forall x, f (mask_out x) = f x) -> (forall x, f (Volume.mask x) = f x) ->
  f (cycle_post e u v w) = f (after_cpu e u w).
Proof.
  intros HO HV. unfold cycle_post.
  rewrite <- (unchanged_proj f mask_out _ _ HO (finish_frame _ _)).
  symmetry. exact (unchanged_proj f Volume.mask _ _ HV (Volume.opened_frame e _)).
Qed.

Lemma cycle_post_fp_buf (e : Env) (u v : Z) (w : World) :
  fp_buf (cycle_post e u v w) = "".
Proof. reflexivity. Qed.

Lemma cycle_post_dzen_in (e : Env) (u v : Z) (w : World) :
  dzen_in (cycle_post e u v w) = dzen_in w ++ fp_buf w ++ line e u v.
Proof.
  unfold cycle_post, line. rewrite finish_dzen_in.
  rewrite (opened_after_cpu dzen_in) by reflexivity.
  rewrite Volume.fp_buf_opened, after_cpu_fp_buf. now autorewrite with str.
Qed.

Lemma cycle_post_clock (e : Env) (u v : Z) (w : World) :
  clock (cycle_post e u v w) = clock w + 1.
Proof.
  unfold cycle_post. rewrite finish_clock.
  now rewrite (opened_after_cpu clock) by reflexivity.
Qed.

Lemma cycle_post_statics (e : Env) (u v : Z) (w : World) :
  prev_state (cycle_post e u v w) = Battery.read_state e /\
  prev_temp (cycle_post e u v w) = Thermal.temp_of e /\
  prev_total (cycle_post e u v w) = Cpu.curr_total e /\
  prev_idle (cycle_post e u v w) = Cpu.curr_idle e /\
  fd (cycle_post e u v w) = Volume.fd_of e w.
Proof.
  rewrite !cycle_post_proj by reflexivity.
  split; [apply after_temp_prev_state |]. do 3 (split; [reflexivity |]).
  unfold cycle_post.
  rewrite <- (unchanged_proj fd mask_out _ _ (fun _ => eq_refl) (finish_frame _ _)).
  rewrite Volume.fd_opened. apply after_cpu_fd_of.
Qed.

Lemma cycle_post_osd_shown (e : Env) (u v : Z) (w : World) :
  Osd.ready e w ->
  osd_shown (cycle_post e u v w) = (osd_shown w ++ cycle_alerts e w)%list.
Proof.
  intros Hr. rewrite (cycle_post_proj osd_shown) by reflexivity.
  rewrite <- (after_temp_osd_shown e w Hr). reflexivity.
Qed.

Lemma cycle_post_osd_ok (e : Env) (u v : Z) (w : World) :
  Osd.osd_ok w -> Osd.osd_ok (cycle_post e u v w).
Proof.
  intros H h. rewrite (cycle_post_proj osd) by reflexivity.
  apply (after_temp_osd_ok e w H).
Qed.

(** ** The cycle in closed form *)

Definition cycle_outcome (e : Env) (w : World) : outcome World unit :=
  match Cpu.usage_of e w with
  | None => Fault (after_temp e w)
  | Some u =>
      let w3 := after_cpu e u w in
      if (fd w =? 0) && (CInt.wrap (open_mixer e) <? 0)
      then Exit 1 "open(/dev/mixer)"
             (Volume.exited (set_fd (CInt.wrap (open_mixer e)) w3))
      else match ioctl_mixer e (Volume.fd_of e w) with
           | None => Exit 1 "ioctl(mixer)" (Volume.exited (Volume.opened e w3))
           | Some v => Ok tt (cycle_post e u v w)
           end
  end.

Lemma cycle_prefix (e : Env) (w : World) (k : M unit) :
  (Battery.print_bat e ;; Dzen.print_dot ;; Thermal.print_temp e ;;
   Dzen.print_dot ;; k) w = k (after_temp e w).
Proof.
  prog_step (Battery.print_bat_run e w).
  unfold Dzen.print_dot at 1. prog_step (fputs_ok _ _).
  prog_step (Thermal.print_temp_run e _).
  unfold Dzen.print_dot at 1. now prog_step (fputs_ok _ _).
Qed.

Lemma cycle_suffix (e : Env) (w : World) (t : string) :
  Date.valid_tm (localtime e) ->
  (Dzen.print_dot ;; Date.print_date e ;; fputs newline ;; fflush ;; sleep 1)
    (put t w) =
  Ok tt (finish (t ++ Dzen.dot ++ Date.date_text e ++ newline) w).
Proof.
  intros Hv.
  unfold Dzen.print_dot. prog_step (fputs_ok _ _).
  prog_step (Date.print_date_run e _ Hv).
  prog_step (fputs_ok _ _).
  prog_step (fflush_ok _).
  rewrite sleep_ok. unfold finish, put, Volume.exited. cbv zeta.
  cbn [fp_buf dzen_in clock set_fp_buf set_dzen_in set_clock].
  now autorewrite with str.
Qed.

Lemma cycle_run (e : Env) (w : World) :
  Date.valid_tm (localtime e) -> cycle e w = cycle_outcome e w.
Proof.
  intros Hv. unfold cycle, cycle_outcome. rewrite cycle_prefix.
  unfold bind at 1. rewrite Cpu.print_cpu_usage_run, after_temp_usage.
  destruct (Cpu.usage_of e w) as [u|]; [| reflexivity].
  unfold Dzen.print_dot at 1. prog_step (fputs_ok _ _).
  fold (put Dzen.dot (Cpu.cpu_post e u (after_temp e w))). fold (after_cpu e u w).
  unfold bind at 1. rewrite Volume.print_volume_run, after_cpu_fd, after_cpu_fd_of.
  cbv zeta.
  destruct ((fd w =? 0) && (CInt.wrap (open_mixer e) <? 0)); [reflexivity |].
  destruct (ioctl_mixer e (Volume.fd_of e w)) as [v|]; [| reflexivity].
  rewrite <- (Volume.fp_buf_opened e (after_cpu e u w)).
  exact (cycle_suffix e _ _ Hv).
Qed.

Lemma healthy_guard (e : Env) (w : World) :
  fd w <> 0 \/ 0 <= CInt.wrap (open_mixer e) ->
  (fd w =? 0) && (CInt.wrap (open_mixer e) <? 0) = false.
Proof.
  intros [H | H].
  - now rewrite (proj2 (Z.eqb_neq _ _) H).
  - rewrite (proj2 (Z.ltb_ge _ _) H). apply andb_false_r.
Qed.

Lemma cycle_healthy (e : Env) (w : World) :
  healthy e w ->
  exists u v, Cpu.usage_of e w = Some u /\
              ioctl_mixer e (Volume.fd_of e w) = Some v /\
              cycle e w = Ok tt (cycle_post e u v w).
Proof.
  intros [Hv Hc Ho Hi]. rewrite (cycle_run e w Hv). unfold cycle_outcome.
  unfold Cpu.runs in Hc. destruct (Cpu.usage_of e w) as [u|]; [| congruence].
  cbv zeta. rewrite (healthy_guard e w Ho).
  destruct (ioctl_mixer e (Volume.fd_of e w)) as [v|]; [| congruence].
  now exists u, v.
Qed.

Lemma cycle_ok_inv (e : Env) (w w' : World) :
  Date.valid_tm (localtime e) -> cycle e w = Ok tt w' ->
  exists u v, Cpu.usage_of e w = Some u /\
              ioctl_mixer e (Volume.fd_of e w) = Some v /\
              (fd w <> 0 \/ 0 <= CInt.wrap (open_mixer e)) /\
              w' = cycle_post e u v w.
Proof.
  intros Hv. rewrite (cycle_run e w Hv). unfold cycle_outcome.
  destruct (Cpu.usage_of e w) as [u|]; [| discriminate]. cbv zeta.
  destruct (Z.eqb_spec (fd w) 0) as [E|N]; cbn [andb].
  - destruct (Z.ltb_spec (CInt.wrap (open_mixer e)) 0); [discriminate |].
    destruct (ioctl_mixer e (Volume.fd_of e w)) as [v|]; [| discriminate].
    intros [= <-]. exists u, v. auto.
  - destruct (ioctl_mixer e (Volume.fd_of e w)) as [v|]; [| discriminate].
    intros [= <-]. exists u, v. auto.
Qed.

Lemma cycle_post_wf (e : Env) (u v : Z) (w : World) : wf w -> wf (cycle_post e u v w).
Proof.
  intros H. destruct (cycle_post_statics e u v w) as (E1 & E2 & E3 & E4 & E5).
  split; rewrite ?E1, ?E2, ?E3, ?E4, ?E5; auto with jstatus.
  unfold Volume.fd_of. destruct (fd w =? 0); [auto with jstatus | apply H].
Qed.

(** The partial line: what the stream holds when the mixer is reached. *)
Definition partial (e : Env) (u : Z) : string :=
  Battery.bat_text e ++ Dzen.dot ++ Thermal.temp_text e ++ Dzen.dot ++
  Cpu.cpu_text u ++ Dzen.dot.

Lemma exited_flushes (x : World) :
  dzen_in (Volume.exited x) = dzen_in x ++ fp_buf x /\ fp_buf (Volume.exited x) = "".
Proof. split; reflexivity. Qed.

Lemma after_cpu_pipe (e : Env) (u : Z) (w : World) :
  dzen_in (after_cpu e u w) ++ fp_buf (after_cpu e u w) =
  dzen_in w ++ fp_buf w ++ partial e u.
Proof.
  rewrite after_cpu_fp_buf.
  now rewrite <- (unchanged_proj dzen_in mask3 _ _ (fun _ => eq_refl) (after_cpu_frame e u w)).
Qed.

Lemma opened_pipe (e : Env) (x : World) :
  dzen_in (Volume.opened e x) ++ fp_buf (Volume.opened e x) = dzen_in x ++ fp_buf x.
Proof. unfold Volume.opened. now destruct (fd x =? 0). Qed.

Lemma cycle_returns_ok (e : Env) (w : World) :
  Date.valid_tm (localtime e) -> is_ok (cycle e w) = true -> healthy e w.
Proof.
  intros Hv. destruct (cycle e w) as [[] w'| |] eqn:E; [intros _ | discriminate ..].
  destruct (cycle_ok_inv e w w' Hv E) as (u & v & Hu & Hi & Ho & _).
  split; [assumption | unfold Cpu.runs | assumption |]; congruence.
Qed.

Lemma cycle_exit_code (e : Env) (w w' : World) (code : Z) (msg : string) :
  Date.valid_tm (localtime e) -> cycle e w = Exit code msg w' ->
  code = 1 /\ (msg = "open(/dev/mixer)" \/ msg = "ioctl(mixer)").
Proof.
  intros Hv. rewrite (cycle_run e w Hv). unfold cycle_outcome. cbv zeta.
  repeat case_scrutinee; try discriminate; intros [= <- <- <-]; auto.
Qed.

Lemma cycle_fault_inv (e : Env) (w w' : World) :
  Date.valid_tm (localtime e) -> cycle e w = Fault w' -> w' = after_temp e w.
Proof.
  intros Hv. rewrite (cycle_run e w Hv). unfold cycle_outcome. cbv zeta.
  repeat case_scrutinee; try discriminate. now intros [= <-].
Qed.

(** ** The size of a line

    A line is at most 298 characters long, far below the size of a stdio
    buffer ([BUFSIZ] is 1024): between two calls of [fflush] the stream
    never fills, so nothing reaches dzen2 before the line is whole. *)

Lemma line_length (e : Env) (u v : Z) :
  Date.valid_tm (localtime e) -> CInt.in_int u ->
  (String.length (line e u v) <= 298)%nat.
Proof.
  intros Hv Hu. unfold line. rewrite !length_append.
  pose proof (Battery.length_bat_text e).
  pose proof (Thermal.length_temp_text e).
  pose proof (Cpu.length_cpu_text u Hu).
  pose proof (Volume.length_vol_text v).
  pose proof (Date.length_strftime_text _ Hv).
  change (String.length Dzen.dot) with 17%nat.
  change (String.length newline) with 1%nat. unfold Date.date_text. lia.
Qed.

(** ** The stream discipline

    From the judgements of the five printers alone: a cycle writes one
    line end, the last thing it writes. *)

Lemma tail_writes : Stream.Writes 1 (fputs newline ;; fflush ;; sleep 1)%prog.
Proof.
  apply (Stream.writes_bind 1 0); [apply (Stream.writes_fputs newline) | intros _].
  apply Stream.writes_seq; [exact _ | intros _]. now apply Stream.writes_sleep.
Qed.

Lemma cycle_writes (e : Env) :
  Date.valid_tm (localtime e) -> Stream.Writes 1 (cycle e).
Proof.
  intros Hv. unfold cycle.
  do 8 (apply (Stream.writes_bind 0 _); [exact _ | intros _]).
  apply (Stream.writes_bind 0 1); [now apply Date.print_date_writes | intros _].
  exact tail_writes.
Qed.

(** ** Theorems *)

(** C1: a healthy cycle returns, and hands dzen2 exactly one line: what
    the stream still held, then the five fields in the order battery,
    temperature, processor, volume, date with a separator between
    neighbours, then a newline.  The stream is left empty and one second
    has passed. *)
Theorem cycle_writes_line (e : Env) (w : World) :
  healthy e w ->
  exists u v w',
    cycle e w = Ok tt w' /\
    Cpu.usage_of e w = Some u /\
    ioctl_mixer e (Volume.fd_of e w) = Some v /\
    dzen_in w' = dzen_in w ++ fp_buf w ++ line e u v /\
    fp_buf w' = "" /\
    clock w' = clock w + 1.
Proof.
  intros H. destruct (cycle_healthy e w H) as (u & v & Hu & Hi & Hc).
  exists u, v, (cycle_post e u v w).
  repeat (split; [assumption |]).
  split; [apply cycle_post_dzen_in |]. split; [reflexivity | apply cycle_post_clock].
Qed.

(** A laptop on battery at 83%, 30 degrees, the mixer at 75, on
    8 November 2026 at 09:05. *)
Definition env_sample : Env :=
  with_display (with_time Date.sample_tm (with_mixer 3 (Some 19275)
    (with_cp_time (mk_cp_times 120 0 60 7 870)
      (with_sysctl Thermal.SYSCTL_TEMP 3032
        (with_sysctl Battery.SYSCTL_BAT_STATE 1
          (with_sysctl Battery.SYSCTL_BAT_LIFE 83 null_env)))))).

Lemma env_sample_healthy : healthy env_sample initial.
Proof.
  split.
  - exact Date.sample_tm_valid.
  - cbv. discriminate.
  - right. cbv. discriminate.
  - cbv. discriminate.
Qed.

Lemma cycle_writes_line_witness :
  exists u v w',
    cycle env_sample initial = Ok tt w' /\
    Cpu.usage_of env_sample initial = Some u /\
    ioctl_mixer env_sample (Volume.fd_of env_sample initial) = Some v /\
    dzen_in w' = dzen_in initial ++ fp_buf initial ++ line env_sample u v /\
    fp_buf w' = "" /\
    clock w' = clock initial + 1.
Proof. apply (cycle_writes_line env_sample initial). exact env_sample_healthy. Defined.

Example first_line :
  dzen_in (final_state (cycle env_sample initial)) =
  "^i(/usr/home/jlaffaye/.dzen/power-bat2.xbm) 83% ^p(5)^c(5)^p(5) " ++
  "^i(/usr/home/jlaffaye/.dzen/temp.xbm) 30 C ^p(5)^c(5)^p(5) " ++
  "^i(/usr/home/jlaffaye/.dzen/load.xbm) 17% ^p(5)^c(5)^p(5) " ++
  "^i(/usr/home/jlaffaye/.dzen/vol-hi.xbm) 75% ^p(5)^c(5)^p(5) " ++
  "08-11-2026  9:05" ++ newline.
Proof. vm_compute. reflexivity. Qed.

(** The rendering scenario of the specification: discharging at 42%,
    22 degrees, 7% of load, volume 0. *)
Definition env_render : Env :=
  with_time Date.sample_tm (with_mixer 3 (Some 0)
    (with_cp_time (mk_cp_times 7 0 0 0 93)
      (with_sysctl Thermal.SYSCTL_TEMP 2952
        (with_sysctl Battery.SYSCTL_BAT_STATE 1
          (with_sysctl Battery.SYSCTL_BAT_LIFE 42 null_env))))).

Example render_scenario :
  cycle env_render initial = Ok tt (cycle_post env_render 7 0 initial) /\
  line env_render 7 0 =
  "^i(/usr/home/jlaffaye/.dzen/power-bat2.xbm) 42% ^p(5)^c(5)^p(5) " ++
  "^i(/usr/home/jlaffaye/.dzen/temp.xbm) 22 C ^p(5)^c(5)^p(5) " ++
  "^i(/usr/home/jlaffaye/.dzen/load.xbm) 07% ^p(5)^c(5)^p(5) " ++
  "^i(/usr/home/jlaffaye/.dzen/vol-mute.xbm) 0% ^p(5)^c(5)^p(5) " ++
  "08-11-2026  9:05" ++ newline.
Proof. split; vm_compute; reflexivity. Qed.

(** C18: the cycle returns exactly when it is healthy: the clock is
    valid, the division does not trap, the mixer is open or opens, and the
    mixer answers. *)
Theorem cycle_returns_iff (e : Env) (w : World) :
  Date.valid_tm (localtime e) ->
  (is_ok (cycle e w) = true <-> healthy e w).
Proof.
  intros Hv. split; [now apply cycle_returns_ok |].
  intros H. destruct (cycle_healthy e w H) as (u & v & _ & _ & ->). reflexivity.
Qed.

Lemma cycle_returns_iff_witness :
  is_ok (cycle env_sample initial) = true <-> healthy env_sample initial.
Proof. apply (cycle_returns_iff env_sample initial). exact Date.sample_tm_valid. Defined.

(** After a cycle every static holds the reading of that cycle: the
    battery state, the temperature in degrees, the total and idle ticks,
    the mixer descriptor; the state stays well formed and the notifier
    handle, if there is one, stays configured. *)
Theorem cycle_statics (e : Env) (w w' : World) :
  Date.valid_tm (localtime e) -> cycle e w = Ok tt w' ->
  prev_state w' = Battery.read_state e /\
  prev_temp w' = Thermal.temp_of e /\
  prev_total w' = Cpu.curr_total e /\
  prev_idle w' = Cpu.curr_idle e /\
  fd w' = Volume.fd_of e w /\
  (wf w -> wf w') /\ (Osd.osd_ok w -> Osd.osd_ok w').
Proof.
  intros Hv E. destruct (cycle_ok_inv e w w' Hv E) as (u & v & _ & _ & _ & ->).
  destruct (cycle_post_statics e u v w) as (E1 & E2 & E3 & E4 & E5).
  auto 10 using cycle_post_wf, cycle_post_osd_ok.
Qed.

Lemma cycle_statics_witness :
  let w' := final_state (cycle env_sample initial) in
  prev_state w' = Battery.read_state env_sample /\
  prev_temp w' = Thermal.temp_of env_sample /\
  prev_total w' = Cpu.curr_total env_sample /\
  prev_idle w' = Cpu.curr_idle env_sample /\
  fd w' = Volume.fd_of env_sample initial /\
  (wf initial -> wf w') /\ (Osd.osd_ok initial -> Osd.osd_ok w').
Proof.
  apply (cycle_statics env_sample initial).
  - exact Date.sample_tm_valid.
  - vm_compute. reflexivity.
Defined.

(** C19: when the cycle ends the process, it does so in [print_volume],
    with status 1 and one of the two mixer messages; [exit] flushes the
    stream, so dzen2 receives the three fields already printed as a line
    with no newline. *)
Theorem cycle_exits (e : Env) (w w' : World) (code : Z) (msg : string) :
  Date.valid_tm (localtime e) -> cycle e w = Exit code msg w' ->
  code = 1 /\ (msg = "open(/dev/mixer)" \/ msg = "ioctl(mixer)") /\
  fp_buf w' = "" /\
  exists u, Cpu.usage_of e w = Some u /\
            dzen_in w' = dzen_in w ++ fp_buf w ++ partial e u.
Proof.
  intros Hv. rewrite (cycle_run e w Hv). unfold cycle_outcome.
  destruct (Cpu.usage_of e w) as [u|]; [| discriminate]. cbv zeta.
  destruct ((fd w =? 0) && (CInt.wrap (open_mixer e) <? 0)).
  - intros [= <- <- <-]. repeat (split; [auto; fail |]). exists u. split; [reflexivity |].
    rewrite (proj1 (exited_flushes _)). exact (after_cpu_pipe e u w).
  - destruct (ioctl_mixer e (Volume.fd_of e w)); [discriminate |].
    intros [= <- <- <-]. repeat (split; [auto; fail |]). exists u. split; [reflexivity |].
    rewrite (proj1 (exited_flushes _)), opened_pipe. exact (after_cpu_pipe e u w).
Qed.

(** The sample laptop with its mixer not answering. *)
Definition env_no_mixer : Env := with_mixer 3 None env_sample.

Lemma cycle_exits_witness :
  1 = 1 /\ ("ioctl(mixer)" = "open(/dev/mixer)" \/ "ioctl(mixer)" = "ioctl(mixer)") /\
  fp_buf (final_state (cycle env_no_mixer initial)) = "" /\
  exists u, Cpu.usage_of env_no_mixer initial = Some u /\
            dzen_in (final_state (cycle env_no_mixer initial)) =
            dzen_in initial ++ fp_buf initial ++ partial env_no_mixer u.
Proof.
  apply (cycle_exits env_no_mixer initial).
  - exact Date.sample_tm_valid.
  - vm_compute. reflexivity.
Defined.

(** C20: when the division of [print_cpu_usage] traps, the process is
    killed with the battery and temperature fields still in the stream:
    dzen2 receives nothing of this cycle, and the alerts of the cycle have
    been displayed. *)
Theorem cycle_traps (e : Env) (w : World) :
  Date.valid_tm (localtime e) -> Cpu.usage_of e w = None ->
  cycle e w = Fault (after_temp e w) /\
  dzen_in (after_temp e w) = dzen_in w /\
  fp_buf (after_temp e w) =
    fp_buf w ++ Battery.bat_text e ++ Dzen.dot ++ Thermal.temp_text e ++ Dzen.dot.
Proof.
  intros Hv Hu. rewrite (cycle_run e w Hv). unfold cycle_outcome. rewrite Hu.
  split; [reflexivity |]. split; [| apply after_temp_fp_buf].
  symmetry. exact (unchanged_proj dzen_in mask2 _ _ (fun _ => eq_refl) (after_temp_frame e w)).
Qed.

(** The sample laptop asked twice within one tick of the kernel. *)
Lemma cycle_traps_witness :
  let w := final_state (cycle env_sample initial) in
  cycle env_sample w = Fault (after_temp env_sample w) /\
  dzen_in (after_temp env_sample w) = dzen_in w /\
  fp_buf (after_temp env_sample w) =
    fp_buf w ++ Battery.bat_text env_sample ++ Dzen.dot ++
    Thermal.temp_text env_sample ++ Dzen.dot.
Proof.
  apply (cycle_traps env_sample (final_state (cycle env_sample initial))).
  - exact Date.sample_tm_valid.
  - vm_compute. reflexivity.
Defined.

(** When [popen] fails, [main] ends with status 1 and the message
    naming the command, before any field is read; when it succeeds,
    [main] is the loop. *)
Theorem main_popen (es : list Env) (w : World) :
  main false es w = Exit 1 "popen(dzen2 -x 1400 -y 1061)" w /\
  main true es w = for_each cycle es w.
Proof. split; reflexivity. Qed.

End Main.
