(* ===== verification/Loop.v ===== *)
(** * Loop: the sampling loop as a transition system

    A configuration is the process running in some state, ended by
    [exit], or killed by a signal.  [step e] is one iteration of the
    [for (;;)] of [main] against the environment [e], given by one rule
    per way out of the iteration; [step_iff] shows the rules describe the
    body [Main.cycle] exactly, so the relation is deterministic, a running
    process always has a next configuration, and an ended one has none.
    [steps] runs several iterations; [main_steps] relates it to the
    loop of [Main.main].  [reachable] collects the configurations [main]
    can be in at the top of the loop or after its end; [reachable_inv] is
    the invariant of the program, proved by induction on the rules.
    [main_line_count] counts the newlines dzen2 receives, from the
    judgements of [Stream] alone. *)

From Stdlib Require Import ZArith Lia String Ascii List Bool.
From S2P Require Import Prelude Trans CInt Printf World Osd Stream Dzen Field.
From S2P Require Import Battery Thermal Cpu Volume Date Main.
Import ListNotations.
Import World.

Local Open Scope string_scope.
Local Open Scope Z_scope.

Module Loop.

Inductive config : Type :=
| Running (w : World)
| Exited (code : Z) (msg : string) (w : World)
| Killed (w : World).

Definition config_of (o : outcome World unit) : config :=
  match o with
  | Ok _ w => Running w
  | Exit code msg w => Exited code msg w
  | Fault w => Killed w
  end.

(** One iteration of the loop. *)
Inductive step (e : Env) : config -> config -> Prop :=
| step_line (w : World) (u v : Z) :
    Cpu.usage_of e w = Some u ->
    fd w <> 0 \/ 0 <= CInt.wrap (open_mixer e) ->
    ioctl_mixer e (Volume.fd_of e w) = Some v ->
    step e (Running w) (Running (Main.cycle_post e u v w))
| step_open_fails (w : World) (u : Z) :
    Cpu.usage_of e w = Some u ->
    fd w = 0 -> CInt.wrap (open_mixer e) < 0 ->
    step e (Running w)
      (Exited 1 "open(/dev/mixer)"
         (Volume.exited (set_fd (CInt.wrap (open_mixer e)) (Main.after_cpu e u w))))
| step_ioctl_fails (w : World) (u : Z) :
    Cpu.usage_of e w = Some u ->
    fd w <> 0 \/ 0 <= CInt.wrap (open_mixer e) ->
    ioctl_mixer e (Volume.fd_of e w) = None ->
    step e (Running w)
      (Exited 1 "ioctl(mixer)" (Volume.exited (Volume.opened e (Main.after_cpu e u w))))
| step_trap (w : World) :
    Cpu.usage_of e w = None ->
    step e (Running w) (Killed (Main.after_temp e w)).

(** The environments the loop meets: [localtime] returns a valid time. *)
Definition ok (e : Env) : Prop := Date.valid_tm (localtime e).

Definition popen_msg : string := "popen(" ++ Dzen.DZEN_CMD ++ ")".

(** [main] before the loop: the pipe is open, or the process has ended. *)
Definition init (c : config) : Prop :=
  c = Running initial \/ c = Exited 1 popen_msg initial.

(** Iterations in sequence, and the configurations of [main]. *)
Definition steps : list Env -> config -> config -> Prop := Trans.steps ok step.

Definition reachable : config -> Prop := Trans.reachable ok step init.

(** Every cycle of the run is healthy in the state it starts in. *)
Fixpoint healthy_run (w : World) (es : list Env) : Prop :=
  match es with
  | [] => True
  | e :: es' => Main.healthy e w /\ healthy_run (final_state (Main.cycle e w)) es'
  end.

(** The line of the iteration that starts in [w], when it is healthy. *)
Definition line_of (e : Env) (w : World) : string :=
  match Cpu.usage_of e w, ioctl_mixer e (Volume.fd_of e w) with
  | Some u, Some v => Main.line e u v
  | _, _ => ""
  end.

(** The lines of a run from [w], one per iteration. *)
Fixpoint lines (w : World) (es : list Env) : list string :=
  match es with
  | [] => []
  | e :: es' => line_of e w :: lines (final_state (Main.cycle e w)) es'
  end.

(** ** Specification *)

(** What dzen2 has received is a sequence of whole lines. *)
Definition whole_lines (s : string) : Prop :=
  s = "" \/ exists t, s = t ++ Main.newline.

(** The invariant of the program. *)
Definition inv (c : config) : Prop :=
  match c with
  | Running w =>
      fp_buf w = "" /\ wf w /\ Osd.osd_ok w /\ whole_lines (dzen_in w) /\ 0 <= clock w
  | Exited code msg w =>
      code = 1 /\
      In msg [popen_msg; "open(/dev/mixer)"; "ioctl(mixer)"] /\
      fp_buf w = ""
  | Killed w => whole_lines (dzen_in w)
  end.

(** ** The rules describe the cycle *)

Lemma step_cycle (e : Env) (w : World) :
  Date.valid_tm (localtime e) -> step e (Running w) (config_of (Main.cycle e w)).
Proof.
  intros Hv. rewrite (Main.cycle_run e w Hv). unfold Main.cycle_outcome.
  destruct (Cpu.usage_of e w) as [u|] eqn:Hu; [| now apply step_trap]. cbv zeta.
  destruct (Z.eqb_spec (fd w) 0) as [E|N]; cbn [andb].
  - destruct (Z.ltb_spec (CInt.wrap (open_mixer e)) 0); [now apply step_open_fails |].
    destruct (ioctl_mixer e (Volume.fd_of e w)) as [v|] eqn:Hi;
      [apply step_line | apply step_ioctl_fails]; auto.
  - destruct (ioctl_mixer e (Volume.fd_of e w)) as [v|] eqn:Hi;
      [apply step_line | apply step_ioctl_fails]; auto.
Qed.

Lemma step_running (e : Env) (c c' : config) :
  step e c c' -> exists w, c = Running w.
Proof. intros H. destruct H; eauto. Qed.

Lemma step_outcome (e : Env) (c c' : config) :
  step e c c' -> forall w, c = Running w -> c' = config_of (Main.cycle_outcome e w).
Proof.
  intros H. destruct H as [w u v Hu Ho Hi | w u Hu Hf Ho | w u Hu Ho Hi | w Hu];
    intros w0 [= <-]; unfold Main.cycle_outcome; rewrite Hu; [| | | reflexivity]; cbv zeta.
  - now rewrite (Main.healthy_guard e w Ho), Hi.
  - now rewrite Hf, (proj2 (Z.ltb_lt _ _) Ho).
  - now rewrite (Main.healthy_guard e w Ho), Hi.
Qed.

(** The rules and the code agree: the next configuration is the outcome
    of the body. *)
Lemma step_iff (e : Env) (w : World) (c : config) :
  Date.valid_tm (localtime e) ->
  (step e (Running w) c <-> c = config_of (Main.cycle e w)).
Proof.
  intros Hv. split.
  - intros H. rewrite (Main.cycle_run e w Hv). now apply (step_outcome e _ _ H).
  - intros ->. now apply step_cycle.
Qed.

Lemma step_functional (e : Env) (c c1 c2 : config) :
  step e c c1 -> step e c c2 -> c1 = c2.
Proof.
  intros H1 H2. destruct (step_running e c c1 H1) as (w & ->).
  now rewrite (step_outcome e _ _ H1 w), (step_outcome e _ _ H2 w).
Qed.

Lemma exited_stuck (e : Env) (c c' : config) :
  step e c c' -> forall code msg w, c <> Exited code msg w /\ c <> Killed w.
Proof. intros H code msg w. destruct (step_running e c c' H) as (w0 & ->). now split. Qed.

(** ** The invariant *)

Lemma whole_lines_line (s : string) (e : Env) (u v : Z) :
  whole_lines (s ++ Main.line e u v).
Proof.
  right. exists (s ++ Main.fields e u v). now rewrite Main.line_fields, append_assoc.
Qed.

Lemma inv_init (c : config) : init c -> inv c.
Proof.
  intros [-> | ->]; cbn [inv].
  - split; [reflexivity |]. split; [apply initial_wf |].
    split; [apply Osd.initial_osd_ok |]. split; [now left | reflexivity].
  - split; [reflexivity |]. split; [now left | reflexivity].
Qed.

Lemma inv_step (e : Env) (c c' : config) : ok e -> inv c -> step e c c' -> inv c'.
Proof.
  intros _ Hc H. destruct H as [w u v Hu Ho Hi | w u Hu Hf Ho | w u Hu Ho Hi | w Hu];
    cbn [inv] in *.
  - destruct Hc as (Hb & Hw & Hosd & Hl & Hk).
    split; [reflexivity |]. split; [now apply Main.cycle_post_wf |].
    split; [now apply Main.cycle_post_osd_ok |].
    rewrite Main.cycle_post_dzen_in, Main.cycle_post_clock, Hb.
    split; [apply whole_lines_line | lia].
  - split; [reflexivity |]. split; [right; now left | reflexivity].
  - split; [reflexivity |]. split; [right; right; now left | reflexivity].
  - destruct Hc as (_ & _ & _ & Hl & _).
    now rewrite <- (unchanged_proj dzen_in Main.mask2 _ _ (fun _ => eq_refl)
                     (Main.after_temp_frame e w)).
Qed.

(** ** Runs *)

Lemma for_each_steps_ok (es : list Env) (w w' : World) :
  Forall ok es -> for_each Main.cycle es w = Ok tt w' ->
  steps es (Running w) (Running w').
Proof.
  intros Hes. revert w. induction Hes as [|e es He _ IH]; intros w.
  - intros [= <-]. apply Trans.steps_nil.
  - cbn [for_each]. intros H. apply bind_ok_inv in H as ([] & w1 & H1 & H2).
    apply (Trans.steps_cons e es _ (Running w1)); [exact He | | now apply IH].
    apply (step_iff e w _ He). now rewrite H1.
Qed.

Lemma steps_for_each (es : list Env) (c c' : config) :
  steps es c c' -> forall w w', c = Running w -> c' = Running w' ->
  for_each Main.cycle es w = Ok tt w'.
Proof.
  induction 1 as [c | e es c1 c2 c3 Ho Hs Hr IH]; intros w w' E1 E2; subst.
  - now injection E2 as ->.
  - apply (step_iff e w _ Ho) in Hs. cbn [for_each].
    destruct (Main.cycle e w) as [[] w1| |] eqn:E; cbn [config_of] in Hs; subst.
    + prog_step E. now apply IH.
    + inversion Hr as [| e' es' a b c' Ho' Hs' Hr']; subst.
      now destruct (exited_stuck e' _ _ Hs' code msg s).
    + inversion Hr as [| e' es' a b c' Ho' Hs' Hr']; subst.
      now destruct (exited_stuck e' _ _ Hs' 0 "" s).
Qed.

Lemma healthy_run_ok (es : list Env) (w : World) :
  healthy_run w es -> exists w', for_each Main.cycle es w = Ok tt w'.
Proof.
  revert w. induction es as [|e es IH]; intros w; [now exists w |].
  intros [He Hr]. destruct (Main.cycle_healthy e w He) as (u & v & _ & _ & Hc).
  rewrite Hc in Hr. destruct (IH _ Hr) as (w' & H).
  exists w'. apply for_each_ok_cons. eauto.
Qed.

Lemma ok_healthy_run (es : list Env) (w w' : World) :
  Forall ok es -> for_each Main.cycle es w = Ok tt w' -> healthy_run w es.
Proof.
  intros Hes. revert w. induction Hes as [|e es He _ IH]; intros w; [easy |].
  intros H. apply for_each_ok_cons in H as (w1 & H1 & H2).
  split.
  - apply (Main.cycle_returns_ok e w He). now rewrite H1.
  - rewrite H1. now apply IH.
Qed.

(** The lines of a run that returns. *)
Lemma run_lines (es : list Env) (w w' : World) :
  Forall ok es -> fp_buf w = "" -> for_each Main.cycle es w = Ok tt w' ->
  exists ls,
    Forall2 (fun e l => exists u v, l = Main.line e u v) es ls /\
    dzen_in w' = dzen_in w ++ String.concat "" ls /\
    fp_buf w' = "" /\
    clock w' = clock w + Z.of_nat (length es).
Proof.
  intros Hes. revert w. induction Hes as [|e es He _ IH]; intros w Hw.
  - intros [= <-]. exists []. cbn [String.concat length]. rewrite !append_nil_r.
    split; [constructor |]. split; [reflexivity |]. split; [exact Hw | lia].
  - intros H. apply for_each_ok_cons in H as (w1 & H1 & H2).
    destruct (Main.cycle_ok_inv e w w1 He H1) as (u & v & _ & _ & _ & ->).
    destruct (IH _ (Main.cycle_post_fp_buf e u v w) H2) as (ls & HF & Hd & Hb & Hc).
    exists (Main.line e u v :: ls). split; [constructor; eauto |].
    rewrite Hd, Hc, Main.cycle_post_dzen_in, Main.cycle_post_clock, Hw.
    split; [| split; [exact Hb | cbn [length]; lia]].
    rewrite concat_cons. cbn [append]. now autorewrite with str.
Qed.

(** A healthy run returns and has written its lines, each with the
    usage and the volume of its own iteration. *)
Lemma healthy_lines (es : list Env) (w : World) :
  healthy_run w es -> fp_buf w = "" ->
  exists w',
    for_each Main.cycle es w = Ok tt w' /\
    dzen_in w' = dzen_in w ++ String.concat "" (lines w es) /\
    fp_buf w' = "" /\
    clock w' = clock w + Z.of_nat (length es).
Proof.
  revert w. induction es as [|e es IH]; intros w Hr Hw.
  - exists w. cbn [lines String.concat length]. rewrite append_nil_r.
    split; [reflexivity |]. split; [reflexivity |]. split; [exact Hw | lia].
  - destruct Hr as [He Hr].
    destruct (Main.cycle_healthy e w He) as (u & v & Hu & Hi & Hc).
    cbn [lines for_each]. unfold line_of. rewrite Hu, Hi. rewrite Hc in Hr |- *.
    cbn [final_state] in *.
    destruct (IH _ Hr (Main.cycle_post_fp_buf e u v w)) as (w' & Hf & Hd & Hb & Hk).
    exists w'. prog_step Hc. split; [exact Hf |].
    rewrite Hd, Hk, Main.cycle_post_dzen_in, Main.cycle_post_clock, Hw.
    split; [| split; [exact Hb | cbn [length]; lia]].
    rewrite concat_cons. cbn [append]. now autorewrite with str.
Qed.

(** Each line of a healthy run is the line of its environment. *)
Lemma lines_shape (es : list Env) (w : World) :
  healthy_run w es ->
  Forall2 (fun e l => exists u v, l = Main.line e u v) es (lines w es).
Proof.
  revert w. induction es as [|e es IH]; intros w Hr; [constructor |].
  destruct Hr as [He Hr].
  destruct (Main.cycle_healthy e w He) as (u & v & Hu & Hi & Hc).
  cbn [lines]. constructor; [| now apply IH].
  unfold line_of. rewrite Hu, Hi. eauto.
Qed.

(** ** Counting lines *)

Lemma main_writes (es : list Env) :
  Forall ok es -> Stream.Writes (length es) (Main.main true es).
Proof.
  intros Hes. cbn [Main.main]. rewrite <- (Nat.mul_1_r (length es)).
  exact (Stream.writes_for_each ok 1 Main.cycle es Main.cycle_writes Hes).
Qed.

(** ** Theorems *)

(** Two cycles of the sample laptop, a second apart. *)
Definition env_next : Env :=
  with_cp_time (mk_cp_times 150 0 70 9 1880) Main.env_sample.

Definition two_cycles : list Env := [Main.env_sample; env_next].

Lemma two_cycles_ok : Forall ok two_cycles.
Proof.
  apply Forall_cons; [exact Date.sample_tm_valid |].
  apply Forall_cons; [exact Date.sample_tm_valid | apply Forall_nil].
Qed.

Lemma two_cycles_healthy : healthy_run initial two_cycles.
Proof.
  apply (ok_healthy_run two_cycles initial
           (final_state (for_each Main.cycle two_cycles initial)) two_cycles_ok).
  vm_compute. reflexivity.
Qed.

(** C3: the invariant of the program.  At the top of the loop the
    stream is empty, every static holds an [int], the notifier handle is
    configured, dzen2 has received whole lines only and the clock has not
    gone back; a process that has ended through [exit] ended with status 1
    and one of the three messages of the program, its stream flushed; a
    process killed by the division has delivered whole lines only. *)
Theorem reachable_inv (c : config) : reachable c -> inv c.
Proof. apply Trans.reachable_invariant; [exact inv_init | exact inv_step]. Qed.

Lemma reachable_inv_witness : inv (config_of (Main.cycle Main.env_sample initial)).
Proof.
  apply (reachable_inv (config_of (Main.cycle Main.env_sample initial))).
  apply (Trans.reach_step Main.env_sample (Running initial)).
  - exact Date.sample_tm_valid.
  - apply Trans.reach_init. now left.
  - apply step_cycle. exact Date.sample_tm_valid.
Defined.

(** The rules of [step] describe the body of the loop: a running
    process has exactly one next configuration, the outcome of
    [Main.cycle]. *)
Theorem step_deterministic (e : Env) (w : World) :
  ok e ->
  step e (Running w) (config_of (Main.cycle e w)) /\
  forall c, step e (Running w) c -> c = config_of (Main.cycle e w).
Proof.
  intros He. split; [now apply step_cycle |].
  intros c H. now apply (step_iff e w c He).
Qed.

Lemma step_deterministic_witness :
  step Main.env_sample (Running initial) (config_of (Main.cycle Main.env_sample initial)) /\
  forall c, step Main.env_sample (Running initial) c ->
            c = config_of (Main.cycle Main.env_sample initial).
Proof. apply (step_deterministic Main.env_sample initial). exact Date.sample_tm_valid. Defined.

(** C11: a run of [n] cycles that returns has handed dzen2 [n] lines, one
    per cycle and in the order of the cycles, each the line of its
    environment with the usage measured from the sample before and the
    volume the mixer gave ([lines]); the stream is empty and [n] seconds
    have passed. *)
Theorem main_lines (es : list Env) (w w' : World) :
  Forall ok es -> fp_buf w = "" -> Main.main true es w = Ok tt w' ->
  exists ls,
    ls = lines w es /\
    Forall2 (fun e l => exists u v, l = Main.line e u v) es ls /\
    dzen_in w' = dzen_in w ++ String.concat "" ls /\
    fp_buf w' = "" /\
    clock w' = clock w + Z.of_nat (length es).
Proof.
  intros Hes Hw H. cbn [Main.main] in H.
  pose proof (ok_healthy_run es w w' Hes H) as Hr.
  destruct (healthy_lines es w Hr Hw) as (w1 & H1 & Hd & Hb & Hk).
  rewrite H in H1. injection H1 as <-.
  exists (lines w es). split; [reflexivity |]. split; [now apply lines_shape | auto].
Qed.

Lemma main_lines_witness :
  exists ls,
    ls = lines initial two_cycles /\
    Forall2 (fun e l => exists u v, l = Main.line e u v) two_cycles ls /\
    dzen_in (final_state (Main.main true two_cycles initial)) =
      dzen_in initial ++ String.concat "" ls /\
    fp_buf (final_state (Main.main true two_cycles initial)) = "" /\
    clock (final_state (Main.main true two_cycles initial)) =
      clock initial + Z.of_nat (length two_cycles).
Proof.
  apply (main_lines two_cycles initial).
  - exact two_cycles_ok.
  - reflexivity.
  - vm_compute. reflexivity.
Defined.

(** C16: the loop of [main] and the transition system agree: [main]
    returns from a run of cycles in a state exactly when the rules lead
    from the start of the run to that state. *)
Theorem main_steps (es : list Env) (w w' : World) :
  Forall ok es ->
  (Main.main true es w = Ok tt w' <-> steps es (Running w) (Running w')).
Proof.
  intros Hes. cbn [Main.main]. split.
  - now apply for_each_steps_ok.
  - intros H. now apply (steps_for_each es _ _ H).
Qed.

Lemma main_steps_witness :
  Main.main true two_cycles initial =
    Ok tt (final_state (Main.main true two_cycles initial)) <->
  steps two_cycles (Running initial)
    (Running (final_state (Main.main true two_cycles initial))).
Proof. apply (main_steps two_cycles initial). exact two_cycles_ok. Defined.

(** [main] gets through a run of cycles exactly when every cycle of
    the run is healthy in the state the cycles before it left. *)
Theorem main_returns_iff (es : list Env) (w : World) :
  Forall ok es ->
  (is_ok (Main.main true es w) = true <-> healthy_run w es).
Proof.
  intros Hes. cbn [Main.main]. split.
  - destruct (for_each Main.cycle es w) as [[] w'| |] eqn:E; [| discriminate ..].
    intros _. now apply (ok_healthy_run es w w').
  - intros H. now destruct (healthy_run_ok es w H) as (w' & ->).
Qed.

Lemma main_returns_iff_witness :
  is_ok (Main.main true two_cycles initial) = true <-> healthy_run initial two_cycles.
Proof. apply (main_returns_iff two_cycles initial). exact two_cycles_ok. Defined.

(** C21: a run that does not return stopped in its first unhealthy
    cycle: the cycles before it returned, and the process ended there,
    through [exit] with status 1 or killed by the division. *)
Theorem main_stops (es : list Env) (w : World) :
  Forall ok es -> is_ok (Main.main true es w) = false ->
  exists es1 e es2 w1,
    es = (es1 ++ e :: es2)%list /\
    for_each Main.cycle es1 w = Ok tt w1 /\
    ~ Main.healthy e w1 /\
    Main.main true es w = Main.cycle e w1 /\
    ((exists msg w', Main.cycle e w1 = Exit 1 msg w') \/
     Main.cycle e w1 = Fault (Main.after_temp e w1)).
Proof.
  intros Hes Hno. cbn [Main.main] in *.
  destruct (for_each_stops Main.cycle es w _ eq_refl Hno) as (es1 & e & es2 & w1 & -> & H1 & H2).
  exists es1, e, es2, w1. rewrite <- H2 in Hno |- *.
  assert (He : ok e) by (apply Forall_app in Hes as [_ H]; now inv H).
  split; [reflexivity |]. split; [exact H1 |].
  split.
  { intros H. destruct (Main.cycle_healthy e w1 H) as (u & v & _ & _ & Hc).
    now rewrite Hc in Hno. }
  split; [reflexivity |].
  destruct (Main.cycle e w1) as [|code msg w'|w'] eqn:E; [discriminate | left | right].
  - destruct (Main.cycle_exit_code e w1 w' code msg He E) as [-> _]. eauto.
  - now rewrite (Main.cycle_fault_inv e w1 w' He E).
Qed.

(** C13: dzen2 is handed one line end per cycle and never more.  Whatever
    the kernel answers, after a run of [n] cycles that returns, the text
    written holds exactly [n] more newlines than before, all of them
    received by dzen2; a run that stops has written at most [n], and if
    it stops through [exit], with status 1, what it wrote has been
    flushed. *)
Theorem main_line_count (es : list Env) (w : World) :
  Forall ok es -> fp_buf w = "" ->
  match Main.main true es w with
  | Ok _ w' =>
      Stream.lines (dzen_in w') = (Stream.lines (dzen_in w) + length es)%nat /\
      fp_buf w' = ""
  | Exit code _ w' =>
      code = 1 /\ fp_buf w' = "" /\
      (Stream.lines (dzen_in w') <= Stream.lines (dzen_in w) + length es)%nat
  | Fault w' =>
      (Stream.lines (dzen_in w') <= Stream.lines (dzen_in w) + length es)%nat
  end.
Proof.
  intros Hes Hw. pose proof (main_writes es Hes w) as H.
  unfold Stream.writes_outcome, Stream.pipe in H. rewrite Hw, append_nil_r in H.
  destruct (Main.main true es w) as [[] w'|code msg w'|w'] eqn:E.
  - destruct H as [(t & Ht & Hn) _].
    assert (Hb : fp_buf w' = "").
    { destruct (run_lines es w w' Hes Hw E) as (_ & _ & _ & Hb & _). exact Hb. }
    rewrite Hb, append_nil_r in Ht. rewrite Ht, Stream.lines_append. auto.
  - destruct H as (-> & Hb & t & Ht & Hn). rewrite Hb, append_nil_r in Ht.
    rewrite Ht, Stream.lines_append. repeat split; [exact Hb | lia].
  - destruct H as (t & Ht & Hn).
    apply (f_equal Stream.lines) in Ht. rewrite !Stream.lines_append in Ht. lia.
Qed.

Lemma main_line_count_witness :
  match Main.main true two_cycles initial with
  | Ok _ w' =>
      Stream.lines (dzen_in w') = (Stream.lines (dzen_in initial) + length two_cycles)%nat /\
      fp_buf w' = ""
  | Exit code _ w' =>
      code = 1 /\ fp_buf w' = "" /\
      (Stream.lines (dzen_in w') <= Stream.lines (dzen_in initial) + length two_cycles)%nat
  | Fault w' =>
      (Stream.lines (dzen_in w') <= Stream.lines (dzen_in initial) + length two_cycles)%nat
  end.
Proof. apply (main_line_count two_cycles initial); [exact two_cycles_ok | reflexivity]. Defined.

(** The sample laptop read twice within one tick of the kernel. *)
Definition stalled : list Env := [Main.env_sample; Main.env_sample].

Lemma main_stops_witness :
  exists es1 e es2 w1,
    stalled = (es1 ++ e :: es2)%list /\
    for_each Main.cycle es1 initial = Ok tt w1 /\
    ~ Main.healthy e w1 /\
    Main.main true stalled initial = Main.cycle e w1 /\
    ((exists msg w', Main.cycle e w1 = Exit 1 msg w') \/
     Main.cycle e w1 = Fault (Main.after_temp e w1)).
Proof.
  apply (main_stops stalled initial).
  - apply Forall_cons; [exact Date.sample_tm_valid |].
    apply Forall_cons; [exact Date.sample_tm_valid | apply Forall_nil].
  - vm_compute. reflexivity.
Defined.

Example two_cycles_two_lines :
  dzen_in (final_state (Main.main true two_cycles initial)) =
  Main.line Main.env_sample 17 19275 ++ Main.line env_next 4 19275.
Proof. vm_compute. reflexivity. Qed.

End Loop.
