(* ===== verification/Refine.v ===== *)
(** * Refine: the program implements its specification

    [Spec] describes the reporter on abstract data; [Main.cycle] is what
    the C code does.  This file relates them.  [sample] is the sample
    the specification sees when the values of a [Reading] are read,
    [related] is the refinement relation between a state of the process
    and a state of the specification, and [reads] and [in_range] are the
    conditions under which the code does what the specification says:
    the reads succeed and are in their physical ranges, the tick total
    has advanced, the hour has two digits.  [cycle_simulates] is the
    simulation of one cycle, [run_simulates] that of a run.  Outside
    these conditions the two differ; the examples at the end and the
    theorems named in the findings say how. *)

From Stdlib Require Import ZArith Lia String Ascii List Bool.
From S2P Require Import Prelude Trans CInt Printf Spec World Osd Dzen Field.
From S2P Require Import Battery Thermal Cpu Volume Date Main Loop.
Import ListNotations.
Import World.

Local Open Scope string_scope.
Local Open Scope Z_scope.

Module Refine.

(** ** The glyphs of dzen2 *)

(** An icon of dzen2: [^i(path)]. *)
Definition token (path : string) : string := "^i(" ++ path ++ ")".

#[export] Instance dzen_markup : Spec.Markup :=
  {| Spec.icon_plugged := token Dzen.ICON_POWER_AC;
     Spec.icon_battery := token Dzen.ICON_POWER_BAT;
     Spec.marker_unknown := "[?]";
     Spec.icon_temperature := token Dzen.ICON_TEMP;
     Spec.icon_cpu := token Dzen.ICON_LOAD;
     Spec.icon_volume_high := token Dzen.ICON_VOLUME_HIGH;
     Spec.icon_volume_muted := token Dzen.ICON_VOLUME_MUTE;
     Spec.separator := Dzen.dot |}.

(** ** From the process to the data of the specification *)

Definition state_of (z : Z) : Spec.BatteryState :=
  if z =? Battery.STATE_AC then Spec.OnAC
  else if z =? Battery.STATE_CHARGING then Spec.Charging
  else if z =? Battery.STATE_DISCHARGING then Spec.Discharging
  else Spec.Unknown.

Definition cpu_of (cp : cp_times) : Spec.CpuSample :=
  Spec.mk_CpuSample (CP_USER cp) (CP_NICE cp) (CP_SYS cp) (CP_IDLE cp).

Definition timestamp_of (t : tm) : Spec.Timestamp :=
  Spec.mk_Timestamp (tm_mday t) (tm_mon t + 1) (tm_year t + 1900) (tm_hour t) (tm_min t).

(** What dzen2 has received, from the lines of the specification. *)
Definition sink_text (ls : list string) : string :=
  String.concat "" (map (fun l => l ++ Main.newline) ls).

(** The raw values of one cycle, as the metrics source returns them. *)
Record Reading : Type := mk_Reading {
  raw_state : Z;
  raw_life : Z;
  raw_temp : Z;
  raw_cp : cp_times;
  raw_vol : Z;
  raw_tm : tm
}.

(** The sample the specification works on. *)
Definition sample (rd : Reading) : Spec.Sample :=
  let s := state_of (raw_state rd) in
  {| Spec.battery :=
       {| Spec.state := s; Spec.lifePercent := Spec.life_of s (raw_life rd) |};
     Spec.temperatureCelsius := Spec.celsius_of (raw_temp rd);
     Spec.cpu := cpu_of (raw_cp rd);
     Spec.levelPercent := Spec.level_of (raw_vol rd);
     Spec.timestamp := timestamp_of (raw_tm rd) |}.

(** Every read of the cycle succeeds and returns the value of [rd]; the
    mixer is open or opens; a display is there. *)
Record reads (e : Env) (w : World) (rd : Reading) : Prop := mk_reads {
  reads_state : sysctl_int e Battery.SYSCTL_BAT_STATE = Some (raw_state rd);
  reads_life : sysctl_int e Battery.SYSCTL_BAT_LIFE = Some (raw_life rd);
  reads_temp : sysctl_int e Thermal.SYSCTL_TEMP = Some (raw_temp rd);
  reads_cp : sysctl_cp_time e = Some (raw_cp rd);
  reads_open : fd w <> 0 \/ 0 <= CInt.wrap (open_mixer e);
  reads_vol : ioctl_mixer e (Volume.fd_of e w) = Some (raw_vol rd);
  reads_tm : localtime e = raw_tm rd;
  reads_display : xosd_new e <> None
}.

(** The values are in their physical ranges, and the tick counters have
    advanced since the sample the state remembers. *)
Record in_range (rd : Reading) (w : World) : Prop := mk_in_range {
  range_state : state_of (raw_state rd) <> Spec.Unknown;
  range_life : 0 <= raw_life rd <= 100;
  range_temp : Thermal.TZ_ZEROC <= raw_temp rd <= CInt.INT_MAX;
  range_idle : 0 <= CP_IDLE (raw_cp rd);
  range_ticks : CP_IDLE (raw_cp rd) <= Cpu.ticks (raw_cp rd) <= CInt.INT_MAX;
  range_total : 0 < Cpu.ticks (raw_cp rd) - prev_total w;
  range_diff : 0 <= CP_IDLE (raw_cp rd) - prev_idle w <=
               Cpu.ticks (raw_cp rd) - prev_total w;
  range_busy : 1000 * (Cpu.ticks (raw_cp rd) - prev_total w -
                       (CP_IDLE (raw_cp rd) - prev_idle w)) <= CInt.INT_MAX;
  range_tm : Date.valid_tm (raw_tm rd);
  range_hour : 10 <= tm_hour (raw_tm rd)
}.

(** The refinement relation: the statics hold the previous sample, dzen2
    has received the lines of the sink, the display has shown the alerts,
    and the process is at the top of its loop. *)
Record related (w : World) (st : Spec.State) : Prop := mk_related {
  rel_battery : Spec.prevBattery (Spec.previous st) = state_of (prev_state w);
  rel_temperature : Spec.prevTemperature (Spec.previous st) = prev_temp w;
  rel_total : Spec.totalTicks (Spec.prevCpu (Spec.previous st)) = prev_total w;
  rel_idle : Spec.idleTicks (Spec.prevCpu (Spec.previous st)) = prev_idle w;
  rel_nonneg : 0 <= prev_idle w <= prev_total w;
  rel_sink : dzen_in w = sink_text (Spec.sink st);
  rel_notified : osd_shown w = map Spec.message (Spec.notified st);
  rel_fp_buf : fp_buf w = "";
  rel_osd : Osd.osd_ok w
}.


(** ** The fields, one by one *)

Lemma icon_token (path : string) : Dzen.icon path = token path ++ " ".
Proof. unfold Dzen.icon, token. now autorewrite with str. Qed.

(** The icon of the battery field is the specified one in every state,
    unknown ones included. *)
Lemma power_icon_spec (z : Z) :
  Battery.power_icon z = Spec.battery_icon (state_of z) ++ " ".
Proof.
  unfold Battery.power_icon, state_of.
  destruct (z =? Battery.STATE_AC); [apply icon_token |].
  destruct (z =? Battery.STATE_CHARGING); [apply icon_token |].
  destruct (z =? Battery.STATE_DISCHARGING); [apply icon_token | reflexivity].
Qed.

(** The life printed is the specified one when the state is known and the
    value read is a percentage. *)
Lemma read_life_spec (e : Env) :
  state_of (Battery.read_state e) <> Spec.Unknown ->
  0 <= sysctlbyname_int e Battery.SYSCTL_BAT_LIFE "life" <= 100 ->
  Battery.read_life e =
  Spec.life_of (state_of (Battery.read_state e))
    (sysctlbyname_int e Battery.SYSCTL_BAT_LIFE "life").
Proof.
  unfold Battery.read_life, state_of. cbv zeta. intros Hs Hl.
  destruct (Z.eqb_spec (Battery.read_state e) Battery.STATE_AC) as [E|N].
  - rewrite E. reflexivity.
  - destruct (Battery.read_state e =? Battery.STATE_CHARGING);
      [| destruct (Battery.read_state e =? Battery.STATE_DISCHARGING); [| contradiction]];
      cbn [orb Spec.life_of]; unfold Spec.clamp;
      rewrite ?orb_true_r; cbn [orb]; lia.
Qed.

Lemma volume_icon_spec (l : Z) :
  (if l >? 0 then Dzen.icon Dzen.ICON_VOLUME_HIGH else Dzen.icon Dzen.ICON_VOLUME_MUTE) =
  Spec.volume_icon l ++ " ".
Proof.
  unfold Spec.volume_icon. rewrite Z.gtb_ltb.
  destruct (0 <? l); apply icon_token.
Qed.

(** With an hour of two digits the date is [DD-MM-YYYY HH:MM]. *)
Lemma date_text_spec (e : Env) :
  10 <= tm_hour (localtime e) ->
  Date.date_text e = Spec.render_timestamp (timestamp_of (localtime e)).
Proof.
  intros H. unfold Date.date_text, Date.strftime_text, Spec.render_timestamp, timestamp_of.
  cbn [Spec.day Spec.month Spec.year Spec.hour Spec.minute]. rewrite Date.yconv_04d.
  now rewrite (Printf.fmt_s2d_large _ H), (Printf.fmt_02d_large (tm_hour (localtime e)) H).
Qed.

(** ** What the code reads *)

Section Reads.
Context (e : Env) (w : World) (rd : Reading).
Hypothesis Hreads : reads e w rd.
Hypothesis Hrange : in_range rd w.

Lemma state_known : raw_state rd = 0 \/ raw_state rd = 6 \/ raw_state rd = 1.
Proof.
  pose proof (range_state _ _ Hrange) as H. unfold state_of in H.
  destruct (Z.eqb_spec (raw_state rd) Battery.STATE_AC); [now left |].
  destruct (Z.eqb_spec (raw_state rd) Battery.STATE_CHARGING); [now right; left |].
  destruct (Z.eqb_spec (raw_state rd) Battery.STATE_DISCHARGING); [now right; right |].
  contradiction.
Qed.

Lemma read_state_raw : Battery.read_state e = raw_state rd.
Proof.
  apply sysctlbyname_int_ok; [apply (reads_state _ _ _ Hreads) |].
  unfold CInt.in_int, CInt.INT_MIN, CInt.INT_MAX. pose proof state_known. lia.
Qed.

Lemma read_life_raw :
  sysctlbyname_int e Battery.SYSCTL_BAT_LIFE "life" = raw_life rd.
Proof.
  apply sysctlbyname_int_ok; [apply (reads_life _ _ _ Hreads) |].
  unfold CInt.in_int, CInt.INT_MIN, CInt.INT_MAX. pose proof (range_life _ _ Hrange). lia.
Qed.

Lemma read_temp_raw : Thermal.read_temp e = raw_temp rd.
Proof.
  apply sysctlbyname_int_ok; [apply (reads_temp _ _ _ Hreads) |].
  pose proof (range_temp _ _ Hrange) as H.
  unfold CInt.in_int, CInt.INT_MIN, CInt.INT_MAX, Thermal.TZ_ZEROC in *. lia.
Qed.

Lemma cp_time_raw : sysctlbyname_cp_time e = raw_cp rd.
Proof. unfold sysctlbyname_cp_time. now rewrite (reads_cp _ _ _ Hreads). Qed.

Lemma curr_total_raw : Cpu.curr_total e = Cpu.ticks (raw_cp rd).
Proof.
  rewrite Cpu.curr_total_ticks, cp_time_raw. apply CInt.wrap_small.
  pose proof (range_ticks _ _ Hrange). pose proof (range_idle _ _ Hrange).
  unfold CInt.in_int, CInt.INT_MIN, CInt.INT_MAX in *. lia.
Qed.

Lemma curr_idle_raw : Cpu.curr_idle e = CP_IDLE (raw_cp rd).
Proof.
  unfold Cpu.curr_idle. rewrite cp_time_raw. apply CInt.wrap_small.
  pose proof (range_ticks _ _ Hrange). pose proof (range_idle _ _ Hrange).
  unfold CInt.in_int, CInt.INT_MIN, CInt.INT_MAX in *. lia.
Qed.

(** ** The derived values *)

Context (st : Spec.State).
Hypothesis Hrel : related w st.

Lemma diff_total_raw : Cpu.diff_total e w = Cpu.ticks (raw_cp rd) - prev_total w.
Proof.
  unfold Cpu.diff_total. rewrite curr_total_raw. apply CInt.sub_exact.
  pose proof (range_ticks _ _ Hrange). pose proof (range_total _ _ Hrange).
  pose proof (rel_nonneg _ _ Hrel).
  unfold CInt.in_int, CInt.INT_MIN, CInt.INT_MAX in *. lia.
Qed.

Lemma diff_idle_raw : Cpu.diff_idle e w = CP_IDLE (raw_cp rd) - prev_idle w.
Proof.
  unfold Cpu.diff_idle. rewrite curr_idle_raw. apply CInt.sub_exact.
  pose proof (range_ticks _ _ Hrange). pose proof (range_diff _ _ Hrange).
  pose proof (rel_nonneg _ _ Hrel).
  unfold CInt.in_int, CInt.INT_MIN, CInt.INT_MAX in *. lia.
Qed.

(** The usage the code computes is the specified one. *)
Lemma usage_of_spec :
  Cpu.usage_of e w =
  Some (Spec.cpuUsage (Spec.prevCpu (Spec.previous st)) (cpu_of (raw_cp rd))
          (Spec.lastUsage (Spec.previous st))).
Proof.
  pose proof (range_total _ _ Hrange) as Ht. pose proof (range_diff _ _ Hrange) as Hd.
  pose proof (range_busy _ _ Hrange) as Hb.
  unfold Cpu.usage_of. rewrite diff_total_raw, diff_idle_raw.
  rewrite (Cpu.usage_exact _ _ Ht Hd Hb), (Cpu.usage_round _ _ Ht Hd).
  unfold Spec.cpuUsage. cbv zeta.
  rewrite (rel_total _ _ Hrel), (rel_idle _ _ Hrel).
  change (Spec.totalTicks (cpu_of (raw_cp rd))) with (Cpu.ticks (raw_cp rd)).
  change (Spec.idleTicks (cpu_of (raw_cp rd))) with (CP_IDLE (raw_cp rd)).
  rewrite (proj2 (Z.ltb_lt _ _) Ht). unfold Spec.round_div. do 2 f_equal. lia.
Qed.

(** The alerts the code raises are the specified ones, in order. *)
Lemma is_discharging_state_of (z : Z) :
  Spec.is_discharging (state_of z) = (z =? Battery.STATE_DISCHARGING).
Proof.
  unfold state_of.
  destruct (Z.eqb_spec z Battery.STATE_AC) as [->|]; [reflexivity |].
  destruct (Z.eqb_spec z Battery.STATE_CHARGING) as [->|]; [reflexivity |].
  now destruct (z =? Battery.STATE_DISCHARGING).
Qed.

Lemma high_edge_spec_edge (prev temp : Z) :
  Thermal.high_edge prev temp = edge (fun t => Spec.HIGH_TEMPERATURE <=? t) prev temp.
Proof.
  unfold Thermal.high_edge, edge, Spec.HIGH_TEMPERATURE.
  now rewrite Z.geb_leb, (Z.leb_antisym prev 80), negb_involutive.
Qed.

Lemma life_spec : Battery.read_life e = Spec.lifePercent (Spec.battery (sample rd)).
Proof.
  rewrite read_life_spec.
  - now rewrite read_state_raw, read_life_raw.
  - rewrite read_state_raw. apply (range_state _ _ Hrange).
  - rewrite read_life_raw. apply (range_life _ _ Hrange).
Qed.

Lemma temp_spec : Thermal.temp_of e = Spec.temperatureCelsius (sample rd).
Proof.
  unfold Thermal.temp_of. rewrite read_temp_raw.
  apply Thermal.celsius_floor, (range_temp _ _ Hrange).
Qed.

Lemma level_spec : Volume.level (raw_vol rd) = Spec.levelPercent (sample rd).
Proof. apply Volume.level_mod. Qed.

Lemma on_battery_edge_spec_edge :
  Battery.on_battery_edge (prev_state w) (Battery.read_state e) =
  Spec.batteryJustStartedDischarging (fst (Spec.update (sample rd) (Spec.previous st))).
Proof.
  unfold Spec.update. cbv zeta. cbn [fst Spec.batteryJustStartedDischarging].
  rewrite (rel_battery _ _ Hrel). unfold edge, sample. cbv zeta.
  cbn [Spec.battery Spec.state].
  now rewrite !is_discharging_state_of, read_state_raw.
Qed.

Lemma high_edge_spec_update :
  Thermal.high_edge (prev_temp w) (Thermal.temp_of e) =
  Spec.temperatureJustCrossedHigh (fst (Spec.update (sample rd) (Spec.previous st))).
Proof.
  unfold Spec.update. cbv zeta. cbn [fst Spec.temperatureJustCrossedHigh].
  now rewrite (rel_temperature _ _ Hrel), high_edge_spec_edge, temp_spec.
Qed.

Lemma alerts_spec :
  Main.cycle_alerts e w =
  map Spec.message
    (Spec.evaluate (fst (Spec.update (sample rd) (Spec.previous st)))
       (Spec.battery (sample rd))).
Proof.
  unfold Main.cycle_alerts, Battery.bat_alerts, Thermal.temp_alerts, Spec.evaluate.
  rewrite on_battery_edge_spec_edge, high_edge_spec_update, life_spec.
  unfold Spec.LOW_BATTERY.
  destruct (Spec.batteryJustStartedDischarging _),
    (Spec.lifePercent _ <? 10), (Spec.temperatureJustCrossedHigh _); reflexivity.
Qed.

(** The line the code writes is the specified rendering. *)
Lemma fields_render (u : Z) :
  Main.fields e u (raw_vol rd) =
  Spec.render (Spec.battery (sample rd)) (Spec.temperatureCelsius (sample rd)) u
    (Spec.levelPercent (sample rd)) (Spec.timestamp (sample rd)).
Proof.
  unfold Main.fields, Battery.bat_text, Thermal.temp_text, Cpu.cpu_text, Volume.vol_text.
  rewrite power_icon_spec, volume_icon_spec, !icon_token, life_spec, temp_spec, level_spec.
  rewrite date_text_spec
    by (rewrite (reads_tm _ _ _ Hreads); apply (range_hour _ _ Hrange)).
  rewrite read_state_raw, (reads_tm _ _ _ Hreads).
  unfold Spec.render. cbn [Spec.icon_temperature Spec.icon_cpu Spec.separator dzen_markup].
  now autorewrite with str.
Qed.

Lemma nominal_healthy : Main.healthy e w.
Proof.
  split.
  - rewrite (reads_tm _ _ _ Hreads). apply (range_tm _ _ Hrange).
  - unfold Cpu.runs. now rewrite usage_of_spec.
  - apply (reads_open _ _ _ Hreads).
  - now rewrite (reads_vol _ _ _ Hreads).
Qed.

End Reads.

Lemma sink_text_snoc (ls : list string) (l : string) :
  sink_text (ls ++ [l]) = sink_text ls ++ l ++ Main.newline.
Proof.
  unfold sink_text. induction ls as [|x ls IH].
  - cbn. now autorewrite with str.
  - cbn [map app]. rewrite !concat_cons, IH. now autorewrite with str.
Qed.

(** ** The simulation *)

(** One nominal cycle of the program is one cycle of the specification. *)
Lemma cycle_related (e : Env) (w : World) (rd : Reading) (st : Spec.State) :
  reads e w rd -> in_range rd w -> related w st ->
  exists u,
    Main.cycle e w = Ok tt (Main.cycle_post e u (raw_vol rd) w) /\
    related (Main.cycle_post e u (raw_vol rd) w) (Spec.cycle (sample rd) st).
Proof.
  intros Hreads Hrange Hrel.
  destruct (Main.cycle_healthy e w (nominal_healthy e w rd Hreads Hrange st Hrel))
    as (u & v & Hu & Hv & Hc).
  rewrite (reads_vol _ _ _ Hreads) in Hv. injection Hv as <-.
  rewrite (usage_of_spec e w rd Hreads Hrange st Hrel) in Hu. injection Hu as Hu.
  change (cpu_of (raw_cp rd)) with (Spec.cpu (sample rd)) in Hu.
  exists u. split; [exact Hc |].
  destruct (Main.cycle_post_statics e u (raw_vol rd) w) as (E1 & E2 & E3 & E4 & _).
  unfold Spec.cycle, Spec.update. cbv zeta.
  split; cbn [Spec.previous Spec.sink Spec.notified Spec.prevBattery Spec.prevTemperature
              Spec.prevCpu Spec.cpuUsagePercent].
  - now rewrite E1, (read_state_raw e w rd Hreads Hrange).
  - now rewrite E2, (temp_spec e w rd Hreads Hrange).
  - now rewrite E3, (curr_total_raw e w rd Hreads Hrange).
  - now rewrite E4, (curr_idle_raw e w rd Hreads Hrange).
  - rewrite E3, E4, (curr_total_raw e w rd Hreads Hrange),
      (curr_idle_raw e w rd Hreads Hrange).
    pose proof (range_idle _ _ Hrange). pose proof (range_ticks _ _ Hrange). lia.
  - rewrite Main.cycle_post_dzen_in, (rel_fp_buf _ _ Hrel), (rel_sink _ _ Hrel).
    rewrite sink_text_snoc, Main.line_fields, Hu.
    now rewrite (fields_render e w rd Hreads Hrange).
  - rewrite Main.cycle_post_osd_shown
      by (split; [apply (rel_osd _ _ Hrel) | right; apply (reads_display _ _ _ Hreads)]).
    rewrite (rel_notified _ _ Hrel), map_app. f_equal.
    apply (alerts_spec e w rd Hreads Hrange st Hrel).
  - reflexivity.
  - apply Main.cycle_post_osd_ok, (rel_osd _ _ Hrel).
Qed.

(** The program restricted to nominal cycles, as a system labelled by the
    environment and the values read in it; the specification, as a system
    labelled by samples. *)
Definition nominal_step (l : Env * Reading) (c c' : Loop.config) : Prop :=
  Loop.step (fst l) c c' /\
  exists w, c = Loop.Running w /\ reads (fst l) w (snd l) /\ in_range (snd l) w.

Definition spec_step (s : Spec.Sample) (st st' : Spec.State) : Prop :=
  st' = Spec.cycle s st.

Definition config_related (c : Loop.config) (st : Spec.State) : Prop :=
  exists w, c = Loop.Running w /\ related w st.

Definition label (l : Env * Reading) (s : Spec.Sample) : Prop := s = sample (snd l).

Definition nominal_steps : list (Env * Reading) -> Loop.config -> Loop.config -> Prop :=
  Trans.steps (fun l => Loop.ok (fst l)) nominal_step.

Definition spec_steps : list Spec.Sample -> Spec.State -> Spec.State -> Prop :=
  Trans.steps (fun _ => True) spec_step.

Lemma nominal_simulation (l : Env * Reading) (c c' : Loop.config) :
  Loop.ok (fst l) -> nominal_step l c c' ->
  forall st, config_related c st ->
  exists s st', label l s /\ True /\ spec_step s st st' /\ config_related c' st'.
Proof.
  intros Hok [Hs (w & -> & Hreads & Hrange)] st (w0 & [= <-] & Hrel).
  destruct (cycle_related (fst l) w (snd l) st Hreads Hrange Hrel) as (u & Hc & Hrel').
  apply (Loop.step_iff (fst l) w c' Hok) in Hs. rewrite Hc in Hs. subst c'.
  exists (sample (snd l)), (Spec.cycle (sample (snd l)) st).
  split; [reflexivity |]. split; [exact I |]. split; [reflexivity |].
  eexists. split; [reflexivity | exact Hrel'].
Qed.

Lemma spec_steps_run (ss : list Spec.Sample) (st st' : Spec.State) :
  spec_steps ss st st' -> st' = Spec.run ss st.
Proof.
  induction 1 as [c | s ss a b c _ Hs _ IH]; [reflexivity |].
  unfold spec_step in Hs. subst b. exact IH.
Qed.

Lemma label_map (ls : list (Env * Reading)) (ss : list Spec.Sample) :
  Forall2 label ls ss -> ss = map (fun l => sample (snd l)) ls.
Proof. induction 1 as [|l s ls ss Hl _ IH]; [reflexivity |]. cbn [map]. now rewrite Hl, IH. Qed.

Lemma related_initial : related initial Spec.initial.
Proof. split; try reflexivity; [cbn; lia | apply Osd.initial_osd_ok]. Qed.

(** ** Theorems *)

(** The sample laptop at 14:05, and what is read on it. *)
Definition tm_afternoon : tm := mk_tm 5 14 8 10 126.

Definition env_nominal : Env := with_time tm_afternoon Main.env_sample.

Definition reading_nominal : Reading :=
  mk_Reading 1 83 3032 (mk_cp_times 120 0 60 7 870) 19275 tm_afternoon.

Lemma tm_afternoon_valid : Date.valid_tm tm_afternoon.
Proof. split; cbv; split; discriminate. Qed.

Lemma reads_nominal : reads env_nominal initial reading_nominal.
Proof. split; try reflexivity; [right; cbv | cbv]; discriminate. Qed.

Lemma in_range_nominal : in_range reading_nominal initial.
Proof. split; try exact tm_afternoon_valid; cbv; try split; discriminate. Qed.

(** C2: one cycle of the program is one cycle of the specification.
    When every read succeeds with a value in its physical range, the tick
    counters have advanced and the hour has two digits, the cycle returns
    and leaves a state that the specification's cycle describes: the
    statics hold the sample, dzen2 has received the line the
    [LineFormatter] renders, the display has shown the alerts of the
    [AlertEngine], in order. *)
Theorem cycle_simulates (e : Env) (w : World) (rd : Reading) (st : Spec.State) :
  reads e w rd -> in_range rd w -> related w st ->
  exists w',
    Main.cycle e w = Ok tt w' /\ related w' (Spec.cycle (sample rd) st).
Proof.
  intros Hreads Hrange Hrel.
  destruct (cycle_related e w rd st Hreads Hrange Hrel) as (u & Hc & Hrel').
  eauto.
Qed.

Lemma cycle_simulates_witness :
  exists w',
    Main.cycle env_nominal initial = Ok tt w' /\
    related w' (Spec.cycle (sample reading_nominal) Spec.initial).
Proof.
  apply (cycle_simulates env_nominal initial reading_nominal Spec.initial).
  - exact reads_nominal.
  - exact in_range_nominal.
  - exact related_initial.
Defined.

(** C14: every nominal run of the program is a run of the specification:
    started in related states, the loop and the specification's loop over
    the samples read end in related states.  In particular what dzen2
    has received is the sink of the specification, line by line, and the
    messages displayed are its notifications. *)
Theorem run_simulates (ls : list (Env * Reading)) (w : World) (c' : Loop.config)
  (st : Spec.State) :
  nominal_steps ls (Loop.Running w) c' -> related w st ->
  exists w',
    c' = Loop.Running w' /\
    related w' (Spec.run (map (fun l => sample (snd l)) ls) st).
Proof.
  intros Hs Hrel.
  destruct (Trans.simulation_steps _ _ _ _ label config_related nominal_simulation
              ls _ _ Hs st (ex_intro _ w (conj eq_refl Hrel)))
    as (ss & st' & HF & Hss & (w' & -> & Hrel')).
  exists w'. split; [reflexivity |].
  now rewrite <- (label_map ls ss HF), <- (spec_steps_run ss st st' Hss).
Qed.

Lemma nominal_steps_one :
  nominal_steps [(env_nominal, reading_nominal)] (Loop.Running initial)
    (Loop.config_of (Main.cycle env_nominal initial)).
Proof.
  apply Trans.steps_one; [exact tm_afternoon_valid |].
  split; [apply Loop.step_cycle; exact tm_afternoon_valid |].
  exists initial. split; [reflexivity |]. split; [exact reads_nominal | exact in_range_nominal].
Qed.

Lemma run_simulates_witness :
  exists w',
    Loop.config_of (Main.cycle env_nominal initial) = Loop.Running w' /\
    related w'
      (Spec.run (map (fun l => sample (snd l)) [(env_nominal, reading_nominal)])
         Spec.initial).
Proof.
  apply (run_simulates [(env_nominal, reading_nominal)] initial).
  - exact nominal_steps_one.
  - exact related_initial.
Defined.

(** C15: the line of a nominal cycle is the rendering of its sample: the
    five fields in the specified order with the specified icons, each
    number printed as specified, and the newline. *)
Theorem line_renders (e : Env) (w : World) (rd : Reading) (u : Z) :
  reads e w rd -> in_range rd w ->
  Main.line e u (raw_vol rd) =
  Spec.render (Spec.battery (sample rd)) (Spec.temperatureCelsius (sample rd)) u
    (Spec.levelPercent (sample rd)) (Spec.timestamp (sample rd)) ++ Main.newline.
Proof.
  intros Hreads Hrange. rewrite Main.line_fields.
  now rewrite (fields_render e w rd Hreads Hrange).
Qed.

Lemma line_renders_witness :
  Main.line env_nominal 17 (raw_vol reading_nominal) =
  Spec.render (Spec.battery (sample reading_nominal))
    (Spec.temperatureCelsius (sample reading_nominal)) 17
    (Spec.levelPercent (sample reading_nominal))
    (Spec.timestamp (sample reading_nominal)) ++ Main.newline.
Proof.
  apply (line_renders env_nominal initial reading_nominal 17).
  - exact reads_nominal.
  - exact in_range_nominal.
Defined.

(** Where the program leaves its specification. *)

(** Below 10 the hour is padded with a space, not with a zero. *)
Example hour_padding_differs :
  Date.date_text Main.env_sample = "08-11-2026  9:05" /\
  Spec.render_timestamp (timestamp_of (localtime Main.env_sample)) = "08-11-2026 09:05".
Proof. split; vm_compute; reflexivity. Qed.

(** On an unchanged total the specification reuses the last usage; the
    program is killed. *)
Example zero_total_differs :
  Spec.cpuUsage (Spec.mk_CpuSample 120 0 60 870) (Spec.mk_CpuSample 120 0 60 870) 17 = 17 /\
  Cpu.usage (1050 - 1050) (870 - 870) = None.
Proof. split; reflexivity. Qed.

End Refine.
