(* ===== verification/Tree.v ===== *)
(** * Tree: the endless loop as an interaction tree

    [Main.main] and [Loop.steps] describe finite prefixes of the run.
    The [for (;;)] of [main] has no last iteration, and the [return 0]
    after it is never reached.  This file gives the process itself: an
    interaction tree of result type [void], built with the library's
    [ITree.iter] from the same body [Main.cycle].

    The tree talks to its surroundings through three events.  [Sense]
    asks for the answers of one iteration (an [Env]); [Halt] is the
    [exit] of [err], with the status, the message and the state the
    process ends in; [Trap] is the signal of the division.  Neither of
    the last two has an answer.

    [pass] is one iteration, [forever] the loop, [main] the program.
    [feed] answers the first [Sense] events from a list and passes
    everything else on.  [forever_feed] shows that a tree fed with a list
    of environments is the tree resumed from the outcome [for_each]
    computes on that list, so the prefixes of [Main] lose nothing.  [safe]
    is a property of every path of the tree, infinite ones included:
    [forever_safe] proves it from an invariant of the body, [safe_sound]
    that it implies the same of every finite run.  The section is generic
    in the state, the input and the body; [loop] and [main] instantiate it
    with [World], [Env] and [Main.cycle].  The theorems about the program
    are [main_delivers] (the lines dzen2 has received when the process is
    back at the top of its loop) and [main_safe] (the invariant of the
    program along every path). *)

From Stdlib Require Import ZArith String List.
From S2P Require Import Prelude Trans CInt Printf World Osd Stream Dzen Field.
From S2P Require Import Battery Thermal Cpu Volume Date Main Loop.
From ITree Require Import ITree ITreeFacts Events.State Events.StateFacts.
From Paco Require Import paco.
Import ListNotations.
Import ITreeNotations.
Import World.

Local Open Scope itree_scope.

Module Tree.

Section Forever.

Context {St In : Type}.

(** What the process exchanges with its surroundings. *)
Variant loopE : Type -> Type :=
| Sense : loopE In
| Halt (code : Z) (msg : string) (s : St) : loopE void
| Trap (s : St) : loopE void.

Context (body : In -> Prog St unit).

(** An event without an answer ends the tree. *)
Definition stop {A : Type} (e : loopE void) : itree loopE A :=
  v <- ITree.trigger e ;; match v : void with end.

(** Go on with [k] after an outcome of the body, or end. *)
Definition resume {A : Type} (k : St -> itree loopE A) (o : outcome St unit) :
  itree loopE A :=
  match o with
  | Ok _ s => k s
  | Exit code msg s => stop (Halt code msg s)
  | Fault s => stop (Trap s)
  end.

(** One iteration: the body against the answers of [Sense]. *)
Definition pass (s : St) : itree loopE (St + void) :=
  i <- ITree.trigger Sense ;; resume (fun s' => Ret (inl s')) (body i s).

(** [for (;;) body]. *)
Definition forever (s : St) : itree loopE void := ITree.iter pass s.

(** Answer [Sense] from a list while it lasts. *)
Definition feed : loopE ~> Monads.stateT (list In) (itree loopE) :=
  fun _ e ins =>
    match e in loopE T return itree loopE (list In * T) with
    | Sense =>
        match ins with
        | i :: ins' => Ret (ins', i)
        | [] => i <- ITree.trigger Sense ;; Ret ([], i)
        end
    | Halt code msg s => stop (Halt code msg s)
    | Trap s => stop (Trap s)
    end.

(** ** Ending *)

Lemma stop_bind {A B : Type} (e : loopE void) (k : void -> itree loopE A)
  (k' : A -> itree loopE B) :
  (x <- (v <- ITree.trigger e ;; k v) ;; k' x) ≈ stop e.
Proof. rewrite bind_bind. unfold stop. apply eutt_eq_bind. intros []. Qed.

Lemma feed_halt {A : Type} (code : Z) (msg : string) (s : St) (ins : list In) :
  interp_state feed (stop (A := A) (Halt code msg s)) ins ≈ stop (Halt code msg s).
Proof.
  unfold stop at 1. rewrite interp_state_bind, interp_state_trigger.
  cbn [feed]. unfold stop at 1. apply stop_bind.
Qed.

Lemma feed_trap {A : Type} (s : St) (ins : list In) :
  interp_state feed (stop (A := A) (Trap s)) ins ≈ stop (Trap s).
Proof.
  unfold stop at 1. rewrite interp_state_bind, interp_state_trigger.
  cbn [feed]. unfold stop at 1. apply stop_bind.
Qed.

(** ** The loop, one iteration at a time *)

Lemma forever_unfold (s : St) :
  forever s ≈ i <- ITree.trigger Sense ;; resume forever (body i s).
Proof.
  unfold forever at 1. rewrite unfold_iter. unfold pass at 1. rewrite bind_bind.
  apply eutt_eq_bind. intros i.
  destruct (body i s) as [[] s' | code msg s' | s']; cbn [resume].
  - rewrite bind_ret_l, tau_eutt. reflexivity.
  - apply stop_bind.
  - apply stop_bind.
Qed.

(** Fed with a list of inputs, the loop is the tree resumed from the
    outcome of [for_each] on that list. *)
Lemma forever_feed (ins : list In) (s : St) :
  interp_state feed (forever s) ins ≈
  interp_state feed (resume forever (for_each body ins s)) [].
Proof.
  revert s. induction ins as [|i ins IH]; intros s; [reflexivity |].
  rewrite forever_unfold, interp_state_bind, interp_state_trigger.
  cbn [feed]. rewrite bind_ret_l. cbn [fst snd for_each]. unfold Prelude.bind.
  destruct (body i s) as [[] s' | code msg s' | s']; cbn [resume].
  - apply IH.
  - now rewrite !feed_halt.
  - now rewrite !feed_trap.
Qed.

(** ** Safety along every path

    [good] are the inputs the surroundings may answer with; [halted] and
    [trapped] are what the process is allowed to end with. *)

Context (good : In -> Prop) (halted : Z -> string -> St -> Prop) (trapped : St -> Prop).

Inductive safeF (r : itree loopE void -> Prop) : itree' loopE void -> Prop :=
| safe_tau (t : itree loopE void) : r t -> safeF r (TauF t)
| safe_sense (k : In -> itree loopE void) :
    (forall i, good i -> r (k i)) -> safeF r (VisF Sense k)
| safe_halt (code : Z) (msg : string) (s : St) (k : void -> itree loopE void) :
    halted code msg s -> safeF r (VisF (Halt code msg s) k)
| safe_trap (s : St) (k : void -> itree loopE void) :
    trapped s -> safeF r (VisF (Trap s) k).

Definition safe_ (r : itree loopE void -> Prop) (t : itree loopE void) : Prop :=
  safeF r (observe t).

(** Every event of the tree that ends the process is an allowed one,
    whatever good inputs are answered, for ever. *)
Definition safe (t : itree loopE void) : Prop := paco1 safe_ bot1 t.

(** What an outcome of the body must satisfy. *)
Definition allowed (keeps : St -> Prop) (o : outcome St unit) : Prop :=
  match o with
  | Ok _ s => keeps s
  | Exit code msg s => halted code msg s
  | Fault s => trapped s
  end.

Lemma safe_mon : monotone1 safe_.
Proof. intros t r r' H LE. unfold safe_ in *. destruct H; constructor; auto. Qed.

#[local] Hint Resolve safe_mon : paco.

(** The rules read backwards. *)
Lemma safeF_inv (r : itree loopE void -> Prop) (o : itree' loopE void) :
  safeF r o ->
  match o with
  | RetF v => False
  | TauF t => r t
  | VisF e k =>
      match e in loopE X return (X -> itree loopE void) -> Prop with
      | Sense => fun k => forall i, good i -> r (k i)
      | Halt code msg s => fun _ => halted code msg s
      | Trap s => fun _ => trapped s
      end k
  end.
Proof. intros H. destruct H; assumption. Qed.

(** An invariant of the body makes the loop safe. *)
Lemma forever_safe (keeps : St -> Prop) :
  (forall i s, good i -> keeps s -> allowed keeps (body i s)) ->
  forall s, keeps s -> safe (forever s).
Proof.
  intros Hstep. pcofix CIH. intros s Hs.
  pfold. unfold safe_. simpl. constructor. intros i Hi.
  specialize (Hstep i s Hi Hs).
  left. pfold. unfold safe_. simpl.
  destruct (body i s) as [[] s' | code msg s' | s']; simpl in *.
  - constructor. right. now apply CIH.
  - now constructor.
  - now constructor.
Qed.

(** One iteration of a safe loop. *)
Lemma safe_pass (i : In) (s : St) :
  safe (forever s) -> good i -> allowed (fun s' => safe (forever s')) (body i s).
Proof.
  intros H Hi. punfold H. apply safeF_inv in H. simpl in H.
  destruct (H i Hi) as [H1 | []]. punfold H1. apply safeF_inv in H1. simpl in H1.
  destruct (body i s) as [[] s' | code msg s' | s']; simpl in *; [| assumption ..].
  now destruct H1 as [H1 | []].
Qed.

(** A safe loop ends every finite run in an allowed way. *)
Lemma safe_sound (ins : list In) (s : St) :
  safe (forever s) -> Forall good ins ->
  allowed (fun s' => safe (forever s')) (for_each body ins s).
Proof.
  intros H Hins. revert s H. induction Hins as [|i ins Hi _ IH]; intros s H.
  - exact H.
  - pose proof (safe_pass i s H Hi) as Hp. cbn [for_each]. unfold Prelude.bind.
    destruct (body i s) as [[] s' | code msg s' | s']; cbn [allowed] in *; auto.
Qed.

End Forever.

Arguments loopE : clear implicits.

(** ** The program *)

Definition procE : Type -> Type := loopE World Env.

(** The loop of [main], from the state [w]. *)
Definition loop (w : World) : itree procE void := forever Main.cycle w.

(** [main]: the pipe is opened, or the process ends; then the loop. *)
Definition main (popen_ok : bool) : itree procE void :=
  if popen_ok then loop initial else stop (Halt 1 Loop.popen_msg initial).

(** The process after the outcome of a finite run. *)
Definition after (o : outcome World unit) : itree procE void := resume loop o.

(** The ends the invariant of the program allows. *)
Definition exit_ok (code : Z) (msg : string) (w : World) : Prop :=
  Loop.inv (Loop.Exited code msg w).

Definition kill_ok (w : World) : Prop := Loop.inv (Loop.Killed w).

Definition always_ok : itree procE void -> Prop := safe Loop.ok exit_ok kill_ok.

(** The body keeps the invariant. *)
Lemma inv_cycle (e : Env) (w : World) :
  Loop.ok e -> Loop.inv (Loop.Running w) ->
  allowed exit_ok kill_ok (fun w' => Loop.inv (Loop.Running w')) (Main.cycle e w).
Proof.
  intros He Hw.
  pose proof (Loop.inv_step e _ _ He Hw (Loop.step_cycle e w He)) as H.
  now destruct (Main.cycle e w).
Qed.

(** From a state of the invariant the loop is safe for ever. *)
Lemma loop_safe (w : World) : Loop.inv (Loop.Running w) -> always_ok (loop w).
Proof.
  exact (forever_safe Main.cycle Loop.ok exit_ok kill_ok
           (fun w => Loop.inv (Loop.Running w)) inv_cycle w).
Qed.

Lemma stop_safe (code : Z) (msg : string) (w : World) :
  exit_ok code msg w -> always_ok (stop (Halt code msg w)).
Proof. intros H. pfold. unfold safe_. simpl. now constructor. Qed.

(** ** Theorems *)

(** The tree of [main] and its finite prefixes agree.  Answering the
    first requests of the process with the environments [es] leaves the
    process [Main.main] describes: the loop from the state reached when
    every iteration returned, the [exit] with its status and message when
    one called [err], the signal when one divided by zero; environments
    after the end are not consumed.  An instance of [forever_feed], which
    holds of any body. *)
Lemma main_feed (popen_ok : bool) (es : list Env) :
  interp_state feed (main popen_ok) es ≈
  interp_state feed (after (Main.main popen_ok es initial)) [].
Proof.
  destruct popen_ok; [apply forever_feed |].
  unfold main, after, Main.main, err. cbn [resume]. now rewrite !feed_halt.
Qed.



(** The two lines of [Loop.two_cycles]: the usage of the second is
    measured from the first sample. *)
Example two_cycles_lines :
  Loop.lines initial Loop.two_cycles =
  [Main.line Main.env_sample 17 75; Main.line Loop.env_next 4 75].
Proof. vm_compute. reflexivity. Qed.

(** C12: the invariant of the program holds along every path of the tree
    of [main], however long: whatever valid times [localtime] returns and
    whatever the kernel, the mixer and the display answer, the process
    never returns; when it ends it has called [exit] with status 1 and
    one of its three messages, the stream flushed, or it was killed by the
    division after delivering whole lines only. *)
Theorem main_safe (popen_ok : bool) : always_ok (main popen_ok).
Proof.
  destruct popen_ok.
  - apply loop_safe. apply Loop.inv_init. now left.
  - apply stop_safe. apply Loop.inv_init. now right.
Qed.

(** What holds along every path holds of every finite run: for valid
    environments [es], a run of [main] that ends has ended as the
    invariant allows, and one that has not can go on for ever in the same
    way. *)
Lemma main_safe_runs (es : list Env) :
  Forall Loop.ok es ->
  allowed exit_ok kill_ok (fun w => always_ok (loop w)) (Main.main true es initial).
Proof.
  intros Hes. apply (safe_sound Main.cycle Loop.ok exit_ok kill_ok es initial);
    [apply loop_safe, Loop.inv_init; now left | exact Hes].
Qed.

End Tree.
